(** * Parametric Building Studio: script compiler, intent mapper, merge

    A shallow embedding of [src/agentic-app/src/app/page.tsx].

    Conventions of the embedding.
    - A JavaScript string is a [list ascii]: a sequence of code units,
      restricted to the code units 0..255.  Literals are written
      [str "..."]; the double quote is the character [dq].
    - A finite JavaScript number is a rational [Q] holding its exact
      value.  [Math.min], [Math.max], [Number.isInteger] and
      [Number.prototype.toFixed] are defined by ECMAScript on exact values,
      so they are embedded exactly.  Products such as [width * 0.85] are
      exact here, where JavaScript rounds to the nearest double; the
      statements below about such values are bounds enforced by [clamp],
      which do not depend on that rounding.
    - [NaN] and [undefined] appear only where the source can produce them
      (the colour channels of [hexToRgb]).
    - The builtin [Number::toString] (radix 10) is a parameter of the
      development: it is used for interpolating a number into a template
      and by [toFixed] at magnitudes of 10^21 and above. *)

From Stdlib Require Import String Ascii DecimalString.
From Stdlib Require DecimalN.
From Stdlib Require Import ZArith QArith Qround Qminmax Qabs.
From Stdlib Require Import Qfield Lqa.
From Stdlib Require Import List Bool Lia.
Import ListNotations.

Local Open Scope list_scope.

(** ** Strings *)

Definition jsstring := list ascii.

Definition str (s : string) : jsstring := list_ascii_of_string s.

Definition code (c : ascii) : N := N_of_ascii c.

(** The double quote, the backslash, the line feed. *)
Definition dq : ascii := ascii_of_N 34.
Definition backslash : ascii := ascii_of_N 92.
Definition newline : ascii := ascii_of_N 10.

Definition is_digit (c : ascii) : bool :=
  (48 <=? code c)%N && (code c <=? 57)%N.

Definition all_digits (s : jsstring) : bool := forallb is_digit s.

(** Array.prototype.join *)
Fixpoint join (sep : jsstring) (parts : list jsstring) : jsstring :=
  match parts with
  | [] => []
  | [p] => p
  | p :: rest => p ++ sep ++ join sep rest
  end.

(** The decimal digits of a natural number, most significant first;
    ["0"] for zero. *)
Definition decimal (n : Z) : jsstring :=
  str (NilZero.string_of_uint (N.to_uint (Z.to_N n))).

(** [value.replace(/c/g, by)]: every occurrence of the character [c]
    is replaced by the string [by]. *)
Fixpoint replace_all_char (c : ascii) (by_ : jsstring) (s : jsstring) : jsstring :=
  match s with
  | [] => []
  | x :: rest =>
      (if Ascii.eqb x c then by_ else [x]) ++ replace_all_char c by_ rest
  end.

(** [s.replace(c, by)] with a string pattern: only the first occurrence
    is replaced. *)
Fixpoint replace_first_char (c : ascii) (by_ : jsstring) (s : jsstring) : jsstring :=
  match s with
  | [] => []
  | x :: rest =>
      if Ascii.eqb x c then by_ ++ rest else x :: replace_first_char c by_ rest
  end.

(** WhiteSpace and LineTerminator code units below 256: what
    [String.prototype.trim], [parseInt] and the regular-expression class
    [\s] skip. *)
Definition is_whitespace (c : ascii) : bool :=
  let n := code c in
  ((9 <=? n)%N && (n <=? 13)%N) || (n =? 32)%N || (n =? 160)%N.

(** LineTerminator code units below 256: what the regular-expression
    atom [.] refuses. *)
Definition is_line_terminator (c : ascii) : bool :=
  let n := code c in (n =? 10)%N || (n =? 13)%N.

(** ** Numbers *)

Definition Qlt_bool (x y : Q) : bool := negb (Qle_bool y x).

(** [Number.isInteger] on a finite number. *)
Definition isInteger (x : Q) : bool := Qeq_bool x (inject_Z (Qfloor x)).

Definition ten_pow_21 : Z := 10 ^ 21.

(** A number that may be [NaN]; [undefined] is [None] of an option. *)
Inductive number : Type :=
  | Finite (q : Q)
  | NaN.

(** The value of a digit in a radix up to 36. *)
Definition digit_value (c : ascii) : option Z :=
  let n := Z.of_N (code c) in
  if (48 <=? n)%Z && (n <=? 57)%Z then Some (n - 48)%Z
  else if (97 <=? n)%Z && (n <=? 122)%Z then Some (n - 87)%Z
  else if (65 <=? n)%Z && (n <=? 90)%Z then Some (n - 55)%Z
  else None.

Definition radix_digit (radix : Z) (c : ascii) : option Z :=
  match digit_value c with
  | Some v => if (v <? radix)%Z then Some v else None
  | None => None
  end.

Fixpoint drop_whitespace (s : jsstring) : jsstring :=
  match s with
  | c :: rest => if is_whitespace c then drop_whitespace rest else s
  | [] => []
  end.

(** The longest prefix of radix digits, read as an integer; [None] when
    the prefix is empty. *)
Fixpoint read_digits (radix : Z) (s : jsstring) (acc : option Z) : option Z :=
  match s with
  | c :: rest =>
      match radix_digit radix c with
      | Some v =>
          read_digits radix rest
            (Some (match acc with Some a => a * radix + v | None => v end)%Z)
      | None => acc
      end
  | [] => acc
  end.

(** The sign that [parseInt] and [parseFloat] read, and the text after
    it. *)
Definition read_sign (s : jsstring) : Z * jsstring :=
  match s with
  | c :: rest =>
      if Ascii.eqb c "-" then ((-1)%Z, rest)
      else if Ascii.eqb c "+" then (1%Z, rest)
      else (1%Z, s)
  | [] => (1%Z, s)
  end.

(** The prefix [0x] or [0X], which [parseInt] drops for radix 16. *)
Definition strip_prefix (radix : Z) (s : jsstring) : jsstring :=
  match s with
  | z :: x :: rest =>
      if (radix =? 16)%Z && Ascii.eqb z "0" && (Ascii.eqb x "x" || Ascii.eqb x "X")
      then rest else s
  | _ => s
  end.

(** [parseInt(string, radix)] for radix 10 or 16 (ECMAScript 19.2.5):
    leading white space is skipped, one sign is read, a [0x] prefix is
    dropped for radix 16, and the longest prefix of digits is converted;
    no digit gives [NaN].  The integer is exact here; JavaScript rounds
    integers beyond 2^53 to a double, which every caller in this program
    either cannot reach (two hex digits) or clamps to a small range
    straight away. *)
Definition parseInt (s : jsstring) (radix : Z) : number :=
  let '(sign, s) := read_sign (drop_whitespace s) in
  match read_digits radix (strip_prefix radix s) None with
  | Some v => Finite (inject_Z (sign * v))
  | None => NaN
  end.

(** ** Colours *)

Record Rgb : Type := mkRgb {
  rgb_r : option number;
  rgb_g : option number;
  rgb_b : option number
}.

(** [cleaned.match(/.{1,2}/g)]: the successive matches of one or two
    code units that are not line terminators; a line terminator is
    skipped.  The empty list stands for [null]. *)
Fixpoint match_chunks (s : jsstring) : list jsstring :=
  match s with
  | [] => []
  | a :: rest =>
      if is_line_terminator a then match_chunks rest
      else
        match rest with
        | [] => [[a]]
        | b :: rest' =>
            if is_line_terminator b then [a] :: match_chunks rest'
            else [a; b] :: match_chunks rest'
        end
  end.

(** [hex.replace("#", "")] *)
Definition cleaned (hex : jsstring) : jsstring := replace_first_char "#" [] hex.

(** The array [chunk] of [hexToRgb]. *)
Definition chunk (cleaned : jsstring) : list jsstring :=
  if (length cleaned =? 3)%nat
  then map (fun c => [c] ++ [c]) cleaned
  else
    match match_chunks cleaned with
    | [] => [str "00"; str "00"; str "00"]
    | l => l
    end.

(** [hexToRgb], page.tsx:95; a missing array element is [undefined]. *)
Definition hexToRgb (hex : jsstring) : Rgb :=
  let parsed := map (fun c => parseInt c 16) (chunk (cleaned hex)) in
  mkRgb (nth_error parsed 0) (nth_error parsed 1) (nth_error parsed 2).

(** [channel / 255] where the channel may be [NaN] or [undefined].  The
    quotient is exact here.  The double JavaScript computes is within
    2^-53 of it, and a quotient of a byte by 255 is at least 1/1020000
    away from every point where rounding to four digits changes, so both
    round to the same four digits. *)
Definition divide_by_255 (channel : option number) : number :=
  match channel with
  | Some (Finite q) => Finite (q / 255)
  | _ => NaN
  end.

(** Arithmetic on numbers that may be [NaN]: [NaN] is contagious, also
    through [Math.max] and [Math.min]. *)
Definition lift2 (f : Q -> Q -> Q) (a b : number) : number :=
  match a, b with
  | Finite x, Finite y => Finite (f x y)
  | _, _ => NaN
  end.

Definition num_add : number -> number -> number := lift2 Qplus.
Definition num_mul : number -> number -> number := lift2 Qmult.
Definition Math_max : number -> number -> number := lift2 Qmax.
Definition Math_min : number -> number -> number := lift2 Qmin.

(** [clamp], page.tsx:89 *)
Definition clamp (value lo hi : number) : number :=
  Math_min (Math_max value lo) hi.

Definition num (z : Z) : number := Finite (inject_Z z).

(** ** The configuration *)

Inductive FacadePattern : Type := grid | stacked | offset.
Inductive BalconyFrequency : Type := none | alternate | every | corners.
Inductive RoofStyle : Type := flat | pitched | sawtooth.

Definition FacadePattern_text (p : FacadePattern) : jsstring :=
  match p with
  | grid => str "grid" | stacked => str "stacked" | offset => str "offset"
  end.

Definition BalconyFrequency_text (f : BalconyFrequency) : jsstring :=
  match f with
  | none => str "none" | alternate => str "alternate"
  | every => str "every" | corners => str "corners"
  end.

Definition RoofStyle_text (r : RoofStyle) : jsstring :=
  match r with
  | flat => str "flat" | pitched => str "pitched" | sawtooth => str "sawtooth"
  end.

Record Colors : Type := mkColors {
  base : jsstring;
  accent : jsstring;
  glazing : jsstring;
  balcony : jsstring;
  roof : jsstring
}.

Record BuildingConfig : Type := mkConfig {
  projectName : jsstring;
  narrative : jsstring;
  floors : number;
  floorHeight : number;
  lobbyHeight : number;
  width : number;
  depth : number;
  coreWidth : number;
  coreDepth : number;
  baseHeight : number;
  structuralGrid : number;
  unitsPerFloor : number;
  facadePattern : FacadePattern;
  windowModule : number;
  windowWidth : number;
  windowHeight : number;
  spandrelHeight : number;
  balconyDepth : number;
  balconyFrequency : BalconyFrequency;
  roofStyle : RoofStyle;
  podiumLevels : number;
  podiumSetback : number;
  includePodium : bool;
  hasAtrium : bool;
  addRooftopGarden : bool;
  includeSolarPanels : bool;
  includeLightShelves : bool;
  colors : Colors
}.

(** [defaultConfig], page.tsx:51 *)
Definition defaultConfig : BuildingConfig := {|
  projectName := str "Aurora Habitat Tower";
  narrative := str "A mixed-use tower prioritizing daylight, biophilic terraces, and a flexible core for future adaptation.";
  floors := num 18;
  floorHeight := Finite (36 # 10);
  lobbyHeight := num 6;
  width := num 38;
  depth := num 26;
  coreWidth := num 10;
  coreDepth := num 8;
  baseHeight := Finite (12 # 10);
  structuralGrid := Finite (75 # 10);
  unitsPerFloor := num 8;
  facadePattern := grid;
  windowModule := Finite (32 # 10);
  windowWidth := Finite (26 # 10);
  windowHeight := Finite (24 # 10);
  spandrelHeight := Finite (8 # 10);
  balconyDepth := Finite (21 # 10);
  balconyFrequency := alternate;
  roofStyle := flat;
  podiumLevels := num 3;
  podiumSetback := num 4;
  includePodium := true;
  hasAtrium := true;
  addRooftopGarden := true;
  includeSolarPanels := true;
  includeLightShelves := false;
  colors := {|
    base := str "#4d5c6f";
    accent := str "#c48f5a";
    glazing := str "#85c3ff";
    balcony := str "#f2ede4";
    roof := str "#37414f"
  |}
|}.

(** [escapePythonString], page.tsx:92: backslashes first, then double
    quotes. *)
Definition escapePythonString (value : jsstring) : jsstring :=
  replace_all_char dq [backslash; dq]
    (replace_all_char backslash [backslash; backslash] value).

(** A line of the emitted script, written with [~] where the script has
    a double quote (the script itself contains no [~]). *)
Definition py (s : string) : jsstring :=
  map (fun c => if Ascii.eqb c "~" then dq else c) (str s).

(** The fixed library of construction routines: template lines 196 to
    436, which contain no interpolation. *)
Definition script_library : list jsstring := [
  [];
  [];
  py "# -------- Utility Helpers --------";
  py "def clear_scene():";
  py "    bpy.ops.object.select_all(action='SELECT')";
  py "    bpy.ops.object.delete()";
  py "    for collection in (bpy.data.meshes, bpy.data.lights, bpy.data.cameras):";
  py "        for block in list(collection):";
  py "            collection.remove(block, do_unlink=True)";
  [];
  [];
  py "def create_material(name, color_tuple):";
  py "    mat = bpy.data.materials.get(name)";
  py "    if mat is None:";
  py "        mat = bpy.data.materials.new(name=name)";
  py "        mat.use_nodes = True";
  py "    nodes = mat.node_tree.nodes";
  py "    principled = nodes.get(~Principled BSDF~)";
  py "    principled.inputs[0].default_value = color_tuple";
  py "    principled.inputs[7].default_value = 0.05";
  py "    return mat";
  [];
  [];
  py "# -------- Core Systems --------";
  py "def create_site_grid(cfg):";
  py "    width = cfg[~dimensions~][~width~]";
  py "    depth = cfg[~dimensions~][~depth~]";
  py "    bpy.ops.mesh.primitive_grid_add(x_subdivisions=12, y_subdivisions=12, size=max(width, depth) * 0.75)";
  py "    plane = bpy.context.active_object";
  py "    plane.name = f~{cfg['project_name']}::SiteGrid~";
  py "    plane.location = (0, 0, 0)";
  py "    plane_mat = create_material(~GroundPlane~, (0.12, 0.12, 0.12, 1.0))";
  py "    plane.data.materials.append(plane_mat)";
  [];
  [];
  py "def create_core(cfg, materials):";
  py "    dims = cfg[~dimensions~]";
  py "    height = dims[~floor_height~] * cfg[~floors~] + dims[~base_height~] * 2";
  py "    bpy.ops.mesh.primitive_cube_add(size=1)";
  py "    core = bpy.context.active_object";
  py "    core.name = ~VerticalCore~";
  py "    core.scale = (dims[~core_width~] / 2, dims[~core_depth~] / 2, height / 2)";
  py "    core.location = (0, 0, height / 2)";
  py "    core.data.materials.append(materials[~accent~])";
  py "    bpy.ops.object.modifier_add(type='BEVEL')";
  py "    core.modifiers['Bevel'].width = 0.2";
  py "    core.modifiers['Bevel'].segments = 2";
  py "    return core";
  [];
  [];
  py "def create_floor_plate(cfg, level, materials):";
  py "    dims = cfg[~dimensions~]";
  py "    z = dims[~base_height~] + dims[~floor_height~] * level + dims[~floor_height~] / 2";
  py "    height = dims[~floor_height~]";
  py "    if level == 0:";
  py "        height = cfg[~dimensions~][~lobby_height~]";
  py "        z = dims[~base_height~] + height / 2";
  py "    bpy.ops.mesh.primitive_cube_add(size=1)";
  py "    block = bpy.context.active_object";
  py "    block.name = f~Floor_{level + 1:02d}~";
  py "    block.scale = (dims[~width~] / 2, dims[~depth~] / 2, height / 2)";
  py "    block.location = (0, 0, z)";
  py "    block.data.materials.append(materials[~base~])";
  py "    return block";
  [];
  [];
  py "def create_balcony(cfg, level, col_index, total_cols, materials):";
  py "    facade = cfg[~facade~]";
  py "    dims = cfg[~dimensions~]";
  py "    if facade[~balcony_depth~] <= 0.05:";
  py "        return";
  py "    spacing = dims[~width~] / max(1, total_cols)";
  py "    x = -dims[~width~] / 2 + spacing * (col_index + 0.5)";
  py "    z_base = dims[~base_height~] + dims[~floor_height~] * level + dims[~floor_height~] * 0.6";
  py "    bpy.ops.mesh.primitive_cube_add(size=1)";
  py "    balcony = bpy.context.active_object";
  py "    balcony.name = f~Balcony_{level + 1:02d}_{col_index:02d}~";
  py "    balcony.scale = (facade[~window_width~] / 2, facade[~balcony_depth~] / 2, dims[~floor_height~] * 0.18)";
  py "    balcony.location = (x, dims[~depth~] / 2 + facade[~balcony_depth~] / 2, z_base)";
  py "    balcony.data.materials.append(materials[~balcony~])";
  py "    bpy.ops.object.modifier_add(type='BEVEL')";
  py "    balcony.modifiers['Bevel'].width = 0.08";
  py "    balcony.modifiers['Bevel'].segments = 2";
  [];
  [];
  py "def add_windows(cfg, level, side, materials):";
  py "    dims = cfg[~dimensions~]";
  py "    facade = cfg[~facade~]";
  py "    module = max(1.0, facade[~module~])";
  py "    window_w = facade[~window_width~]";
  py "    window_h = facade[~window_height~]";
  py "    is_front_back = side in (~front~, ~back~)";
  py "    width = dims[~width~] if is_front_back else dims[~depth~]";
  py "    depth = dims[~depth~] if is_front_back else dims[~width~]";
  py "    repetitions = max(1, int(width // module))";
  py "    forward = depth / 2 + 0.02";
  py "    forward = forward if side in (~front~, ~right~) else -forward";
  py "    parent = bpy.data.objects.get(f~Floor_{level + 1:02d}~)";
  py "    for idx in range(repetitions):";
  py "        bpy.ops.mesh.primitive_cube_add(size=1)";
  py "        win = bpy.context.active_object";
  py "        win.name = f~Window_{side}_{level + 1:02d}_{idx:03d}~";
  py "        spread = width / repetitions";
  py "        position = -width / 2 + spread * (idx + 0.5)";
  py "        if is_front_back:";
  py "            win.location = (position, forward, dims[~base_height~] + dims[~floor_height~] * level + window_h / 2 + facade[~spandrel_height~])";
  py "            win.scale = (window_w / 2, 0.05, window_h / 2)";
  py "        else:";
  py "            win.location = (forward, position, dims[~base_height~] + dims[~floor_height~] * level + window_h / 2 + facade[~spandrel_height~])";
  py "            win.scale = (0.05, window_w / 2, window_h / 2)";
  py "        win.data.materials.append(materials[~glazing~])";
  py "        if parent:";
  py "            win.parent = parent";
  [];
  [];
  py "def create_podium(cfg, materials):";
  py "    dims = cfg[~dimensions~]";
  py "    setback = cfg[~dimensions~][~podium_setback~]";
  py "    for level in range(cfg[~dimensions~][~podium_levels~]):";
  py "        bpy.ops.mesh.primitive_cube_add(size=1)";
  py "        pod = bpy.context.active_object";
  py "        pod.name = f~Podium_{level + 1}~";
  py "        shrink = setback * level";
  py "        height = dims[~floor_height~]";
  py "        pod.scale = ((dims[~width~] + setback * 2 - shrink) / 2, (dims[~depth~] + setback * 2 - shrink) / 2, height / 2)";
  py "        pod.location = (0, 0, dims[~base_height~] + height / 2 + level * height)";
  py "        pod.data.materials.append(materials[~accent~])";
  [];
  [];
  py "def apply_roof(cfg, materials):";
  py "    dims = cfg[~dimensions~]";
  py "    top_level = cfg[~floors~]";
  py "    z = dims[~base_height~] + dims[~floor_height~] * top_level + dims[~floor_height~] * 0.5";
  py "    bpy.ops.mesh.primitive_cube_add(size=1)";
  py "    roof = bpy.context.active_object";
  py "    roof.name = ~Roof~";
  py "    roof.scale = (dims[~width~] / 2, dims[~depth~] / 2, 0.4)";
  py "    roof.location = (0, 0, z)";
  py "    roof.data.materials.append(materials[~roof~])";
  py "    if cfg[~roof_style~] == ~pitched~:";
  py "        bpy.ops.object.modifier_add(type='SIMPLE_DEFORM')";
  py "        roof.modifiers['SimpleDeform'].deform_method = 'BEND'";
  py "        roof.modifiers['SimpleDeform'].angle = math.radians(12)";
  py "    elif cfg[~roof_style~] == ~sawtooth~:";
  py "        bpy.ops.object.modifier_add(type='ARRAY')";
  py "        roof.modifiers['Array'].count = 4";
  py "        roof.modifiers['Array'].relative_offset_displace[0] = 0.3";
  [];
  py "    if cfg[~include_solar_panels~]:";
  py "        panel_count = 10";
  py "        for idx in range(panel_count):";
  py "            bpy.ops.mesh.primitive_cube_add(size=1)";
  py "            panel = bpy.context.active_object";
  py "            panel.name = f~Solar_{idx:02d}~";
  py "            panel.scale = (1.2, 2.4, 0.05)";
  py "            panel.location = (";
  py "                -dims[~width~] / 2 + 2 + (idx % 5) * 3,";
  py "                -dims[~depth~] / 2 + 2 + (idx // 5) * 3,";
  py "                z + 0.35,";
  py "            )";
  py "            panel.data.materials.append(materials[~accent~])";
  py "            panel.rotation_euler[0] = math.radians(12)";
  [];
  py "    if cfg[~add_rooftop_garden~]:";
  py "        bpy.ops.mesh.primitive_plane_add(size=min(dims[~width~], dims[~depth~]) * 0.65, location=(0, 0, z + 0.2))";
  py "        garden = bpy.context.active_object";
  py "        garden.name = ~RooftopGarden~";
  py "        garden_mat = create_material(~RooftopGarden~, (0.18, 0.32, 0.18, 1))";
  py "        garden.data.materials.append(garden_mat)";
  [];
  [];
  py "def carve_atrium(cfg):";
  py "    if not cfg[~has_atrium~]:";
  py "        return";
  py "    dims = cfg[~dimensions~]";
  py "    bpy.ops.mesh.primitive_cube_add(size=1)";
  py "    atrium = bpy.context.active_object";
  py "    atrium.name = ~AtriumCut~";
  py "    atrium.scale = (dims[~width~] * 0.25, dims[~depth~] * 0.25, dims[~floor_height~] * cfg[~floors~] / 2)";
  py "    atrium.location = (0, 0, dims[~base_height~] + dims[~floor_height~] * cfg[~floors~] / 2)";
  py "    for obj in bpy.data.objects:";
  py "        if obj.name.startswith(~Floor_~):";
  py "            bool_mod = obj.modifiers.new(name=~AtriumBoolean~, type='BOOLEAN')";
  py "            bool_mod.operation = 'DIFFERENCE'";
  py "            bool_mod.object = atrium";
  py "    atrium.hide_viewport = True";
  py "    atrium.hide_render = True";
  [];
  [];
  py "def tag_metadata(cfg):";
  py "    if ~building_metadata~ not in bpy.context.scene:";
  py "        bpy.context.scene[~building_metadata~] = {}";
  py "    bpy.context.scene[~building_metadata~][cfg[~project_name~]] = cfg";
  [];
  [];
  py "def material_library(cfg):";
  py "    base = create_material(~Facade_Base~, cfg[~colors~][~base~])";
  py "    accent = create_material(~Facade_Accent~, cfg[~colors~][~accent~])";
  py "    glazing = create_material(~Facade_Glass~, cfg[~colors~][~glazing~])";
  py "    balcony = create_material(~Balcony_Frame~, cfg[~colors~][~balcony~])";
  py "    roof = create_material(~Roof_Finish~, cfg[~colors~][~roof~])";
  py "    return {~base~: base, ~accent~: accent, ~glazing~: glazing, ~balcony~: balcony, ~roof~: roof}";
  [];
  [];
  py "def build(cfg):";
  py "    clear_scene()";
  py "    create_site_grid(cfg)";
  py "    materials = material_library(cfg)";
  py "    create_core(cfg, materials)";
  py "    if cfg[~include_podium~]:";
  py "        create_podium(cfg, materials)";
  py "    for level in range(cfg[~floors~]):";
  py "        floor = create_floor_plate(cfg, level, materials)";
  py "        add_windows(cfg, level, ~front~, materials)";
  py "        add_windows(cfg, level, ~back~, materials)";
  py "        add_windows(cfg, level, ~left~, materials)";
  py "        add_windows(cfg, level, ~right~, materials)";
  py "        if cfg[~facade~][~balcony_frequency~] != ~none~ and level > 0 and cfg[~facade~][~balcony_depth~] > 0.05:";
  py "            module_count = max(3, int(cfg[~dimensions~][~width~] // cfg[~facade~][~module~]))";
  py "            if cfg[~facade~][~balcony_frequency~] == ~every~ or (cfg[~facade~][~balcony_frequency~] == ~alternate~ and level % 2 == 0):";
  py "                for col in range(module_count):";
  py "                    create_balcony(cfg, level, col, module_count, materials)";
  py "            elif cfg[~facade~][~balcony_frequency~] == ~corners~:";
  py "                corner_cols = max(2, module_count)";
  py "                for col in (0, corner_cols - 1):";
  py "                    create_balcony(cfg, level, col, corner_cols, materials)";
  py "        if cfg[~facade~][~include_light_shelves~] and level <= 6:";
  py "            bpy.ops.mesh.primitive_cube_add(size=1)";
  py "            shelf = bpy.context.active_object";
  py "            shelf.name = f~LightShelf_{level + 1:02d}~";
  py "            shelf.scale = (cfg[~dimensions~][~width~] / 2, 0.25, 0.05)";
  py "            shelf.location = (0, cfg[~dimensions~][~depth~] / 2 + 0.3, floor.location[2] + cfg[~facade~][~window_height~] / 2)";
  py "            shelf.data.materials.append(materials[~accent~])";
  py "    carve_atrium(cfg)";
  py "    apply_roof(cfg, materials)";
  py "    tag_metadata(cfg)";
  py "    bpy.context.view_layer.update()";
  [];
  [];
  py "if __name__ == ~__main__~:";
  py "    build(CONFIG)"
].

Section Builtins.

(** [Number::toString] of ECMAScript, radix 10. *)
Variable Number_toString : Q -> jsstring.

(** [Number.prototype.toFixed(f)] on a finite number, following
    ECMAScript 21.1.3.3: the sign is split off, a magnitude of 10^21 or
    more is rendered by [Number::toString], and otherwise [n] is the
    integer for which [n / 10^f - x] is closest to zero, the larger one
    on a tie. *)
Definition toFixed (x : Q) (f : nat) : jsstring :=
  let s := if Qlt_bool x 0 then str "-" else [] in
  let x := Qabs x in
  let m :=
    if Qle_bool (inject_Z ten_pow_21) x then Number_toString x
    else
      let n := Qfloor (x * inject_Z (10 ^ Z.of_nat f) + (1 # 2)) in
      let m := decimal n in
      match f with
      | O => m
      | S _ =>
          let k := length m in
          let m := if (k <=? f)%nat then repeat "0"%char (f + 1 - k) ++ m else m in
          let k := length m in
          firstn (k - f) m ++ str "." ++ skipn (k - f) m
      end
  in s ++ m.

(** [toFixed] on a number that may be [NaN]. *)
Definition number_toFixed (x : number) (f : nat) : jsstring :=
  match x with
  | Finite q => toFixed q f
  | NaN => str "NaN"
  end.

(** [formatNumber], page.tsx:124 *)
Definition formatNumber (value : number) : jsstring :=
  match value with
  | Finite q => if isInteger q then toFixed q 0 else toFixed q 2
  | NaN => number_toFixed NaN 2
  end.


(** [colorToPythonTuple], page.tsx:118 *)
Definition colorToPythonTuple (hex : jsstring) : jsstring :=
  let c := hexToRgb hex in
  let normalize := fun channel => number_toFixed (divide_by_255 channel) 4 in
  str "(" ++ normalize (rgb_r c) ++ str ", " ++ normalize (rgb_g c)
    ++ str ", " ++ normalize (rgb_b c) ++ str ", 1.0)".

(** ** The script compiler *)

Definition pythonBoolean (value : bool) : jsstring :=
  if value then str "True" else str "False".

Definition dimsPython (config : BuildingConfig) : jsstring :=
  join [newline] [
    py "{";
    py "        ~width~: " ++ formatNumber (width config) ++ py ",";
    py "        ~depth~: " ++ formatNumber (depth config) ++ py ",";
    py "        ~floor_height~: " ++ formatNumber (floorHeight config) ++ py ",";
    py "        ~lobby_height~: " ++ formatNumber (lobbyHeight config) ++ py ",";
    py "        ~base_height~: " ++ formatNumber (baseHeight config) ++ py ",";
    py "        ~core_width~: " ++ formatNumber (coreWidth config) ++ py ",";
    py "        ~core_depth~: " ++ formatNumber (coreDepth config) ++ py ",";
    py "        ~podium_levels~: " ++ formatNumber (podiumLevels config) ++ py ",";
    py "        ~podium_setback~: " ++ formatNumber (podiumSetback config);
    py "    }"
  ].

Definition facadePython (config : BuildingConfig) : jsstring :=
  join [newline] [
    py "{";
    py "        ~pattern~: ~" ++ FacadePattern_text (facadePattern config) ++ py "~,";
    py "        ~module~: " ++ formatNumber (windowModule config) ++ py ",";
    py "        ~window_width~: " ++ formatNumber (windowWidth config) ++ py ",";
    py "        ~window_height~: " ++ formatNumber (windowHeight config) ++ py ",";
    py "        ~spandrel_height~: " ++ formatNumber (spandrelHeight config) ++ py ",";
    py "        ~balcony_depth~: " ++ formatNumber (balconyDepth config) ++ py ",";
    py "        ~balcony_frequency~: ~" ++ BalconyFrequency_text (balconyFrequency config) ++ py "~,";
    py "        ~include_light_shelves~: " ++ pythonBoolean (includeLightShelves config);
    py "    }"
  ].

(** The header comment of the script: template lines 165 to 171. *)
Definition script_header (config : BuildingConfig) : list jsstring := [
  py "~~~";
  py "Blender Building Assistant Script";
  py "Generated for: " ++ escapePythonString (projectName config);
  py "Narrative: " ++ escapePythonString (narrative config);
  [];
  py "Run inside Blender's scripting workspace.";
  py "~~~";
  [];
  py "import bpy";
  py "import math";
  []
].

(** The two string entries of the CONFIG block: template lines 177, 178. *)
Definition config_project_name_line (config : BuildingConfig) : jsstring :=
  py "    ~project_name~: ~" ++ escapePythonString (projectName config) ++ py "~,".

Definition config_narrative_line (config : BuildingConfig) : jsstring :=
  py "    ~narrative~: ~" ++ escapePythonString (narrative config) ++ py "~,".

(** The rest of the CONFIG block: template lines 179 to 196. *)
Definition script_config_rest (config : BuildingConfig) : list jsstring := [
  py "    ~floors~: " ++ formatNumber (floors config) ++ py ",";
  py "    ~units_per_floor~: " ++ formatNumber (unitsPerFloor config) ++ py ",";
  py "    ~roof_style~: ~" ++ RoofStyle_text (roofStyle config) ++ py "~,";
  py "    ~include_podium~: " ++ pythonBoolean (includePodium config) ++ py ",";
  py "    ~has_atrium~: " ++ pythonBoolean (hasAtrium config) ++ py ",";
  py "    ~add_rooftop_garden~: " ++ pythonBoolean (addRooftopGarden config) ++ py ",";
  py "    ~include_solar_panels~: " ++ pythonBoolean (includeSolarPanels config) ++ py ",";
  py "    ~dimensions~: " ++ dimsPython config ++ py ",";
  py "    ~facade~: " ++ facadePython config ++ py ",";
  py "    ~colors~: {";
  py "        ~base~: " ++ colorToPythonTuple (base (colors config)) ++ py ",";
  py "        ~accent~: " ++ colorToPythonTuple (accent (colors config)) ++ py ",";
  py "        ~glazing~: " ++ colorToPythonTuple (glazing (colors config)) ++ py ",";
  py "        ~balcony~: " ++ colorToPythonTuple (balcony (colors config)) ++ py ",";
  py "        ~roof~: " ++ colorToPythonTuple (roof (colors config));
  py "    }";
  py "}"
].

(** [generateBlenderScript], page.tsx:127.  The template ends with a
    line feed, hence the final empty line. *)
Definition generateBlenderScript (config : BuildingConfig) : jsstring :=
  join [newline]
    (script_header config
       ++ [py "CONFIG = {";
           config_project_name_line config;
           config_narrative_line config]
       ++ script_config_rest config
       ++ script_library
       ++ [[]]).

End Builtins.

(** ** Overlays

    [Partial<BuildingConfig>]: every key may be absent.  The nested
    colours object is merged key by key by the object spread, so its keys
    may be absent as well at run time; the callers in this program always
    supply all five. *)

Module Partial.

Record colors_overlay : Type := mkColors {
  base : option jsstring;
  accent : option jsstring;
  glazing : option jsstring;
  balcony : option jsstring;
  roof : option jsstring
}.

Definition no_colors : colors_overlay := mkColors None None None None None.

Record t : Type := mk {
  projectName : option jsstring;
  narrative : option jsstring;
  floors : option number;
  floorHeight : option number;
  lobbyHeight : option number;
  width : option number;
  depth : option number;
  coreWidth : option number;
  coreDepth : option number;
  baseHeight : option number;
  structuralGrid : option number;
  unitsPerFloor : option number;
  facadePattern : option FacadePattern;
  windowModule : option number;
  windowWidth : option number;
  windowHeight : option number;
  spandrelHeight : option number;
  balconyDepth : option number;
  balconyFrequency : option BalconyFrequency;
  roofStyle : option RoofStyle;
  podiumLevels : option number;
  podiumSetback : option number;
  includePodium : option bool;
  hasAtrium : option bool;
  addRooftopGarden : option bool;
  includeSolarPanels : option bool;
  includeLightShelves : option bool;
  colors : option colors_overlay
}.

(** The object [{}]. *)
Definition empty : t :=
  mk None None None None None None None None None None None None None None None None None None None None None None None None None None None None.


(** [updates.key = v]: one key is written, the others are kept. *)
Definition set_projectName (v : jsstring) (u : t) : t :=
  let '(mk x0 x1 x2 x3 x4 x5 x6 x7 x8 x9 x10 x11 x12 x13 x14 x15 x16 x17 x18 x19 x20 x21 x22 x23 x24 x25 x26 x27) := u in
  mk (Some v) x1 x2 x3 x4 x5 x6 x7 x8 x9 x10 x11 x12 x13 x14 x15 x16 x17 x18 x19 x20 x21 x22 x23 x24 x25 x26 x27.
Definition set_narrative (v : jsstring) (u : t) : t :=
  let '(mk x0 x1 x2 x3 x4 x5 x6 x7 x8 x9 x10 x11 x12 x13 x14 x15 x16 x17 x18 x19 x20 x21 x22 x23 x24 x25 x26 x27) := u in
  mk x0 (Some v) x2 x3 x4 x5 x6 x7 x8 x9 x10 x11 x12 x13 x14 x15 x16 x17 x18 x19 x20 x21 x22 x23 x24 x25 x26 x27.
Definition set_floors (v : number) (u : t) : t :=
  let '(mk x0 x1 x2 x3 x4 x5 x6 x7 x8 x9 x10 x11 x12 x13 x14 x15 x16 x17 x18 x19 x20 x21 x22 x23 x24 x25 x26 x27) := u in
  mk x0 x1 (Some v) x3 x4 x5 x6 x7 x8 x9 x10 x11 x12 x13 x14 x15 x16 x17 x18 x19 x20 x21 x22 x23 x24 x25 x26 x27.
Definition set_floorHeight (v : number) (u : t) : t :=
  let '(mk x0 x1 x2 x3 x4 x5 x6 x7 x8 x9 x10 x11 x12 x13 x14 x15 x16 x17 x18 x19 x20 x21 x22 x23 x24 x25 x26 x27) := u in
  mk x0 x1 x2 (Some v) x4 x5 x6 x7 x8 x9 x10 x11 x12 x13 x14 x15 x16 x17 x18 x19 x20 x21 x22 x23 x24 x25 x26 x27.
Definition set_lobbyHeight (v : number) (u : t) : t :=
  let '(mk x0 x1 x2 x3 x4 x5 x6 x7 x8 x9 x10 x11 x12 x13 x14 x15 x16 x17 x18 x19 x20 x21 x22 x23 x24 x25 x26 x27) := u in
  mk x0 x1 x2 x3 (Some v) x5 x6 x7 x8 x9 x10 x11 x12 x13 x14 x15 x16 x17 x18 x19 x20 x21 x22 x23 x24 x25 x26 x27.
Definition set_width (v : number) (u : t) : t :=
  let '(mk x0 x1 x2 x3 x4 x5 x6 x7 x8 x9 x10 x11 x12 x13 x14 x15 x16 x17 x18 x19 x20 x21 x22 x23 x24 x25 x26 x27) := u in
  mk x0 x1 x2 x3 x4 (Some v) x6 x7 x8 x9 x10 x11 x12 x13 x14 x15 x16 x17 x18 x19 x20 x21 x22 x23 x24 x25 x26 x27.
Definition set_depth (v : number) (u : t) : t :=
  let '(mk x0 x1 x2 x3 x4 x5 x6 x7 x8 x9 x10 x11 x12 x13 x14 x15 x16 x17 x18 x19 x20 x21 x22 x23 x24 x25 x26 x27) := u in
  mk x0 x1 x2 x3 x4 x5 (Some v) x7 x8 x9 x10 x11 x12 x13 x14 x15 x16 x17 x18 x19 x20 x21 x22 x23 x24 x25 x26 x27.
Definition set_coreWidth (v : number) (u : t) : t :=
  let '(mk x0 x1 x2 x3 x4 x5 x6 x7 x8 x9 x10 x11 x12 x13 x14 x15 x16 x17 x18 x19 x20 x21 x22 x23 x24 x25 x26 x27) := u in
  mk x0 x1 x2 x3 x4 x5 x6 (Some v) x8 x9 x10 x11 x12 x13 x14 x15 x16 x17 x18 x19 x20 x21 x22 x23 x24 x25 x26 x27.
Definition set_coreDepth (v : number) (u : t) : t :=
  let '(mk x0 x1 x2 x3 x4 x5 x6 x7 x8 x9 x10 x11 x12 x13 x14 x15 x16 x17 x18 x19 x20 x21 x22 x23 x24 x25 x26 x27) := u in
  mk x0 x1 x2 x3 x4 x5 x6 x7 (Some v) x9 x10 x11 x12 x13 x14 x15 x16 x17 x18 x19 x20 x21 x22 x23 x24 x25 x26 x27.
Definition set_baseHeight (v : number) (u : t) : t :=
  let '(mk x0 x1 x2 x3 x4 x5 x6 x7 x8 x9 x10 x11 x12 x13 x14 x15 x16 x17 x18 x19 x20 x21 x22 x23 x24 x25 x26 x27) := u in
  mk x0 x1 x2 x3 x4 x5 x6 x7 x8 (Some v) x10 x11 x12 x13 x14 x15 x16 x17 x18 x19 x20 x21 x22 x23 x24 x25 x26 x27.
Definition set_structuralGrid (v : number) (u : t) : t :=
  let '(mk x0 x1 x2 x3 x4 x5 x6 x7 x8 x9 x10 x11 x12 x13 x14 x15 x16 x17 x18 x19 x20 x21 x22 x23 x24 x25 x26 x27) := u in
  mk x0 x1 x2 x3 x4 x5 x6 x7 x8 x9 (Some v) x11 x12 x13 x14 x15 x16 x17 x18 x19 x20 x21 x22 x23 x24 x25 x26 x27.
Definition set_unitsPerFloor (v : number) (u : t) : t :=
  let '(mk x0 x1 x2 x3 x4 x5 x6 x7 x8 x9 x10 x11 x12 x13 x14 x15 x16 x17 x18 x19 x20 x21 x22 x23 x24 x25 x26 x27) := u in
  mk x0 x1 x2 x3 x4 x5 x6 x7 x8 x9 x10 (Some v) x12 x13 x14 x15 x16 x17 x18 x19 x20 x21 x22 x23 x24 x25 x26 x27.
Definition set_facadePattern (v : FacadePattern) (u : t) : t :=
  let '(mk x0 x1 x2 x3 x4 x5 x6 x7 x8 x9 x10 x11 x12 x13 x14 x15 x16 x17 x18 x19 x20 x21 x22 x23 x24 x25 x26 x27) := u in
  mk x0 x1 x2 x3 x4 x5 x6 x7 x8 x9 x10 x11 (Some v) x13 x14 x15 x16 x17 x18 x19 x20 x21 x22 x23 x24 x25 x26 x27.
Definition set_windowModule (v : number) (u : t) : t :=
  let '(mk x0 x1 x2 x3 x4 x5 x6 x7 x8 x9 x10 x11 x12 x13 x14 x15 x16 x17 x18 x19 x20 x21 x22 x23 x24 x25 x26 x27) := u in
  mk x0 x1 x2 x3 x4 x5 x6 x7 x8 x9 x10 x11 x12 (Some v) x14 x15 x16 x17 x18 x19 x20 x21 x22 x23 x24 x25 x26 x27.
Definition set_windowWidth (v : number) (u : t) : t :=
  let '(mk x0 x1 x2 x3 x4 x5 x6 x7 x8 x9 x10 x11 x12 x13 x14 x15 x16 x17 x18 x19 x20 x21 x22 x23 x24 x25 x26 x27) := u in
  mk x0 x1 x2 x3 x4 x5 x6 x7 x8 x9 x10 x11 x12 x13 (Some v) x15 x16 x17 x18 x19 x20 x21 x22 x23 x24 x25 x26 x27.
Definition set_windowHeight (v : number) (u : t) : t :=
  let '(mk x0 x1 x2 x3 x4 x5 x6 x7 x8 x9 x10 x11 x12 x13 x14 x15 x16 x17 x18 x19 x20 x21 x22 x23 x24 x25 x26 x27) := u in
  mk x0 x1 x2 x3 x4 x5 x6 x7 x8 x9 x10 x11 x12 x13 x14 (Some v) x16 x17 x18 x19 x20 x21 x22 x23 x24 x25 x26 x27.
Definition set_spandrelHeight (v : number) (u : t) : t :=
  let '(mk x0 x1 x2 x3 x4 x5 x6 x7 x8 x9 x10 x11 x12 x13 x14 x15 x16 x17 x18 x19 x20 x21 x22 x23 x24 x25 x26 x27) := u in
  mk x0 x1 x2 x3 x4 x5 x6 x7 x8 x9 x10 x11 x12 x13 x14 x15 (Some v) x17 x18 x19 x20 x21 x22 x23 x24 x25 x26 x27.
Definition set_balconyDepth (v : number) (u : t) : t :=
  let '(mk x0 x1 x2 x3 x4 x5 x6 x7 x8 x9 x10 x11 x12 x13 x14 x15 x16 x17 x18 x19 x20 x21 x22 x23 x24 x25 x26 x27) := u in
  mk x0 x1 x2 x3 x4 x5 x6 x7 x8 x9 x10 x11 x12 x13 x14 x15 x16 (Some v) x18 x19 x20 x21 x22 x23 x24 x25 x26 x27.
Definition set_balconyFrequency (v : BalconyFrequency) (u : t) : t :=
  let '(mk x0 x1 x2 x3 x4 x5 x6 x7 x8 x9 x10 x11 x12 x13 x14 x15 x16 x17 x18 x19 x20 x21 x22 x23 x24 x25 x26 x27) := u in
  mk x0 x1 x2 x3 x4 x5 x6 x7 x8 x9 x10 x11 x12 x13 x14 x15 x16 x17 (Some v) x19 x20 x21 x22 x23 x24 x25 x26 x27.
Definition set_roofStyle (v : RoofStyle) (u : t) : t :=
  let '(mk x0 x1 x2 x3 x4 x5 x6 x7 x8 x9 x10 x11 x12 x13 x14 x15 x16 x17 x18 x19 x20 x21 x22 x23 x24 x25 x26 x27) := u in
  mk x0 x1 x2 x3 x4 x5 x6 x7 x8 x9 x10 x11 x12 x13 x14 x15 x16 x17 x18 (Some v) x20 x21 x22 x23 x24 x25 x26 x27.
Definition set_podiumLevels (v : number) (u : t) : t :=
  let '(mk x0 x1 x2 x3 x4 x5 x6 x7 x8 x9 x10 x11 x12 x13 x14 x15 x16 x17 x18 x19 x20 x21 x22 x23 x24 x25 x26 x27) := u in
  mk x0 x1 x2 x3 x4 x5 x6 x7 x8 x9 x10 x11 x12 x13 x14 x15 x16 x17 x18 x19 (Some v) x21 x22 x23 x24 x25 x26 x27.
Definition set_podiumSetback (v : number) (u : t) : t :=
  let '(mk x0 x1 x2 x3 x4 x5 x6 x7 x8 x9 x10 x11 x12 x13 x14 x15 x16 x17 x18 x19 x20 x21 x22 x23 x24 x25 x26 x27) := u in
  mk x0 x1 x2 x3 x4 x5 x6 x7 x8 x9 x10 x11 x12 x13 x14 x15 x16 x17 x18 x19 x20 (Some v) x22 x23 x24 x25 x26 x27.
Definition set_includePodium (v : bool) (u : t) : t :=
  let '(mk x0 x1 x2 x3 x4 x5 x6 x7 x8 x9 x10 x11 x12 x13 x14 x15 x16 x17 x18 x19 x20 x21 x22 x23 x24 x25 x26 x27) := u in
  mk x0 x1 x2 x3 x4 x5 x6 x7 x8 x9 x10 x11 x12 x13 x14 x15 x16 x17 x18 x19 x20 x21 (Some v) x23 x24 x25 x26 x27.
Definition set_hasAtrium (v : bool) (u : t) : t :=
  let '(mk x0 x1 x2 x3 x4 x5 x6 x7 x8 x9 x10 x11 x12 x13 x14 x15 x16 x17 x18 x19 x20 x21 x22 x23 x24 x25 x26 x27) := u in
  mk x0 x1 x2 x3 x4 x5 x6 x7 x8 x9 x10 x11 x12 x13 x14 x15 x16 x17 x18 x19 x20 x21 x22 (Some v) x24 x25 x26 x27.
Definition set_addRooftopGarden (v : bool) (u : t) : t :=
  let '(mk x0 x1 x2 x3 x4 x5 x6 x7 x8 x9 x10 x11 x12 x13 x14 x15 x16 x17 x18 x19 x20 x21 x22 x23 x24 x25 x26 x27) := u in
  mk x0 x1 x2 x3 x4 x5 x6 x7 x8 x9 x10 x11 x12 x13 x14 x15 x16 x17 x18 x19 x20 x21 x22 x23 (Some v) x25 x26 x27.
Definition set_includeSolarPanels (v : bool) (u : t) : t :=
  let '(mk x0 x1 x2 x3 x4 x5 x6 x7 x8 x9 x10 x11 x12 x13 x14 x15 x16 x17 x18 x19 x20 x21 x22 x23 x24 x25 x26 x27) := u in
  mk x0 x1 x2 x3 x4 x5 x6 x7 x8 x9 x10 x11 x12 x13 x14 x15 x16 x17 x18 x19 x20 x21 x22 x23 x24 (Some v) x26 x27.
Definition set_includeLightShelves (v : bool) (u : t) : t :=
  let '(mk x0 x1 x2 x3 x4 x5 x6 x7 x8 x9 x10 x11 x12 x13 x14 x15 x16 x17 x18 x19 x20 x21 x22 x23 x24 x25 x26 x27) := u in
  mk x0 x1 x2 x3 x4 x5 x6 x7 x8 x9 x10 x11 x12 x13 x14 x15 x16 x17 x18 x19 x20 x21 x22 x23 x24 x25 (Some v) x27.
Definition set_colors (v : colors_overlay) (u : t) : t :=
  let '(mk x0 x1 x2 x3 x4 x5 x6 x7 x8 x9 x10 x11 x12 x13 x14 x15 x16 x17 x18 x19 x20 x21 x22 x23 x24 x25 x26 x27) := u in
  mk x0 x1 x2 x3 x4 x5 x6 x7 x8 x9 x10 x11 x12 x13 x14 x15 x16 x17 x18 x19 x20 x21 x22 x23 x24 x25 x26 (Some v).

Definition is_some {A : Type} (o : option A) : bool :=
  match o with Some _ => true | None => false end.

(** [Object.keys(u).length], counting the keys that are present. *)
Definition key_count (u : t) : nat :=
  List.length (filter (fun b : bool => b) [
    is_some (projectName u);
    is_some (narrative u);
    is_some (floors u);
    is_some (floorHeight u);
    is_some (lobbyHeight u);
    is_some (width u);
    is_some (depth u);
    is_some (coreWidth u);
    is_some (coreDepth u);
    is_some (baseHeight u);
    is_some (structuralGrid u);
    is_some (unitsPerFloor u);
    is_some (facadePattern u);
    is_some (windowModule u);
    is_some (windowWidth u);
    is_some (windowHeight u);
    is_some (spandrelHeight u);
    is_some (balconyDepth u);
    is_some (balconyFrequency u);
    is_some (roofStyle u);
    is_some (podiumLevels u);
    is_some (podiumSetback u);
    is_some (includePodium u);
    is_some (hasAtrium u);
    is_some (addRooftopGarden u);
    is_some (includeSolarPanels u);
    is_some (includeLightShelves u);
    is_some (colors u)
  ]).

End Partial.

(** A complete colours object, as an overlay. *)
Definition all_colors (c : Colors) : Partial.colors_overlay :=
  Partial.mkColors (Some (base c)) (Some (accent c)) (Some (glazing c))
    (Some (balcony c)) (Some (roof c)).

Definition or_else {A : Type} (o : option A) (d : A) : A :=
  match o with Some v => v | None => d end.

(** [{ ...prev.colors, ...(partial.colors ?? {}) }] *)
Definition merge_colors (prev : Colors) (over : option Partial.colors_overlay) : Colors :=
  let o := or_else over Partial.no_colors in
  {| base := or_else (Partial.base o) (base prev);
     accent := or_else (Partial.accent o) (accent prev);
     glazing := or_else (Partial.glazing o) (glazing prev);
     balcony := or_else (Partial.balcony o) (balcony prev);
     roof := or_else (Partial.roof o) (roof prev) |}.

(** [updateConfig], page.tsx:639: the state updater
    [{ ...prev, ...partial, colors: { ... } }]. *)
Definition updateConfig (partial : Partial.t) (prev : BuildingConfig) : BuildingConfig :=
  {|
    projectName := or_else (Partial.projectName partial) (projectName prev);
    narrative := or_else (Partial.narrative partial) (narrative prev);
    floors := or_else (Partial.floors partial) (floors prev);
    floorHeight := or_else (Partial.floorHeight partial) (floorHeight prev);
    lobbyHeight := or_else (Partial.lobbyHeight partial) (lobbyHeight prev);
    width := or_else (Partial.width partial) (width prev);
    depth := or_else (Partial.depth partial) (depth prev);
    coreWidth := or_else (Partial.coreWidth partial) (coreWidth prev);
    coreDepth := or_else (Partial.coreDepth partial) (coreDepth prev);
    baseHeight := or_else (Partial.baseHeight partial) (baseHeight prev);
    structuralGrid := or_else (Partial.structuralGrid partial) (structuralGrid prev);
    unitsPerFloor := or_else (Partial.unitsPerFloor partial) (unitsPerFloor prev);
    facadePattern := or_else (Partial.facadePattern partial) (facadePattern prev);
    windowModule := or_else (Partial.windowModule partial) (windowModule prev);
    windowWidth := or_else (Partial.windowWidth partial) (windowWidth prev);
    windowHeight := or_else (Partial.windowHeight partial) (windowHeight prev);
    spandrelHeight := or_else (Partial.spandrelHeight partial) (spandrelHeight prev);
    balconyDepth := or_else (Partial.balconyDepth partial) (balconyDepth prev);
    balconyFrequency := or_else (Partial.balconyFrequency partial) (balconyFrequency prev);
    roofStyle := or_else (Partial.roofStyle partial) (roofStyle prev);
    podiumLevels := or_else (Partial.podiumLevels partial) (podiumLevels prev);
    podiumSetback := or_else (Partial.podiumSetback partial) (podiumSetback prev);
    includePodium := or_else (Partial.includePodium partial) (includePodium prev);
    hasAtrium := or_else (Partial.hasAtrium partial) (hasAtrium prev);
    addRooftopGarden := or_else (Partial.addRooftopGarden partial) (addRooftopGarden prev);
    includeSolarPanels := or_else (Partial.includeSolarPanels partial) (includeSolarPanels prev);
    includeLightShelves := or_else (Partial.includeLightShelves partial) (includeLightShelves prev);
    colors := merge_colors (colors prev) (Partial.colors partial)
  |}.

(** ** Text inspection *)

(** [String.prototype.toLowerCase] on code units below 256. *)
Definition lower_char (c : ascii) : ascii :=
  let n := code c in
  if ((65 <=? n)%N && (n <=? 90)%N)
     || ((192 <=? n)%N && (n <=? 222)%N && negb (n =? 215)%N)
  then ascii_of_N (n + 32) else c.

Definition toLowerCase (s : jsstring) : jsstring := map lower_char s.

(** [String.prototype.trim] *)
Definition trim (s : jsstring) : jsstring :=
  rev (drop_whitespace (rev (drop_whitespace s))).

Fixpoint starts_with (p s : jsstring) : bool :=
  match p, s with
  | [], _ => true
  | a :: p', b :: s' => Ascii.eqb a b && starts_with p' s'
  | _ :: _, [] => false
  end.

(** [s.includes(p)] *)
Fixpoint includes (s p : jsstring) : bool :=
  starts_with p s
  || match s with
     | [] => false
     | _ :: rest => includes rest p
     end.

(** *** Regular expressions

    The fragment the source uses: characters, classes, sequence,
    alternation (left first), greedy repetition and numbered capturing
    groups, matched by backtracking as ECMAScript prescribes. *)

Inductive regex : Type :=
  | Eps
  | Chr (c : ascii)
  | Class (p : ascii -> bool)
  | Seq (r1 r2 : regex)
  | Alt (r1 r2 : regex)
  | Star (r : regex)
  | Group (n : nat) (r : regex).

Definition Opt (r : regex) : regex := Alt r Eps.
Definition Plus (r : regex) : regex := Seq r (Star r).

Fixpoint Lit (s : jsstring) : regex :=
  match s with
  | [] => Eps
  | c :: rest => Seq (Chr c) (Lit rest)
  end.

Definition captures := list (nat * jsstring).

Fixpoint capture (n : nat) (caps : captures) : option jsstring :=
  match caps with
  | [] => None
  | (m, text) :: rest => if (m =? n)%nat then Some text else capture n rest
  end.

(** [rmatch r s caps k]: match [r] at the start of [s], then continue
    with [k] on what is left; the first success in backtracking order
    wins.  An iteration of [Star] that consumes nothing is refused, and a
    string of length [n] allows at most [n] iterations. *)
Fixpoint rmatch {A : Type} (r : regex) (s : jsstring) (caps : captures)
    (k : jsstring -> captures -> option A) {struct r} : option A :=
  match r with
  | Eps => k s caps
  | Chr c =>
      match s with
      | x :: rest => if Ascii.eqb x c then k rest caps else None
      | [] => None
      end
  | Class p =>
      match s with
      | x :: rest => if p x then k rest caps else None
      | [] => None
      end
  | Seq r1 r2 => rmatch r1 s caps (fun s' caps' => rmatch r2 s' caps' k)
  | Alt r1 r2 =>
      match rmatch r1 s caps k with
      | Some a => Some a
      | None => rmatch r2 s caps k
      end
  | Star r' =>
      (fix star (fuel : nat) (s : jsstring) (caps : captures) : option A :=
         match fuel with
         | O => k s caps
         | S fuel' =>
             match rmatch r' s caps
                     (fun s' caps' =>
                        if (List.length s' <? List.length s)%nat
                        then star fuel' s' caps' else None) with
             | Some a => Some a
             | None => k s caps
             end
         end) (List.length s) s caps
  | Group n r' =>
      rmatch r' s caps
        (fun s' caps' =>
           k s' ((n, firstn (List.length s - List.length s') s) :: caps'))
  end.

(** [s.match(r)] for a regular expression without flags: the leftmost
    match, as its captures; [None] is [null]. *)
Fixpoint regex_match (r : regex) (s : jsstring) : option captures :=
  match rmatch r s [] (fun _ caps => Some caps) with
  | Some caps => Some caps
  | None =>
      match s with
      | [] => None
      | _ :: rest => regex_match r rest
      end
  end.

Definition digit_class : regex := Class is_digit.
Definition space_class : regex := Class is_whitespace.

(** [/(\d+)[-\s]*(story|storey|floor)s?/] *)
Definition floor_regex : regex :=
  Seq (Group 1 (Plus digit_class))
    (Seq (Star (Class (fun c => Ascii.eqb c "-" || is_whitespace c)))
       (Seq (Group 2 (Alt (Lit (str "story")) (Alt (Lit (str "storey")) (Lit (str "floor")))))
          (Opt (Chr "s")))).

(** [(\d+(?:\.\d+)?)\s*m(?:eter)?s?\s*] *)
Definition metres_regex : regex :=
  Seq (Group 1 (Seq (Plus digit_class) (Opt (Seq (Chr ".") (Plus digit_class)))))
    (Seq (Star space_class)
       (Seq (Chr "m") (Seq (Opt (Lit (str "eter"))) (Seq (Opt (Chr "s")) (Star space_class))))).

(** [/(\d+(?:\.\d+)?)\s*m(?:eter)?s?\s*wide/] *)
Definition width_regex : regex := Seq metres_regex (Lit (str "wide")).

(** [/(\d+(?:\.\d+)?)\s*m(?:eter)?s?\s*(deep|depth)/] *)
Definition depth_regex : regex :=
  Seq metres_regex (Group 2 (Alt (Lit (str "deep")) (Lit (str "depth")))).

(** [/(\d+)\s*units?/] *)
Definition unit_regex : regex :=
  Seq (Group 1 (Plus digit_class))
    (Seq (Star space_class) (Seq (Lit (str "unit")) (Opt (Chr "s")))).

(** Capture 1 of a match; the empty string stands in for a group that
    did not take part, which none of the expressions above allows. *)
Definition group1 (caps : captures) : jsstring := or_else (capture 1 caps) [].

(** [parseFloat] on the decimal literals without exponent: white space,
    a sign, digits and an optional fraction; the longest such prefix is
    converted, exactly.  Every argument it gets in this program is a
    capture of digits with an optional fraction. *)
Fixpoint read_fraction (s : jsstring) (numerator : Z) (scale : positive)
    : Z * positive :=
  match s with
  | c :: rest =>
      match radix_digit 10 c with
      | Some v => read_fraction rest (numerator * 10 + v)%Z (scale * 10)%positive
      | None => (numerator, scale)
      end
  | [] => (numerator, scale)
  end.

Fixpoint drop_digits (s : jsstring) : jsstring :=
  match s with
  | c :: rest => if is_digit c then drop_digits rest else s
  | [] => []
  end.

Definition parseFloat (s : jsstring) : number :=
  let '(sign, s) := read_sign (drop_whitespace s) in
  let whole := read_digits 10 s None in
  match drop_digits s with
  | dot :: (d :: _) as frac =>
      if Ascii.eqb dot "." && is_digit d
      then
        let '(n, scale) := read_fraction frac (or_else whole 0%Z) 1 in
        Finite ((sign * n) # scale)
      else match whole with
           | Some v => Finite (inject_Z (sign * v))
           | None => NaN
           end
  | _ => match whole with
         | Some v => Finite (inject_Z (sign * v))
         | None => NaN
         end
  end.

(** ** The intent mapper *)

Record AiInference : Type := mkInference {
  updates : Partial.t;
  summary : jsstring
}.

(** The two accumulators of [applyAiInference]: the [updates] object and
    the [summaryParts] array. *)
Definition acc : Type := (Partial.t * list jsstring)%type.

Definition write (f : Partial.t -> Partial.t) (a : acc) : acc := (f (fst a), snd a).
Definition push (part : jsstring) (a : acc) : acc := (fst a, snd a ++ [part]).

(** The three palettes of the facade triggers. *)
Definition palette (current : BuildingConfig) (b a g : string) : Partial.colors_overlay :=
  let c := all_colors (colors current) in
  Partial.mkColors (Some (str b)) (Some (str a)) (Some (str g))
    (Partial.balcony c) (Partial.roof c).

Section IntentMapper.

Variable Number_toString : Q -> jsstring.

(** A number interpolated into a template literal. *)
Definition number_text (x : number) : jsstring :=
  match x with
  | Finite q => Number_toString q
  | NaN => str "NaN"
  end.

Section Triggers.

Variable normalized : jsstring.
Variable current : BuildingConfig.

Definition has (keyword : string) : bool := includes normalized (str keyword).

(** page.tsx:449 to 463 *)
Definition floors_trigger (a : acc) : acc :=
  match regex_match floor_regex normalized with
  | Some floorMatch =>
      let floors := clamp (parseInt (group1 floorMatch) 10) (num 1) (num 80) in
      push (str "Set tower to " ++ number_text floors ++ str " floors.")
        (write (Partial.set_floors floors) a)
  | None =>
      if has "supertall" then
        push (str "Adjusted height to supertall proportion.")
          (write (Partial.set_floors
                    (clamp (num_add (floors current) (num 40)) (num 30) (num 120))) a)
      else if has "tall" then
        push (str "Raised overall height.")
          (write (Partial.set_floors
                    (clamp (num_add (floors current) (num 8)) (num 6) (num 80))) a)
      else if has "low-rise" || has "mid-rise" then
        push (str "Shaped tower to mid-rise scale.")
          (write (Partial.set_floors (clamp (floors current) (num 4) (num 12))) a)
      else a
  end.

(** page.tsx:465 to 470 *)
Definition width_trigger (a : acc) : acc :=
  match regex_match width_regex normalized with
  | Some widthMatch =>
      let widthValue := clamp (parseFloat (group1 widthMatch)) (num 10) (num 120) in
      push (str "Adjusted width to " ++ number_text widthValue ++ str "m.")
        (write (Partial.set_width widthValue) a)
  | None => a
  end.

(** page.tsx:472 to 477 *)
Definition depth_trigger (a : acc) : acc :=
  match regex_match depth_regex normalized with
  | Some depthMatch =>
      let depthValue := clamp (parseFloat (group1 depthMatch)) (num 10) (num 120) in
      push (str "Adjusted depth to " ++ number_text depthValue ++ str "m.")
        (write (Partial.set_depth depthValue) a)
  | None => a
  end.

(** page.tsx:479 to 483 *)
Definition slender_trigger (a : acc) : acc :=
  if has "slender" then
    push (str "Slenderized the floor plate.")
      (write (Partial.set_depth
                (clamp (num_mul (depth current) (Finite (85 # 100))) (num 12) (depth current)))
         (write (Partial.set_width
                   (clamp (num_mul (width current) (Finite (85 # 100))) (num 12) (width current)))
            a))
  else a.

(** page.tsx:485 to 488 *)
Definition atrium_trigger (a : acc) : acc :=
  if has "atrium" then
    push (str "Enabled multi-level atrium.") (write (Partial.set_hasAtrium true) a)
  else a.

(** page.tsx:490 to 494 *)
Definition podium_trigger (a : acc) : acc :=
  if has "podium" then
    push (str "Activated urban podium interface.")
      (write (Partial.set_podiumLevels (Math_max (podiumLevels current) (num 2)))
         (write (Partial.set_includePodium true) a))
  else a.

(** page.tsx:496 to 499 *)
Definition garden_trigger (a : acc) : acc :=
  if has "garden" || has "green roof" then
    push (str "Reserved rooftop for green space.")
      (write (Partial.set_addRooftopGarden true) a)
  else a.

(** page.tsx:501 to 504 *)
Definition solar_trigger (a : acc) : acc :=
  if has "solar" then
    push (str "Integrated rooftop solar arrays.")
      (write (Partial.set_includeSolarPanels true) a)
  else a.

(** page.tsx:506 to 513 *)
Definition balcony_trigger (a : acc) : acc :=
  if has "balcon" then
    push (str "Reconfigured balcony rhythm.")
      (write (Partial.set_balconyFrequency
                (if has "every" then every
                 else if has "corner" then corners
                 else alternate)) a)
  else a.

(** page.tsx:515 to 542 *)
Definition facade_trigger (a : acc) : acc :=
  if has "glass curtain" then
    push (str "Shifted to glass curtain wall aesthetic.")
      (write (Partial.set_colors (palette current "#2b3a55" "#546a89" "#a7d9ff"))
         (write (Partial.set_facadePattern grid) a))
  else if has "brick" then
    push (str "Applied brick-inspired palette.")
      (write (Partial.set_colors (palette current "#884a39" "#d46f4d" "#93c6ff"))
         (write (Partial.set_facadePattern stacked) a))
  else if has "timber" || has "wood" then
    push (str "Shifted to warm timber articulation.")
      (write (Partial.set_colors (palette current "#8c6b3e" "#d9b382" "#9bc1ff"))
         (write (Partial.set_facadePattern offset) a))
  else a.

(** page.tsx:544 to 547 *)
Definition light_shelves_trigger (a : acc) : acc :=
  if has "light shelves" then
    push (str "Added daylight shelves to facade.")
      (write (Partial.set_includeLightShelves true) a)
  else a.

(** page.tsx:549 to 558 *)
Definition roof_trigger (a : acc) : acc :=
  if has "pitched roof" then
    push (str "Configured pitched roof profile.") (write (Partial.set_roofStyle pitched) a)
  else if has "sawtooth" then
    push (str "Configured sawtooth roof profile.") (write (Partial.set_roofStyle sawtooth) a)
  else if has "flat roof" then
    push (str "Kept clean flat roofline.") (write (Partial.set_roofStyle flat) a)
  else a.

(** page.tsx:560 to 563 *)
Definition lobby_trigger (a : acc) : acc :=
  if has "generous lobby" || has "grand lobby" then
    push (str "Expanded lobby volume.")
      (write (Partial.set_lobbyHeight
                (clamp (num_mul (lobbyHeight current) (Finite (12 # 10)))
                   (Finite (45 # 10)) (num 12))) a)
  else a.

(** page.tsx:565 to 570 *)
Definition units_trigger (a : acc) : acc :=
  match regex_match unit_regex normalized with
  | Some unitMatch =>
      let units := clamp (parseInt (group1 unitMatch) 10) (num 2) (num 40) in
      push (str "Set " ++ number_text units ++ str " flexible units per typical floor.")
        (write (Partial.set_unitsPerFloor units) a)
  | None => a
  end.

(** The triggers in the order of the source. *)
Definition triggers : list (acc -> acc) := [
  floors_trigger; width_trigger; depth_trigger; slender_trigger;
  atrium_trigger; podium_trigger; garden_trigger; solar_trigger;
  balcony_trigger; facade_trigger; light_shelves_trigger; roof_trigger;
  lobby_trigger; units_trigger
].

Definition run_triggers : acc :=
  fold_left (fun a trigger => trigger a) triggers (Partial.empty, []).

End Triggers.

(** [applyAiInference], page.tsx:440 *)
Definition applyAiInference (prompt : jsstring) (current : BuildingConfig) : AiInference :=
  let normalized := toLowerCase (trim prompt) in
  match normalized with
  | [] => mkInference Partial.empty []
  | _ =>
      let a := run_triggers normalized current in
      mkInference (fst a) (join (str " ") (snd a))
  end.

(** ** The page state and its handlers *)

Record PageState : Type := mkState {
  config : BuildingConfig;
  aiPrompt : jsstring;
  aiSummary : list jsstring;
  statusMessage : option jsstring
}.

(** [handleApplyAi], page.tsx:680; the timers that clear the status
    message later are left out. *)
Definition handleApplyAi (st : PageState) : PageState :=
  let inference := applyAiInference (aiPrompt st) (config st) in
  if (Partial.key_count (updates inference) =? 0)%nat then
    mkState (config st) (aiPrompt st) (aiSummary st)
      (Some (str "No actionable design moves detected."))
  else
    let partial :=
      Partial.set_narrative
        (narrative (config st) ++ [newline; newline] ++ str "Prompt: " ++ trim (aiPrompt st))
        (updates inference) in
    mkState (updateConfig partial (config st))
      []
      (match summary inference with
       | [] => aiSummary st
       | text => firstn 5 (text :: aiSummary st)
       end)
      (Some (str "AI design move applied.")).

End IntentMapper.

(** The change handler of the floors control, page.tsx:772:
    [updateConfig({ floors: Number(event.target.value) })], given the
    number the control delivers. *)
Definition onChange_floors (value : number) (st : PageState) : PageState :=
  mkState (updateConfig (Partial.set_floors value Partial.empty) (config st))
    (aiPrompt st) (aiSummary st) (statusMessage st).

(** The change handler of the width control, page.tsx:809, a number
    input: [updateConfig({ width: Number(event.target.value) })]. *)
Definition onChange_width (value : number) (st : PageState) : PageState :=
  mkState (updateConfig (Partial.set_width value Partial.empty) (config st))
    (aiPrompt st) (aiSummary st) (statusMessage st).

(** The [min] and [max] attributes of a form control. *)
Record control : Type := mkControl {
  control_min : Q;
  control_max : Q
}.

(** page.tsx:769 and 805 *)
Definition floors_control : control := mkControl 3 80.
Definition width_control : control := mkControl 12 120.

(** The change handler of the accent colour control, page.tsx:1085:
    [updateConfig({ colors: { ...config.colors, accent: value } })]. *)
Definition onChange_accent (value : jsstring) (st : PageState) : PageState :=
  let c := all_colors (colors (config st)) in
  mkState
    (updateConfig
       (Partial.set_colors
          (Partial.mkColors (Partial.base c) (Some value) (Partial.glazing c)
             (Partial.balcony c) (Partial.roof c))
          Partial.empty)
       (config st))
    (aiPrompt st) (aiSummary st) (statusMessage st).

(** ** The emitted build loop

    The balcony logic of the Python text in [script_library]: [build]
    (template lines 407 to 421) and [create_balcony] (lines 262 to 278).
    A Python number is a rational holding its exact value; a float
    literal of the script denotes the double nearest to it, and float
    floor division [//] returns the floor of the exact quotient of the
    two doubles. *)

Module Blender.

(** The part of [cfg] the balcony logic reads. *)
Record cfg : Type := mkCfg {
  balcony_frequency : BalconyFrequency;
  balcony_depth : Q;
  width : Q;
  module : Q
}.

(** The double the Python literal [0.05] denotes. *)
Definition threshold : Q := 3602879701896397 # 72057594037927936.

(** The double the literals [3.2] and [3.20] denote. *)
Definition double_3_2 : Q := 3602879701896397 # 1125899906842624.

(** One call of [create_balcony] that reaches the cube creation. *)
Record placement : Type := mkPlacement {
  level : Z;
  col_index : Z;
  total_cols : Z
}.

(** [create_balcony]: nothing is created at a depth of at most 0.05. *)
Definition create_balcony (c : cfg) (level col_index total_cols : Z) : list placement :=
  if Qle_bool (balcony_depth c) threshold then []
  else [mkPlacement level col_index total_cols].

(** [int(a // b)]; [None] is the ZeroDivisionError of a zero divisor. *)
Definition floor_div (a b : Q) : option Z :=
  if Qeq_bool b 0 then None else Some (Qfloor (a / b)).

(** [range(n)] *)
Definition range (n : Z) : list Z := map Z.of_nat (seq 0 (Z.to_nat n)).

Definition is_none (f : BalconyFrequency) : bool :=
  match f with none => true | _ => false end.
Definition is_every (f : BalconyFrequency) : bool :=
  match f with every => true | _ => false end.
Definition is_alternate (f : BalconyFrequency) : bool :=
  match f with alternate => true | _ => false end.
Definition is_corners (f : BalconyFrequency) : bool :=
  match f with corners => true | _ => false end.

(** [module_count] of template line 414. *)
Definition module_count (c : cfg) : option Z :=
  match floor_div (width c) (module c) with
  | Some q => Some (Z.max 3 q)
  | None => None
  end.

(** The balcony statement of the loop body, lines 413 to 421, for one
    [level]: the placements it makes, or [None] when it raises. *)
Definition level_balconies (c : cfg) (level : Z) : option (list placement) :=
  if negb (is_none (balcony_frequency c)) && (0 <? level)%Z
     && Qlt_bool threshold (balcony_depth c)
  then
    match module_count c with
    | None => None
    | Some module_count =>
        if is_every (balcony_frequency c)
           || (is_alternate (balcony_frequency c) && (level mod 2 =? 0)%Z)
        then
          Some (flat_map (fun col => create_balcony c level col module_count)
                  (range module_count))
        else if is_corners (balcony_frequency c) then
          let corner_cols := Z.max 2 module_count in
          Some (flat_map (fun col => create_balcony c level col corner_cols)
                  [0%Z; (corner_cols - 1)%Z])
        else Some []
    end
  else Some [].

(** The loop [for level in range(floors)], keeping the balcony
    placements only; an exception ends it. *)
Fixpoint build_levels (c : cfg) (levels : list Z) : option (list placement) :=
  match levels with
  | [] => Some []
  | level :: rest =>
      match level_balconies c level with
      | None => None
      | Some here =>
          match build_levels c rest with
          | None => None
          | Some later => Some (here ++ later)
          end
      end
  end.

Definition build (c : cfg) (floors : Z) : option (list placement) :=
  build_levels c (range floors).

End Blender.

(** ** Shapes of rendered numbers *)

(** A text without its leading minus sign, if it has one. *)
Definition strip_sign (s : jsstring) : jsstring :=
  match s with
  | c :: rest => if Ascii.eqb c "-" then rest else s
  | [] => []
  end.

(** [s.length > 0] *)
Definition nonempty (s : jsstring) : bool :=
  match s with [] => false | _ :: _ => true end.

(** An integer without suffix: an optional minus sign and digits. *)
Definition is_integer_text (s : jsstring) : bool :=
  nonempty (strip_sign s) && all_digits (strip_sign s).

(** The text before and after the first point. *)
Fixpoint split_point (s : jsstring) : option (jsstring * jsstring) :=
  match s with
  | [] => None
  | c :: rest =>
      if Ascii.eqb c "." then Some ([], rest)
      else match split_point rest with
           | Some (a, b) => Some (c :: a, b)
           | None => None
           end
  end.

(** A decimal with exactly [f] digits after the point: an optional minus
    sign, digits, a point, [f] digits. *)
Definition is_fixed_text (f : nat) (s : jsstring) : bool :=
  match split_point (strip_sign s) with
  | Some (a, b) =>
      nonempty a && all_digits a && all_digits b && (List.length b =? f)%nat
  | None => false
  end.

(** [Number::toString] of ECMAScript (6.1.6.1.20, radix 10) on a positive
    number, from its digits: [s] holds the shortest digits that read back
    as the number, [k] of them, and the number is [s * 10^(n - k)].  For
    [n] from -5 to 21 the text is a plain decimal; otherwise it is the
    first digit, the other digits after a point if there are any, the
    letter e, the sign of the exponent and the exponent [n - 1]. *)
Definition Number_toString_digits (s n : Z) : jsstring :=
  let digits := decimal s in
  let k := Z.of_nat (List.length digits) in
  if ((-5 <=? n) && (n <=? 21))%Z then
    if (k <=? n)%Z then digits ++ repeat "0"%char (Z.to_nat (n - k))
    else if (0 <? n)%Z
         then firstn (Z.to_nat n) digits ++ str "." ++ skipn (Z.to_nat n) digits
         else str "0." ++ repeat "0"%char (Z.to_nat (- n)) ++ digits
  else
    let exponent :=
      (if (n <? 0)%Z then str "-" else str "+") ++ decimal (Z.abs (n - 1)) in
    match digits with
    | [] => []
    | [d] => d :: str "e" ++ exponent
    | d :: more => d :: str "." ++ more ++ str "e" ++ exponent
    end.

(** ** Notions used in the statements *)

(** A digit of radix 16, in either case. *)
Definition is_hex_digit (c : ascii) : bool :=
  match radix_digit 16 c with Some _ => true | None => false end.

(** Its value; 0 for any other character. *)
Definition hex_value (c : ascii) : Z := or_else (radix_digit 16 c) 0%Z.

(** The byte two hex digits denote. *)
Definition hex_byte (a b : ascii) : Z := (hex_value a * 16 + hex_value b)%Z.

(** A colour with or without its leading marker. *)
Definition with_marker (marker : bool) (digits : jsstring) : jsstring :=
  if marker then "#"%char :: digits else digits.

(** A channel that holds an integer. *)
Definition channel (z : Z) : option number := Some (Finite (inject_Z z)).

(** The text of one channel: the byte over 255, to four digits. *)
Definition channel_text (nts : Q -> jsstring) (a b : ascii) : jsstring :=
  toFixed nts (inject_Z (hex_byte a b) / 255) 4.

(** Between 0 and 1. *)
Definition in_unit_interval (q : Q) : Prop := 0 <= q /\ q <= 1.

(** What [escapePythonString] makes of one character. *)
Definition escape_char (c : ascii) : jsstring :=
  if Ascii.eqb c backslash then [backslash; backslash]
  else if Ascii.eqb c dq then [backslash; dq]
  else [c].

(** The lexical rule of a Python string literal in double quotes, read
    from just after the opening quote: a backslash takes the next
    character with it, an unescaped line end or the end of the text is an
    error, and the first unescaped quote closes the literal.  The result
    is the text after the closing quote. *)
Fixpoint scan_string_body (s : jsstring) : option jsstring :=
  match s with
  | [] => None
  | c :: rest =>
      if Ascii.eqb c dq then Some rest
      else if is_line_terminator c then None
      else if Ascii.eqb c backslash then
        match rest with
        | [] => None
        | _ :: rest' => scan_string_body rest'
        end
      else scan_string_body rest
  end.

(** The same for a literal in triple double quotes, where line ends are
    allowed and three quotes in a row close the literal. *)
Fixpoint scan_long_string_body (s : jsstring) : option jsstring :=
  match s with
  | [] => None
  | c :: rest =>
      if Ascii.eqb c backslash then
        match rest with
        | [] => None
        | _ :: rest' => scan_long_string_body rest'
        end
      else if starts_with [dq; dq; dq] s then Some (skipn 3 s)
      else scan_long_string_body rest
  end.

(** A text that the scanner of long literals passes over. *)
Definition passes (a : jsstring) : Prop :=
  forall rest, scan_long_string_body (a ++ rest) = scan_long_string_body rest.

(** The text between the opening and the closing quotes of the header
    comment. *)
Definition docstring_body (config : BuildingConfig) : jsstring :=
  [newline] ++ py "Blender Building Assistant Script" ++ [newline]
    ++ py "Generated for: " ++ escapePythonString (projectName config) ++ [newline]
    ++ py "Narrative: " ++ escapePythonString (narrative config) ++ [newline]
    ++ [newline]
    ++ py "Run inside Blender's scripting workspace." ++ [newline].

(** The text of the script before the first entry of the CONFIG block:
    the header comment, the imports and the opening of the block. *)
Definition script_before_config (config : BuildingConfig) : jsstring :=
  [dq; dq; dq] ++ docstring_body config ++ [dq; dq; dq] ++ [newline]
    ++ [newline]
    ++ py "import bpy" ++ [newline]
    ++ py "import math" ++ [newline]
    ++ [newline]
    ++ py "CONFIG = {" ++ [newline].

(** A project name with a double quote and a backslash: a, quote, b,
    backslash, c. *)
Definition quoted_name : jsstring := [ "a"%char; dq; "b"%char; backslash; "c"%char ].

(** What the merge does to one key: an overlay value replaces the old
    one, an absent key keeps it. *)
Definition merged {A : Type} (overlay : option A) (old new : A) : Prop :=
  match overlay with
  | Some v => new = v
  | None => new = old
  end.

(** The overlay [{ colors: { accent: c } }]. *)
Definition accent_only (c : jsstring) : Partial.t :=
  Partial.set_colors (Partial.mkColors None (Some c) None None None) Partial.empty.

(** A chunk of at most two characters. *)
Definition short (ch : jsstring) : Prop := (List.length ch <= 2)%nat.

(** A number that [toFixed] renders in fixed notation, or [NaN]. *)
Definition in_fixed_range (x : number) : Prop :=
  match x with
  | Finite q => Qabs q < inject_Z ten_pow_21
  | NaN => True
  end.

(** The numbers the script renders. *)
Definition rendered_numbers (c : BuildingConfig) : list number := [
  floors c; unitsPerFloor c; width c; depth c; floorHeight c; lobbyHeight c;
  baseHeight c; coreWidth c; coreDepth c; podiumLevels c; podiumSetback c;
  windowModule c; windowWidth c; windowHeight c; spandrelHeight c; balconyDepth c
].

(** The numbers of the capturing groups of an expression. *)
Fixpoint groups (r : regex) : list nat :=
  match r with
  | Eps | Chr _ | Class _ => []
  | Seq r1 r2 | Alt r1 r2 => groups r1 ++ groups r2
  | Star r' => groups r'
  | Group n r' => n :: groups r'
  end.

(** What a successful match hands to its continuation: a suffix of the
    input, and captures that differ only at the groups of the
    expression. *)
Definition continues {A : Type} (r : regex) (s : jsstring) (caps : captures)
    (k : jsstring -> captures -> option A) (a : A) : Prop :=
  exists s' caps',
    k s' caps' = Some a
    /\ (List.length s' <= List.length s)%nat
    /\ forall n, ~ In n (groups r) -> capture n caps' = capture n caps.

(** The four expressions of the intent mapper open with group 1, whose
    body opens with a digit. *)
Definition leading_digit_regex (r : regex) : Prop :=
  forall s caps,
    regex_match r s = Some caps ->
    exists x t, is_digit x = true /\ group1 caps = x :: t.

(** [width_regex] and [depth_regex] after their leading digit, with the
    sequences nested to the right. *)
Definition metres_tail (last : regex) : regex :=
  Seq (Star space_class)
    (Seq (Chr "m")
       (Seq (Opt (Lit (str "eter"))) (Seq (Opt (Chr "s")) (Seq (Star space_class) last)))).

Definition fraction_tail : regex :=
  Seq (Star digit_class) (Opt (Seq (Chr ".") (Plus digit_class))).

(** A number that is not [NaN] and lies between two bounds. *)
Definition within (lo hi : Q) (v : number) : Prop :=
  match v with
  | Finite q => lo <= q /\ q <= hi
  | NaN => False
  end.

(** What a trigger adds to [summaryParts], whatever was accumulated
    before. *)
Definition summary_part (t : acc -> acc) : list jsstring :=
  snd (t (Partial.empty, [])).

(** Within the [min] and [max] of a form control. *)
Definition in_control (k : control) (v : number) : Prop :=
  within (control_min k) (control_max k) v.

(** [prompt.trim().toLowerCase()] *)
Definition normalize (prompt : jsstring) : jsstring := toLowerCase (trim prompt).

(** The worked example of the intent mapper and the four descriptions
    it yields. *)
Definition example_prompt : jsstring :=
  str "a mid-rise timber tower with generous balconies and green roof".

Definition example_summary_parts : list jsstring := [
  str "Shaped tower to mid-rise scale.";
  str "Reserved rooftop for green space.";
  str "Reconfigured balcony rhythm.";
  str "Shifted to warm timber articulation."
].

(** ** Reading an escaped text back *)

(** The text a Python literal denotes when its body uses no escape other
    than a doubled backslash and a backslash before a double quote;
    [None] for a body with another escape or a dangling backslash. *)
Fixpoint python_unescape (s : jsstring) : option jsstring :=
  match s with
  | [] => Some []
  | c :: rest =>
      if Ascii.eqb c backslash then
        match rest with
        | e :: rest' =>
            if Ascii.eqb e backslash || Ascii.eqb e dq
            then option_map (cons e) (python_unescape rest')
            else None
        | [] => None
        end
      else option_map (cons c) (python_unescape rest)
  end.

(** ** The download *)

(** The characters the class [[a-z0-9]] matches under the flag [i]. *)
Definition is_alphanumeric (c : ascii) : bool :=
  let n := code c in
  ((48 <=? n)%N && (n <=? 57)%N)
  || ((97 <=? n)%N && (n <=? 122)%N)
  || ((65 <=? n)%N && (n <=? 90)%N).

(** [value.replace(/[^a-z0-9]+/gi, "-")]: every maximal run of
    characters outside the class becomes one hyphen.  [in_run] tells
    that the character before was outside the class. *)
Fixpoint replace_runs (in_run : bool) (s : jsstring) : jsstring :=
  match s with
  | [] => []
  | c :: rest =>
      if is_alphanumeric c then c :: replace_runs false rest
      else if in_run then replace_runs true rest
      else "-"%char :: replace_runs true rest
  end.

(** [safeName] of [handleDownload], page.tsx:665 *)
Definition safeName (projectName : jsstring) : jsstring :=
  toLowerCase (replace_runs false projectName).

(** [link.download], page.tsx:666 *)
Definition download_name (projectName : jsstring) : jsstring :=
  (match safeName projectName with
   | [] => str "building"
   | name => name
   end) ++ str "-blender-generator.py".

(** [handleReset], page.tsx:673; the timer is left out. *)
Definition handleReset (st : PageState) : PageState :=
  mkState defaultConfig (aiPrompt st) [] (Some (str "Configuration reset.")).

(** A lower-case letter, a digit or a hyphen. *)
Definition is_safe_char (c : ascii) : bool :=
  let n := code c in
  ((48 <=? n)%N && (n <=? 57)%N) || ((97 <=? n)%N && (n <=? 122)%N) || (n =? 45)%N.

Definition starts_with_hyphen (s : jsstring) : bool :=
  match s with
  | c :: _ => Ascii.eqb c "-"
  | [] => false
  end.

(** No two hyphens in a row. *)
Fixpoint no_adjacent_hyphens (s : jsstring) : bool :=
  match s with
  | c :: rest =>
      negb (Ascii.eqb c "-" && starts_with_hyphen rest) && no_adjacent_hyphens rest
  | [] => true
  end.

(** ** Form edits *)

(** Every change handler of the form is [updateConfig(partial)] for the
    overlay of its control, page.tsx:761 to 1112. *)
Definition form_edit (partial : Partial.t) (st : PageState) : PageState :=
  mkState (updateConfig partial (config st)) (aiPrompt st) (aiSummary st)
    (statusMessage st).

(** The change handler of the prompt box, page.tsx:724. *)
Definition onChange_prompt (value : jsstring) (st : PageState) : PageState :=
  mkState (config st) value (aiSummary st) (statusMessage st).

(** A change of the status line alone: after [handleCopy] and
    [handleDownload], and when a timer clears it, page.tsx:650 to 671. *)
Definition set_status (message : option jsstring) (st : PageState) : PageState :=
  mkState (config st) (aiPrompt st) (aiSummary st) message.

(** The state of the page when it is first shown, page.tsx:632 to 635. *)
Definition initial_state : PageState := mkState defaultConfig [] [] None.

(** A number without fractional part. *)
Definition whole (v : number) : Prop :=
  match v with
  | Finite q => isInteger q = true
  | NaN => False
  end.

(** The keys of an overlay that no trigger of the intent mapper writes. *)
Definition untouched (u : Partial.t) :=
  (Partial.projectName u, Partial.narrative u, Partial.floorHeight u,
   Partial.coreWidth u, Partial.coreDepth u, Partial.baseHeight u,
   Partial.structuralGrid u, Partial.windowModule u, Partial.windowWidth u,
   Partial.windowHeight u, Partial.spandrelHeight u, Partial.balconyDepth u,
   Partial.podiumSetback u).

(** The fields of a configuration that an applied move leaves alone. *)
Definition kept_fields (c : BuildingConfig) :=
  (projectName c, floorHeight c, coreWidth c, coreDepth c, baseHeight c,
   structuralGrid c, windowModule c, windowWidth c, windowHeight c,
   spandrelHeight c, balconyDepth c, podiumSetback c,
   balcony (colors c), roof (colors c)).

(** The states the page can reach: from the first state by form edits,
    typing in the prompt box, applying a move, resetting, and changes of
    the status line. *)
Inductive reachable (nts : Q -> jsstring) : PageState -> Prop :=
  | reach_initial : reachable nts initial_state
  | reach_form_edit partial st :
      reachable nts st -> reachable nts (form_edit partial st)
  | reach_prompt value st :
      reachable nts st -> reachable nts (onChange_prompt value st)
  | reach_apply st :
      reachable nts st -> reachable nts (handleApplyAi nts st)
  | reach_reset st :
      reachable nts st -> reachable nts (handleReset st)
  | reach_status message st :
      reachable nts st -> reachable nts (set_status message st).

(** ** The emitted window bands

    [add_windows] of the Python text (template lines 281 to 308) and the
    placing of a balcony along the facade by [create_balcony] (lines 267
    and 268).  Python computes the positions in doubles; they are exact
    rationals here. *)

Module Facade.

(** [repetitions = max(1, int(width // max(1.0, module)))], for the
    facade width of the side. *)
Definition repetitions (width module : Q) : Z :=
  Z.max 1 (Qfloor (width / Qmax 1 module)).

(** The position of window [idx] along its facade:
    [-width / 2 + spread * (idx + 0.5)] with [spread = width / repetitions]. *)
Definition window_position (width module : Q) (idx : Z) : Q :=
  - width / 2 + (width / inject_Z (repetitions width module)) * (inject_Z idx + (1 # 2)).

(** The position of a balcony along the front:
    [-width / 2 + spacing * (col_index + 0.5)] with
    [spacing = width / max(1, total_cols)]. *)
Definition balcony_position (width : Q) (col_index total_cols : Z) : Q :=
  - width / 2 + (width / inject_Z (Z.max 1 total_cols)) * (inject_Z col_index + (1 # 2)).

(** The indices of the windows of one call. *)
Definition window_indices (width module : Q) : list Z :=
  Blender.range (repetitions width module).

End Facade.

(** ** The preview *)

(** [Math.round] on a number that may be [NaN]: the nearest integer, the
    larger one on a tie. *)
Definition Math_round (x : number) : number :=
  match x with
  | Finite q => Finite (inject_Z (Qfloor (q + (1 # 2))))
  | NaN => NaN
  end.

Definition num_sub : number -> number -> number := lift2 Qminus.

(** [a / b] for a divisor other than zero; a zero divisor, which gives an
    infinity or [NaN] in JavaScript, is rendered as [NaN] and is met by no
    caller: the one division of the program has a divisor of at least 1. *)
Definition num_div (a b : number) : number :=
  match a, b with
  | Finite x, Finite y => if Qeq_bool y 0 then NaN else Finite (x / y)
  | _, _ => NaN
  end.

(** [undefined] used as a number. *)
Definition to_number (channel : option number) : number :=
  match channel with
  | Some x => x
  | None => NaN
  end.

(** [lighten] of [lightenColor], page.tsx:107.  The product is exact
    here, where JavaScript rounds it to a double. *)
Definition lighten (amount : number) (channel : option number) : number :=
  let c := to_number channel in
  Math_round (num_add c (num_mul (num_sub (num 255) c) (clamp amount (num 0) (num 1)))).

(** [mix] of [mixWithBlack], page.tsx:114 *)
Definition mix (amount : number) (channel : option number) : number :=
  let c := to_number channel in
  Math_round (num_mul c (num_sub (num 1) (clamp amount (num 0) (num 1)))).

(** [ToLength] of a number: its integer part, at least 0 (the upper
    limit of 2^53 - 1 is left out). *)
Definition ToLength (x : number) : nat :=
  match x with
  | Finite q => Z.to_nat (Qfloor q)
  | NaN => O
  end.

(** [floors] of [BuildingPreview], page.tsx:580:
    [Array.from({ length: config.floors }, (_, index) => config.floors - index)]. *)
Definition preview_levels (config : BuildingConfig) : list number :=
  map (fun index => num_sub (floors config) (num (Z.of_nat index)))
    (seq 0 (ToLength (floors config))).

(** [modules] of [BuildingPreview], page.tsx:581 *)
Definition preview_modules (config : BuildingConfig) : number :=
  Math_max (num 1)
    (Math_round (num_div (width config) (Math_max (windowModule config) (num 1)))).

Section Tints.

Variable Number_toString : Q -> jsstring.

Definition rgb_text (r g b : number) : jsstring :=
  str "rgb(" ++ number_text Number_toString r ++ str ", "
    ++ number_text Number_toString g ++ str ", "
    ++ number_text Number_toString b ++ str ")".

(** [lightenColor], page.tsx:105 *)
Definition lightenColor (hex : jsstring) (amount : number) : jsstring :=
  let c := hexToRgb hex in
  rgb_text (lighten amount (rgb_r c)) (lighten amount (rgb_g c)) (lighten amount (rgb_b c)).

(** [mixWithBlack], page.tsx:112 *)
Definition mixWithBlack (hex : jsstring) (amount : number) : jsstring :=
  let c := hexToRgb hex in
  rgb_text (mix amount (rgb_r c)) (mix amount (rgb_g c)) (mix amount (rgb_b c)).

End Tints.

(** The number of balconies the build loop places on one floor, for a
    module other than zero and a depth above the threshold. *)
Definition balconies_on (c : Blender.cfg) (level : Z) : Z :=
  let columns := Z.max 3 (Qfloor (Blender.width c / Blender.module c)) in
  if (level <=? 0)%Z then 0%Z
  else match Blender.balcony_frequency c with
       | none => 0
       | every => columns
       | alternate => if Z.even level then columns else 0
       | corners => 2
       end%Z.

Definition balconies_in (c : Blender.cfg) (levels : list Z) : Z :=
  fold_right (fun level total => (balconies_on c level + total)%Z) 0%Z levels.

(** ** Reading digits back *)

(** The number a text of decimal digits denotes, after the digits [acc]
    read before it. *)
Definition digits_value (s : jsstring) (acc : Z) : Z :=
  fold_left (fun a c => (a * 10 + (Z.of_N (code c) - 48))%Z) s acc.

(** The same for the digits of the Standard Library. *)
Fixpoint uint_value (u : Decimal.uint) (acc : Z) : Z :=
  match u with
  | Decimal.Nil => acc
  | Decimal.D0 l => uint_value l (acc * 10 + 0)
  | Decimal.D1 l => uint_value l (acc * 10 + 1)
  | Decimal.D2 l => uint_value l (acc * 10 + 2)
  | Decimal.D3 l => uint_value l (acc * 10 + 3)
  | Decimal.D4 l => uint_value l (acc * 10 + 4)
  | Decimal.D5 l => uint_value l (acc * 10 + 5)
  | Decimal.D6 l => uint_value l (acc * 10 + 6)
  | Decimal.D7 l => uint_value l (acc * 10 + 7)
  | Decimal.D8 l => uint_value l (acc * 10 + 8)
  | Decimal.D9 l => uint_value l (acc * 10 + 9)
  end%Z.

(** The value [toFixed(f)] renders: the magnitude rounded to [f] digits,
    with the sign of the number. *)
Definition rounded (x : Q) (f : nat) : Q :=
  ((if Qlt_bool x 0 then -1 else 1)
   * Qfloor (Qabs x * inject_Z (10 ^ Z.of_nat f) + (1 # 2)))%Z
  # Z.to_pos (10 ^ Z.of_nat f).

(** ** The number a numeral denotes *)

(** The number a decimal numeral denotes, read exactly: an optional minus
    sign, digits, and optionally a point and further digits; [None] for
    any other text. *)
Definition numeral_value (s : jsstring) : option Q :=
  let sign := if starts_with_hyphen s then (-1)%Z else 1%Z in
  let body := strip_sign s in
  match split_point body with
  | Some (a, b) =>
      if nonempty a && all_digits a && nonempty b && all_digits b
      then Some ((sign * digits_value (a ++ b) 0)
                 # Z.to_pos (10 ^ Z.of_nat (List.length b)))
      else None
  | None =>
      if nonempty body && all_digits body
      then Some (inject_Z (sign * digits_value body 0))
      else None
  end.

(** * Theorems *)

(** ** Digits *)

Lemma uint_text_digits (u : Decimal.uint) :
  all_digits (str (NilEmpty.string_of_uint u)) = true.
Proof. induction u; simpl; auto. Qed.

Lemma decimal_all_digits (n : Z) : all_digits (decimal n) = true.
Proof.
  unfold decimal, NilZero.string_of_uint.
  destruct (N.to_uint (Z.to_N n)); try apply uint_text_digits.
  reflexivity.
Qed.

Lemma decimal_nonempty (n : Z) : nonempty (decimal n) = true.
Proof.
  unfold decimal, NilZero.string_of_uint.
  destruct (N.to_uint (Z.to_N n)); reflexivity.
Qed.

Lemma all_digits_app (a b : jsstring) :
  all_digits (a ++ b) = all_digits a && all_digits b.
Proof. apply forallb_app. Qed.

Lemma all_digits_zeros (k : nat) : all_digits (repeat "0"%char k) = true.
Proof. induction k; simpl; auto. Qed.

Lemma all_digits_firstn (k : nat) (s : jsstring) :
  all_digits s = true -> all_digits (firstn k s) = true.
Proof.
  intros H. rewrite <- (firstn_skipn k s), all_digits_app in H.
  apply andb_true_iff in H. tauto.
Qed.

Lemma all_digits_skipn (k : nat) (s : jsstring) :
  all_digits s = true -> all_digits (skipn k s) = true.
Proof.
  intros H. rewrite <- (firstn_skipn k s), all_digits_app in H.
  apply andb_true_iff in H. tauto.
Qed.

Lemma digit_not_minus (c : ascii) : is_digit c = true -> Ascii.eqb c "-" = false.
Proof.
  destruct (Ascii.eqb_spec c "-") as [->|]; [discriminate | reflexivity].
Qed.

Lemma digit_not_point (c : ascii) : is_digit c = true -> Ascii.eqb c "." = false.
Proof.
  destruct (Ascii.eqb_spec c ".") as [->|]; [discriminate | reflexivity].
Qed.

Lemma strip_sign_digits (s : jsstring) : all_digits s = true -> strip_sign s = s.
Proof.
  destruct s as [|c rest]; simpl; [reflexivity|].
  intros H. apply andb_true_iff in H. destruct H as [H _].
  now rewrite (digit_not_minus c H).
Qed.

Lemma split_point_digits (a b : jsstring) :
  all_digits a = true -> split_point (a ++ "."%char :: b) = Some (a, b).
Proof.
  induction a as [|c a IH]; simpl; [reflexivity|].
  intros H. apply andb_true_iff in H. destruct H as [Hc Ha].
  now rewrite (digit_not_point c Hc), (IH Ha).
Qed.

Lemma split_point_not_digits (s a b : jsstring) :
  split_point s = Some (a, b) -> all_digits s = false.
Proof.
  revert a b. induction s as [|c s IH]; simpl; [discriminate|].
  intros a b. destruct (Ascii.eqb_spec c ".") as [->|_].
  - reflexivity.
  - destruct (split_point s) as [[a' b']|]; [|discriminate].
    intros _. rewrite (IH a' b' eq_refl). apply andb_false_r.
Qed.

Lemma integer_text_signed (sign digits : jsstring) :
  sign = str "-" \/ sign = [] ->
  nonempty digits = true -> all_digits digits = true ->
  is_integer_text (sign ++ digits) = true.
Proof.
  intros [-> | ->] Hn Hd; unfold is_integer_text; simpl.
  - now rewrite Hn, Hd.
  - now rewrite (strip_sign_digits _ Hd), Hn, Hd.
Qed.

Lemma fixed_text_signed (f : nat) (sign a b : jsstring) :
  sign = str "-" \/ sign = [] ->
  nonempty a = true -> all_digits a = true ->
  all_digits b = true -> List.length b = f ->
  is_fixed_text f (sign ++ a ++ str "." ++ b) = true.
Proof.
  intros Hs Hn Ha Hb Hl.
  assert (E : strip_sign (sign ++ a ++ str "." ++ b) = a ++ "."%char :: b).
  { destruct Hs as [-> | ->]; simpl; [reflexivity|].
    destruct a as [|c a]; [discriminate|]. simpl in *.
    apply andb_true_iff in Ha. destruct Ha as [Hc _].
    now rewrite (digit_not_minus c Hc). }
  unfold is_fixed_text. rewrite E, (split_point_digits a b Ha), Hn, Ha, Hb.
  simpl. now apply Nat.eqb_eq.
Qed.

Lemma fixed_text_not_integer (f : nat) (s : jsstring) :
  is_fixed_text f s = true -> is_integer_text s = false.
Proof.
  unfold is_fixed_text, is_integer_text.
  destruct (split_point (strip_sign s)) as [[a b]|] eqn:E; [|discriminate].
  intros _. rewrite (split_point_not_digits _ _ _ E). apply andb_false_r.
Qed.

Section NumberFormatting.

Variable nts : Q -> jsstring.

Lemma sign_cases (x : Q) :
  (if Qlt_bool x 0 then str "-" else []) = str "-"
  \/ (if Qlt_bool x 0 then str "-" else []) = [].
Proof. destruct (Qlt_bool x 0); auto. Qed.

Lemma below_cutoff (x : Q) :
  Qabs x < inject_Z ten_pow_21 ->
  Qle_bool (inject_Z ten_pow_21) (Qabs x) = false.
Proof.
  intros Hx. destruct (Qle_bool (inject_Z ten_pow_21) (Qabs x)) eqn:E; [|reflexivity].
  apply Qle_bool_iff in E. exfalso. exact (Qlt_not_le _ _ Hx E).
Qed.

(** Below 10^21 in magnitude, [toFixed(0)] gives a sign and digits. *)
Lemma toFixed_0_integer_text (x : Q) :
  Qabs x < inject_Z ten_pow_21 ->
  is_integer_text (toFixed nts x 0) = true.
Proof.
  intros Hx. unfold toFixed. rewrite (below_cutoff x Hx).
  apply integer_text_signed.
  - apply sign_cases.
  - apply decimal_nonempty.
  - apply decimal_all_digits.
Qed.

(** Below 10^21 in magnitude, [toFixed(f)] for a positive [f] gives a
    sign, digits, a point and exactly [f] digits. *)
Lemma toFixed_fixed_text (x : Q) (f : nat) :
  Qabs x < inject_Z ten_pow_21 -> (0 < f)%nat ->
  is_fixed_text f (toFixed nts x f) = true.
Proof.
  intros Hx Hf. unfold toFixed. rewrite (below_cutoff x Hx).
  destruct f as [|f']; [lia|].
  set (f := S f') in *.
  set (m := decimal (Qfloor (Qabs x * inject_Z (10 ^ Z.of_nat f) + (1 # 2)))).
  assert (Hm : all_digits m = true) by apply decimal_all_digits.
  assert (Hlen : (0 < List.length m)%nat).
  { pose proof (decimal_nonempty (Qfloor (Qabs x * inject_Z (10 ^ Z.of_nat f) + (1 # 2)))) as Hn.
    fold m in Hn. destruct m; [discriminate | simpl; lia]. }
  set (m' := if (List.length m <=? f)%nat
             then repeat "0"%char (f + 1 - List.length m) ++ m else m).
  assert (Hm' : all_digits m' = true).
  { unfold m'. destruct (List.length m <=? f)%nat; [|exact Hm].
    now rewrite all_digits_app, all_digits_zeros, Hm. }
  assert (Hlen' : (f < List.length m')%nat).
  { unfold m'. destruct (Nat.leb_spec (List.length m) f) as [Hle|Hgt]; [|exact Hgt].
    rewrite length_app, repeat_length. lia. }
  apply fixed_text_signed.
  - apply sign_cases.
  - destruct (firstn (List.length m' - f) m') eqn:E; [|reflexivity].
    apply (f_equal (@List.length ascii)) in E. rewrite length_firstn in E.
    simpl in E. lia.
  - now apply all_digits_firstn.
  - now apply all_digits_skipn.
  - rewrite length_skipn. lia.
Qed.

End NumberFormatting.

(** C5, as stated, fails from 10^21 on, a value the width control can
    store: [toFixed] then gives the text of [Number::toString].  The
    number 10^21 is a double and has no fractional part; its shortest
    digits are the one digit 1 with [n] = 22, so it is rendered as 1e+21,
    which is neither an integer text nor a text with two digits after the
    point.  [NaN], were it stored, is rendered as NaN. *)
Lemma formatNumber_exponent_at_cutoff :
  isInteger (inject_Z ten_pow_21) = true
  /\ inject_Z (1 * 10 ^ (22 - 1)) = inject_Z ten_pow_21
  /\ Number_toString_digits 1 22 = str "1e+21"
  /\ (forall nts : Q -> jsstring,
        nts (inject_Z ten_pow_21) = Number_toString_digits 1 22 ->
        formatNumber nts (Finite (inject_Z ten_pow_21)) = str "1e+21"
        /\ is_integer_text (formatNumber nts (Finite (inject_Z ten_pow_21))) = false
        /\ is_fixed_text 2 (formatNumber nts (Finite (inject_Z ten_pow_21))) = false
        /\ ~ (forall x,
                is_integer_text (formatNumber nts (Finite x)) = true
                <-> isInteger x = true))
  /\ (forall nts : Q -> jsstring,
        formatNumber nts NaN = str "NaN"
        /\ is_integer_text (formatNumber nts NaN) = false
        /\ is_fixed_text 2 (formatNumber nts NaN) = false).
Proof.
  split; [reflexivity|]. split; [reflexivity|]. split; [reflexivity|].
  split; [|intros nts; repeat split].
  intros nts H.
  assert (E : formatNumber nts (Finite (inject_Z ten_pow_21)) = str "1e+21").
  { transitivity (nts (inject_Z ten_pow_21)); [reflexivity|]. rewrite H. reflexivity. }
  rewrite E. split; [reflexivity|]. split; [reflexivity|]. split; [reflexivity|].
  intros C. specialize (C (inject_Z ten_pow_21)). rewrite E in C.
  destruct C as [_ C]. specialize (C eq_refl). discriminate C.
Qed.

(** C5. [formatNumber] renders a finite value below 10^21 in magnitude as
    an integer text without suffix exactly when the value has no
    fractional part, and otherwise with exactly two digits after the
    point; floor height 3.6 (as the decimal and as the double nearest to
    it) renders as 3.60 and floor count 18 as 18. *)
Theorem formatNumber_integer_or_two_decimals (nts : Q -> jsstring) (x : Q) :
  Qabs x < inject_Z ten_pow_21 ->
  (is_integer_text (formatNumber nts (Finite x)) = true <-> isInteger x = true)
  /\ (isInteger x = false -> is_fixed_text 2 (formatNumber nts (Finite x)) = true)
  /\ formatNumber nts (Finite (36 # 10)) = str "3.60"
  /\ formatNumber nts (Finite (8106479329266893 # 2251799813685248)) = str "3.60"
  /\ formatNumber nts (num 18) = str "18".
Proof.
  intros Hx. unfold formatNumber.
  split; [|split; [|repeat split]].
  - destruct (isInteger x) eqn:E.
    + split; [reflexivity|]. intros _. now apply toFixed_0_integer_text.
    + split; [|discriminate]. intros H. exfalso.
      rewrite (fixed_text_not_integer 2) in H; [discriminate|].
      apply toFixed_fixed_text; [exact Hx | lia].
  - intros E. rewrite E. apply toFixed_fixed_text; [exact Hx | lia].
Qed.

Lemma formatNumber_integer_or_two_decimals_witness :
  Qabs (12 # 10) < inject_Z ten_pow_21
  /\ is_fixed_text 2 (formatNumber (fun _ => []) (Finite (12 # 10))) = true.
Proof.
  split; [reflexivity|].
  apply (formatNumber_integer_or_two_decimals (fun _ => []) (12 # 10));
    reflexivity.
Defined.

(** ** Colours *)

Lemma hex_digit_facts (c : ascii) :
  is_hex_digit c = true ->
  radix_digit 16 c = Some (hex_value c)
  /\ (0 <= hex_value c <= 15)%Z
  /\ is_whitespace c = false
  /\ is_line_terminator c = false
  /\ Ascii.eqb c "-" = false
  /\ Ascii.eqb c "+" = false
  /\ Ascii.eqb c "x" = false
  /\ Ascii.eqb c "X" = false
  /\ Ascii.eqb c "#" = false.
Proof.
  destruct c as [[] [] [] [] [] [] [] []]; vm_compute; intros H;
    try discriminate H; repeat split; discriminate.
Qed.

Lemma parseInt_two_hex (a b : ascii) :
  is_hex_digit a = true -> is_hex_digit b = true ->
  parseInt [a; b] 16 = Finite (inject_Z (hex_byte a b)).
Proof.
  intros Ha Hb.
  destruct (hex_digit_facts a Ha) as (Ra & _ & Wa & _ & Ma & Pa & _).
  destruct (hex_digit_facts b Hb) as (Rb & _ & _ & _ & _ & _ & Xb & XXb & _).
  unfold parseInt, read_sign, strip_prefix. simpl drop_whitespace.
  rewrite Wa, Ma, Pa, Xb, XXb.
  rewrite andb_false_r. simpl read_digits. rewrite Ra, Rb.
  unfold hex_byte. f_equal. f_equal. lia.
Qed.

Lemma cleaned_hex_digits (digits : jsstring) :
  forallb is_hex_digit digits = true -> cleaned digits = digits.
Proof.
  unfold cleaned. induction digits as [|c rest IH]; simpl; [reflexivity|].
  intros H. apply andb_true_iff in H. destruct H as [Hc Hrest].
  destruct (hex_digit_facts c Hc) as (_ & _ & _ & _ & _ & _ & _ & _ & Hm).
  now rewrite Hm, (IH Hrest).
Qed.

Lemma cleaned_with_marker (marker : bool) (digits : jsstring) :
  forallb is_hex_digit digits = true -> cleaned (with_marker marker digits) = digits.
Proof.
  intros H. destruct marker; [reflexivity|]. now apply cleaned_hex_digits.
Qed.

Lemma hexToRgb_six (hex : jsstring) (a b c d e f : ascii) :
  cleaned hex = [a; b; c; d; e; f] ->
  forallb is_hex_digit [a; b; c; d; e; f] = true ->
  hexToRgb hex
  = mkRgb (channel (hex_byte a b)) (channel (hex_byte c d)) (channel (hex_byte e f)).
Proof.
  intros Hc H. simpl in H.
  repeat (apply andb_true_iff in H; let Hx := fresh "Hx" in destruct H as [Hx H]).
  unfold hexToRgb, chunk. rewrite Hc. simpl.
  destruct (hex_digit_facts a Hx) as (_ & _ & _ & -> & _).
  destruct (hex_digit_facts b Hx0) as (_ & _ & _ & -> & _).
  destruct (hex_digit_facts c Hx1) as (_ & _ & _ & -> & _).
  destruct (hex_digit_facts d Hx2) as (_ & _ & _ & -> & _).
  destruct (hex_digit_facts e Hx3) as (_ & _ & _ & -> & _).
  destruct (hex_digit_facts f Hx4) as (_ & _ & _ & -> & _).
  simpl. now rewrite !parseInt_two_hex.
Qed.

Lemma hexToRgb_three (hex : jsstring) (a c e : ascii) :
  cleaned hex = [a; c; e] ->
  forallb is_hex_digit [a; c; e] = true ->
  hexToRgb hex
  = mkRgb (channel (hex_byte a a)) (channel (hex_byte c c)) (channel (hex_byte e e)).
Proof.
  intros Hc H. simpl in H.
  repeat (apply andb_true_iff in H; let Hx := fresh "Hx" in destruct H as [Hx H]).
  unfold hexToRgb, chunk. rewrite Hc. simpl.
  now rewrite !parseInt_two_hex.
Qed.

Lemma hex_byte_range (a b : ascii) :
  is_hex_digit a = true -> is_hex_digit b = true -> (0 <= hex_byte a b <= 255)%Z.
Proof.
  intros Ha Hb.
  destruct (hex_digit_facts a Ha) as (_ & Ra & _).
  destruct (hex_digit_facts b Hb) as (_ & Rb & _).
  unfold hex_byte. lia.
Qed.

Lemma byte_ratio_range (z : Z) :
  (0 <= z <= 255)%Z -> 0 <= inject_Z z / 255 /\ inject_Z z / 255 <= 1.
Proof.
  intros H. unfold Qle, Qdiv, Qmult, Qinv, inject_Z. simpl. lia.
Qed.

Lemma unit_interval_below_cutoff (q : Q) :
  0 <= q -> q <= 1 -> Qabs q < inject_Z ten_pow_21.
Proof.
  intros H0 H1. rewrite (Qabs_pos q H0).
  apply (Qle_lt_trans _ 1); [exact H1 | reflexivity].
Qed.

Lemma channel_text_fixed (nts : Q -> jsstring) (a b : ascii) :
  is_hex_digit a = true -> is_hex_digit b = true ->
  is_fixed_text 4 (channel_text nts a b) = true.
Proof.
  intros Ha Hb. unfold channel_text.
  destruct (byte_ratio_range _ (hex_byte_range a b Ha Hb)) as [H0 H1].
  apply toFixed_fixed_text; [now apply unit_interval_below_cutoff | lia].
Qed.

(** C4. For a colour of six hex digits, with or without the leading
    marker, each pair of digits is parsed as a byte, divided by 255 and
    rendered with four digits after the point, and the fourth component
    is the text 1.0; a colour of three hex digits converts as the six
    digit colour in which every digit is doubled; [#ff0000] and [#f00]
    both give (1.0000, 0.0000, 0.0000, 1.0). *)
Theorem colorToPythonTuple_hex (nts : Q -> jsstring) (marker : bool)
    (a b c d e f : ascii) :
  forallb is_hex_digit [a; b; c; d; e; f] = true ->
  colorToPythonTuple nts (with_marker marker [a; b; c; d; e; f])
  = str "(" ++ channel_text nts a b ++ str ", " ++ channel_text nts c d
      ++ str ", " ++ channel_text nts e f ++ str ", 1.0)"
  /\ colorToPythonTuple nts (with_marker marker [a; c; e])
     = colorToPythonTuple nts (with_marker marker [a; a; c; c; e; e])
  /\ is_fixed_text 4 (channel_text nts a b) = true
  /\ is_fixed_text 4 (channel_text nts c d) = true
  /\ is_fixed_text 4 (channel_text nts e f) = true
  /\ colorToPythonTuple nts (str "#ff0000") = str "(1.0000, 0.0000, 0.0000, 1.0)"
  /\ colorToPythonTuple nts (str "#f00") = str "(1.0000, 0.0000, 0.0000, 1.0)".
Proof.
  intros H.
  assert (H' := H). simpl in H'.
  repeat (apply andb_true_iff in H'; let Hx := fresh "Hx" in destruct H' as [Hx H']).
  assert (H3 : forallb is_hex_digit [a; c; e] = true)
    by (simpl; now rewrite Hx, Hx1, Hx3).
  assert (H6 : forallb is_hex_digit [a; a; c; c; e; e] = true)
    by (simpl; now rewrite Hx, Hx1, Hx3).
  split; [|split; [|split; [|split; [|split; [|split]]]]].
  - unfold colorToPythonTuple.
    rewrite (hexToRgb_six _ a b c d e f (cleaned_with_marker marker _ H) H).
    reflexivity.
  - unfold colorToPythonTuple.
    rewrite (hexToRgb_three _ a c e (cleaned_with_marker marker _ H3) H3).
    rewrite (hexToRgb_six _ a a c c e e (cleaned_with_marker marker _ H6) H6).
    reflexivity.
  - now apply channel_text_fixed.
  - now apply channel_text_fixed.
  - now apply channel_text_fixed.
  - reflexivity.
  - reflexivity.
Qed.

Lemma colorToPythonTuple_hex_witness :
  colorToPythonTuple (fun _ => []) (str "4d5c6f") = str "(0.3020, 0.3608, 0.4353, 1.0)".
Proof.
  destruct (colorToPythonTuple_hex (fun _ => []) false "4" "d" "5" "c" "6" "f" eq_refl)
    as [H _].
  exact H.
Defined.

(** C10. [colorToPythonTuple] yields a tuple text for every input, each
    channel being the text of a number or of [NaN].  When the input
    without its first marker is exactly three or six hex digits, the three
    channels are numbers whose quotients by 255 lie in [0, 1].  When it
    is empty, the chunks fall back to 00, 00, 00 and the tuple is
    (0.0000, 0.0000, 0.0000, 1.0).  Inputs of one, two, four or five
    characters can leave a channel undefined or [NaN]. *)
Theorem hexToRgb_total_in_range (nts : Q -> jsstring) (hex : jsstring) :
  (exists r g b : number,
      colorToPythonTuple nts hex
      = str "(" ++ number_toFixed nts r 4 ++ str ", " ++ number_toFixed nts g 4
          ++ str ", " ++ number_toFixed nts b 4 ++ str ", 1.0)")
  /\ (forallb is_hex_digit (cleaned hex) = true ->
      List.length (cleaned hex) = 3%nat \/ List.length (cleaned hex) = 6%nat ->
      exists r g b : Q,
        hexToRgb hex = mkRgb (Some (Finite r)) (Some (Finite g)) (Some (Finite b))
        /\ in_unit_interval (r / 255)
        /\ in_unit_interval (g / 255)
        /\ in_unit_interval (b / 255))
  /\ (cleaned hex = [] ->
      chunk (cleaned hex) = [str "00"; str "00"; str "00"]
      /\ colorToPythonTuple nts hex = str "(0.0000, 0.0000, 0.0000, 1.0)")
  /\ colorToPythonTuple nts (str "f") = str "(0.0588, NaN, NaN, 1.0)"
  /\ colorToPythonTuple nts (str "ff") = str "(1.0000, NaN, NaN, 1.0)"
  /\ colorToPythonTuple nts (str "ffff") = str "(1.0000, 1.0000, NaN, 1.0)"
  /\ colorToPythonTuple nts (str "ggggg") = str "(NaN, NaN, NaN, 1.0)".
Proof.
  split; [|split; [|split; [|repeat split]]].
  - unfold colorToPythonTuple. now eexists _, _, _.
  - intros Hd Hl.
    destruct (cleaned hex) as [|a [|b [|c [|d [|e [|f [|g rest]]]]]]] eqn:Hc;
      simpl in Hl; try (destruct Hl; discriminate).
    + assert (Hd' := Hd). simpl in Hd'.
      repeat (apply andb_true_iff in Hd'; let Hx := fresh "Hx" in destruct Hd' as [Hx Hd']).
      rewrite (hexToRgb_three hex a b c Hc Hd).
      exists (inject_Z (hex_byte a a)), (inject_Z (hex_byte b b)), (inject_Z (hex_byte c c)).
      repeat split; try reflexivity;
        apply byte_ratio_range; now apply hex_byte_range.
    + assert (Hd' := Hd). simpl in Hd'.
      repeat (apply andb_true_iff in Hd'; let Hx := fresh "Hx" in destruct Hd' as [Hx Hd']).
      rewrite (hexToRgb_six hex a b c d e f Hc Hd).
      exists (inject_Z (hex_byte a b)), (inject_Z (hex_byte c d)), (inject_Z (hex_byte e f)).
      repeat split; try reflexivity;
        apply byte_ratio_range; now apply hex_byte_range.
  - intros Hc. unfold colorToPythonTuple, hexToRgb. rewrite Hc. split; reflexivity.
Qed.

Lemma hexToRgb_total_in_range_witness :
  exists r g b : Q,
    hexToRgb (str "#85c3ff")
    = mkRgb (Some (Finite r)) (Some (Finite g)) (Some (Finite b))
    /\ in_unit_interval (r / 255)
    /\ in_unit_interval (g / 255)
    /\ in_unit_interval (b / 255).
Proof.
  destruct (hexToRgb_total_in_range (fun _ => []) (str "#85c3ff")) as (_ & H & _).
  apply H; [reflexivity | right; reflexivity].
Defined.

(** ** Escaping *)

Lemma replace_all_char_app (c : ascii) (by_ a b : jsstring) :
  replace_all_char c by_ (a ++ b) = replace_all_char c by_ a ++ replace_all_char c by_ b.
Proof.
  induction a as [|x a IH]; simpl; [reflexivity|].
  now rewrite IH, app_assoc.
Qed.

Lemma escapePythonString_flat_map (s : jsstring) :
  escapePythonString s = flat_map escape_char s.
Proof.
  unfold escapePythonString. induction s as [|c s IH]; simpl; [reflexivity|].
  rewrite replace_all_char_app, IH. f_equal.
  unfold escape_char. destruct (Ascii.eqb_spec c backslash) as [->|Hb].
  - reflexivity.
  - simpl. destruct (Ascii.eqb c dq); reflexivity.
Qed.

Lemma escape_char_other (c : ascii) :
  c <> backslash -> c <> dq -> escape_char c = [c].
Proof.
  intros Hb Hq. unfold escape_char.
  destruct (Ascii.eqb_spec c backslash); [contradiction|].
  destruct (Ascii.eqb_spec c dq); [contradiction|]. reflexivity.
Qed.

(** The literal around an escaped text closes at its own closing quote
    exactly when the text has no line end. *)
Lemma scan_escaped (s rest : jsstring) :
  scan_string_body (escapePythonString s ++ dq :: rest)
  = if existsb is_line_terminator s then None else Some rest.
Proof.
  rewrite escapePythonString_flat_map.
  induction s as [|c s IH]; simpl; [reflexivity|].
  unfold escape_char.
  destruct (Ascii.eqb_spec c backslash) as [->|Hb]; [exact IH|].
  destruct (Ascii.eqb_spec c dq) as [->|Hq]; [exact IH|].
  simpl.
  destruct (Ascii.eqb_spec c dq); [contradiction|].
  destruct (is_line_terminator c); [reflexivity|].
  destruct (Ascii.eqb_spec c backslash); [contradiction|]. exact IH.
Qed.

Lemma passes_nil : passes [].
Proof. intros rest. reflexivity. Qed.

Lemma passes_app (a b : jsstring) : passes a -> passes b -> passes (a ++ b).
Proof. intros Ha Hb rest. now rewrite <- app_assoc, Ha, Hb. Qed.

Lemma passes_plain (a : jsstring) :
  forallb (fun c => negb (Ascii.eqb c dq) && negb (Ascii.eqb c backslash)) a = true ->
  passes a.
Proof.
  induction a as [|c a IH]; intros H rest; [reflexivity|].
  cbn [forallb] in H.
  apply andb_true_iff in H. destruct H as [Hc Ha].
  apply andb_true_iff in Hc. destruct Hc as [Hq Hb].
  apply negb_true_iff in Hq, Hb.
  cbn [app scan_long_string_body starts_with].
  rewrite Hb, (Ascii.eqb_sym dq c), Hq. simpl. now apply IH.
Qed.

Lemma passes_escaped (s : jsstring) : passes (escapePythonString s).
Proof.
  rewrite escapePythonString_flat_map.
  induction s as [|c s IH]; [apply passes_nil|].
  intros rest. cbn [flat_map]. rewrite <- app_assoc.
  unfold escape_char at 1.
  destruct (Ascii.eqb c backslash) eqn:Eb; [apply IH|].
  destruct (Ascii.eqb c dq) eqn:Eq; [apply IH|].
  cbn [app scan_long_string_body starts_with].
  rewrite Eb, (Ascii.eqb_sym dq c), Eq. cbn [andb]. apply IH.
Qed.

Lemma join_cons_cons (sep a b : jsstring) (l : list jsstring) :
  join sep (a :: b :: l) = a ++ sep ++ join sep (b :: l).
Proof. reflexivity. Qed.

Lemma script_starts_with_docstring (nts : Q -> jsstring) (config : BuildingConfig) :
  exists rest,
    generateBlenderScript nts config
    = [dq; dq; dq] ++ docstring_body config ++ [dq; dq; dq] ++ rest.
Proof.
  unfold generateBlenderScript. cbn [script_header app].
  rewrite !join_cons_cons. eexists. unfold docstring_body.
  change (py "~~~") with [dq; dq; dq]. change (@nil ascii ++ ?x) with x.
  rewrite <- !app_assoc. reflexivity.
Qed.

Lemma docstring_closes (config : BuildingConfig) (rest : jsstring) :
  scan_long_string_body (docstring_body config ++ [dq; dq; dq] ++ rest) = Some rest.
Proof.
  assert (P : passes (docstring_body config)).
  { unfold docstring_body.
    repeat (apply passes_app;
            [first [apply passes_escaped | apply passes_plain; reflexivity]|]).
    apply passes_plain. reflexivity. }
  rewrite P. reflexivity.
Qed.

(** The script, cut at the two string literals of the CONFIG block. *)
Lemma script_config_literals (nts : Q -> jsstring) (config : BuildingConfig) :
  exists rest,
    generateBlenderScript nts config
    = script_before_config config
        ++ py "    ~project_name~: ~" ++ escapePythonString (projectName config)
        ++ dq :: py "," ++ [newline]
        ++ py "    ~narrative~: ~" ++ escapePythonString (narrative config)
        ++ dq :: py "," ++ [newline] ++ rest.
Proof.
  unfold generateBlenderScript.
  cbn [script_header script_config_rest app].
  rewrite !join_cons_cons. eexists.
  unfold script_before_config, docstring_body, config_project_name_line,
    config_narrative_line.
  change (py "~~~") with [dq; dq; dq]. change (py "~,") with (dq :: py ",").
  change (@nil ascii ++ ?x) with x.
  rewrite <- !app_assoc. cbn [app]. reflexivity.
Qed.

(** C6. [escapePythonString] doubles every backslash and puts a backslash
    before every double quote, backslashes being replaced first, so that
    no escape is escaped again.  The header line carries the escaped
    project name, and the header comment closes at the closing quotes of
    the template whatever the name and the narrative are.  In the CONFIG
    block the script holds, after the opening quote of each of the two
    literals, the escaped text and the closing quote of the template; when
    the text has no line end, a Python lexer started after the opening
    quote stops at that closing quote. *)
Theorem escapePythonString_valid_literal (nts : Q -> jsstring) (config : BuildingConfig) :
  (forall s, escapePythonString s = flat_map escape_char s)
  /\ escape_char backslash = [backslash; backslash]
  /\ escape_char dq = [backslash; dq]
  /\ escapePythonString quoted_name
     = [ "a"%char; backslash; dq; "b"%char; backslash; backslash; "c"%char ]
  /\ replace_all_char backslash [backslash; backslash]
       (replace_all_char dq [backslash; dq] quoted_name)
     <> escapePythonString quoted_name
  /\ nth_error (script_header config) 2
     = Some (py "Generated for: " ++ escapePythonString (projectName config))
  /\ (exists rest,
        generateBlenderScript nts config
        = [dq; dq; dq] ++ docstring_body config ++ [dq; dq; dq] ++ rest
        /\ scan_long_string_body (docstring_body config ++ [dq; dq; dq] ++ rest)
           = Some rest)
  /\ (exists rest,
        let after_narrative := py "," ++ [newline] ++ rest in
        let after_name :=
          py "," ++ [newline]
            ++ py "    ~narrative~: ~" ++ escapePythonString (narrative config)
            ++ dq :: after_narrative in
        generateBlenderScript nts config
        = script_before_config config
            ++ py "    ~project_name~: ~" ++ escapePythonString (projectName config)
            ++ dq :: after_name
        /\ (existsb is_line_terminator (projectName config) = false ->
            scan_string_body (escapePythonString (projectName config) ++ dq :: after_name)
            = Some after_name)
        /\ (existsb is_line_terminator (narrative config) = false ->
            scan_string_body (escapePythonString (narrative config) ++ dq :: after_narrative)
            = Some after_narrative))
  /\ (forall text rest,
        existsb is_line_terminator text = false ->
        scan_string_body (escapePythonString text ++ dq :: rest) = Some rest).
Proof.
  split; [exact escapePythonString_flat_map|].
  split; [reflexivity|]. split; [reflexivity|]. split; [reflexivity|].
  split; [discriminate|]. split; [reflexivity|].
  split.
  - destruct (script_starts_with_docstring nts config) as [rest E].
    exists rest. split; [exact E | apply docstring_closes].
  - split.
    + destruct (script_config_literals nts config) as [rest E].
      exists rest. cbv zeta. split.
      * exact E.
      * split; intros H; now rewrite scan_escaped, H.
    + intros text rest H. now rewrite scan_escaped, H.
Qed.

Lemma escapePythonString_valid_literal_witness :
  existsb is_line_terminator quoted_name = false
  /\ scan_string_body (escapePythonString quoted_name ++ dq :: str ",") = Some (str ",").
Proof.
  split; [reflexivity|].
  apply (escapePythonString_valid_literal (fun _ => []) defaultConfig).
  reflexivity.
Defined.

Lemma In_escaped (c : ascii) (s : jsstring) :
  c <> backslash -> c <> dq -> In c s -> In c (escapePythonString s).
Proof.
  intros Hb Hq H. rewrite escapePythonString_flat_map.
  apply in_flat_map. exists c. split; [exact H|].
  rewrite (escape_char_other c Hb Hq). now left.
Qed.

Lemma existsb_line_terminator_newline (s : jsstring) :
  In newline s -> existsb is_line_terminator s = true.
Proof.
  intros H. apply existsb_exists. exists newline. split; [exact H | reflexivity].
Qed.

Lemma narrative_after_update (v : jsstring) (u : Partial.t) (c : BuildingConfig) :
  narrative (updateConfig (Partial.set_narrative v u) c) = v.
Proof. destruct u. reflexivity. Qed.

(** C9. [escapePythonString] changes backslashes and double quotes only:
    every other character, the line feed among them, is kept as it is.
    In the CONFIG block the script holds, between the opening and the
    closing quote of each of the two literals, the escaped text; a project
    name or narrative with a line feed therefore puts a raw line feed
    inside its literal, where a Python lexer started after the opening
    quote fails; and [handleApplyAi], when it applies an update, appends
    two line feeds and the prompt to the narrative. *)
Theorem escapePythonString_keeps_newline (nts : Q -> jsstring) :
  (forall s, escapePythonString s = flat_map escape_char s)
  /\ (forall c, c <> backslash -> c <> dq -> escape_char c = [c])
  /\ escape_char newline = [newline]
  /\ (forall config, exists rest,
        let after_narrative := py "," ++ [newline] ++ rest in
        let after_name :=
          py "," ++ [newline]
            ++ py "    ~narrative~: ~" ++ escapePythonString (narrative config)
            ++ dq :: after_narrative in
        generateBlenderScript nts config
        = script_before_config config
            ++ py "    ~project_name~: ~" ++ escapePythonString (projectName config)
            ++ dq :: after_name
        /\ (In newline (projectName config) ->
            In newline (escapePythonString (projectName config))
            /\ scan_string_body (escapePythonString (projectName config) ++ dq :: after_name)
               = None)
        /\ (In newline (narrative config) ->
            In newline (escapePythonString (narrative config))
            /\ scan_string_body
                 (escapePythonString (narrative config) ++ dq :: after_narrative)
               = None))
  /\ (forall text,
        In newline text ->
        In newline (escapePythonString text)
        /\ forall rest, scan_string_body (escapePythonString text ++ dq :: rest) = None)
  /\ (forall st,
        Partial.key_count (updates (applyAiInference nts (aiPrompt st) (config st))) <> 0%nat ->
        narrative (config (handleApplyAi nts st))
        = narrative (config st) ++ [newline; newline] ++ str "Prompt: " ++ trim (aiPrompt st)
        /\ In newline (narrative (config (handleApplyAi nts st)))).
Proof.
  assert (N : forall text,
             In newline text ->
             In newline (escapePythonString text)
             /\ forall rest, scan_string_body (escapePythonString text ++ dq :: rest) = None).
  { intros text H. split.
    - apply In_escaped; [discriminate | discriminate | exact H].
    - intros rest. now rewrite scan_escaped, (existsb_line_terminator_newline text H). }
  split; [exact escapePythonString_flat_map|].
  split; [exact escape_char_other|].
  split; [reflexivity|].
  split.
  - intros config. destruct (script_config_literals nts config) as [rest E].
    exists rest. cbv zeta. split.
    + exact E.
    + split; intros H; (split; [now apply N | now apply N]).
  - split; [exact N|].
    intros st H.
    assert (E : narrative (config (handleApplyAi nts st))
                = narrative (config st) ++ [newline; newline] ++ str "Prompt: "
                    ++ trim (aiPrompt st)).
    { unfold handleApplyAi.
      destruct (Nat.eqb_spec
                  (Partial.key_count (updates (applyAiInference nts (aiPrompt st) (config st))))
                  0) as [E0|_]; [contradiction|].
      cbn [config]. apply narrative_after_update. }
    split; [exact E|]. rewrite E. apply in_or_app. right. now left.
Qed.

Lemma escapePythonString_keeps_newline_witness :
  narrative (config (handleApplyAi (fun _ => []) (mkState defaultConfig (str "add solar") [] None)))
  = narrative defaultConfig ++ [newline; newline] ++ str "Prompt: add solar".
Proof.
  destruct (escapePythonString_keeps_newline (fun _ => [])) as (_ & _ & _ & _ & _ & H).
  destruct (H (mkState defaultConfig (str "add solar") [] None)) as [E _].
  - vm_compute. discriminate.
  - exact E.
Defined.

(** ** Merging *)

Lemma merged_or_else {A : Type} (overlay : option A) (old : A) :
  merged overlay old (or_else overlay old).
Proof. destruct overlay; reflexivity. Qed.

(** C7. [updateConfig] replaces exactly the top-level fields present in
    the overlay and keeps the absent ones, and merges the colours key by
    key; the overlay with the accent colour only replaces the accent and
    keeps the four other colours and every other field.  The form
    handlers and [handleApplyAi] go through this same function. *)
Theorem updateConfig_merges (nts : Q -> jsstring) (partial : Partial.t) (prev : BuildingConfig) :
  let next := updateConfig partial prev in
  let over := or_else (Partial.colors partial) Partial.no_colors in
  merged (Partial.projectName partial) (projectName prev) (projectName next)
  /\ merged (Partial.narrative partial) (narrative prev) (narrative next)
  /\ merged (Partial.floors partial) (floors prev) (floors next)
  /\ merged (Partial.floorHeight partial) (floorHeight prev) (floorHeight next)
  /\ merged (Partial.lobbyHeight partial) (lobbyHeight prev) (lobbyHeight next)
  /\ merged (Partial.width partial) (width prev) (width next)
  /\ merged (Partial.depth partial) (depth prev) (depth next)
  /\ merged (Partial.coreWidth partial) (coreWidth prev) (coreWidth next)
  /\ merged (Partial.coreDepth partial) (coreDepth prev) (coreDepth next)
  /\ merged (Partial.baseHeight partial) (baseHeight prev) (baseHeight next)
  /\ merged (Partial.structuralGrid partial) (structuralGrid prev) (structuralGrid next)
  /\ merged (Partial.unitsPerFloor partial) (unitsPerFloor prev) (unitsPerFloor next)
  /\ merged (Partial.facadePattern partial) (facadePattern prev) (facadePattern next)
  /\ merged (Partial.windowModule partial) (windowModule prev) (windowModule next)
  /\ merged (Partial.windowWidth partial) (windowWidth prev) (windowWidth next)
  /\ merged (Partial.windowHeight partial) (windowHeight prev) (windowHeight next)
  /\ merged (Partial.spandrelHeight partial) (spandrelHeight prev) (spandrelHeight next)
  /\ merged (Partial.balconyDepth partial) (balconyDepth prev) (balconyDepth next)
  /\ merged (Partial.balconyFrequency partial) (balconyFrequency prev) (balconyFrequency next)
  /\ merged (Partial.roofStyle partial) (roofStyle prev) (roofStyle next)
  /\ merged (Partial.podiumLevels partial) (podiumLevels prev) (podiumLevels next)
  /\ merged (Partial.podiumSetback partial) (podiumSetback prev) (podiumSetback next)
  /\ merged (Partial.includePodium partial) (includePodium prev) (includePodium next)
  /\ merged (Partial.hasAtrium partial) (hasAtrium prev) (hasAtrium next)
  /\ merged (Partial.addRooftopGarden partial) (addRooftopGarden prev) (addRooftopGarden next)
  /\ merged (Partial.includeSolarPanels partial) (includeSolarPanels prev) (includeSolarPanels next)
  /\ merged (Partial.includeLightShelves partial) (includeLightShelves prev) (includeLightShelves next)
  /\ merged (Partial.base over) (base (colors prev)) (base (colors next))
  /\ merged (Partial.accent over) (accent (colors prev)) (accent (colors next))
  /\ merged (Partial.glazing over) (glazing (colors prev)) (glazing (colors next))
  /\ merged (Partial.balcony over) (balcony (colors prev)) (balcony (colors next))
  /\ merged (Partial.roof over) (roof (colors prev)) (roof (colors next))
  /\ (forall c,
        updateConfig (accent_only c) prev
        = mkConfig (projectName prev) (narrative prev) (floors prev) (floorHeight prev)
            (lobbyHeight prev) (width prev) (depth prev) (coreWidth prev) (coreDepth prev)
            (baseHeight prev) (structuralGrid prev) (unitsPerFloor prev) (facadePattern prev)
            (windowModule prev) (windowWidth prev) (windowHeight prev) (spandrelHeight prev)
            (balconyDepth prev) (balconyFrequency prev) (roofStyle prev) (podiumLevels prev)
            (podiumSetback prev) (includePodium prev) (hasAtrium prev) (addRooftopGarden prev)
            (includeSolarPanels prev) (includeLightShelves prev)
            (mkColors (base (colors prev)) c (glazing (colors prev))
               (balcony (colors prev)) (roof (colors prev))))
  /\ (forall v st,
        config (onChange_floors v st)
        = updateConfig (Partial.set_floors v Partial.empty) (config st))
  /\ (forall st,
        let inference := applyAiInference nts (aiPrompt st) (config st) in
        Partial.key_count (updates inference) <> 0%nat ->
        config (handleApplyAi nts st)
        = updateConfig
            (Partial.set_narrative
               (narrative (config st) ++ [newline; newline] ++ str "Prompt: "
                  ++ trim (aiPrompt st))
               (updates inference))
            (config st)).
Proof.
  intros next over.
  repeat match goal with
         | |- merged _ _ _ /\ _ => split; [apply merged_or_else|]
         end.
  split; [reflexivity|].
  split; [reflexivity|].
  intros st inference H. unfold handleApplyAi. fold inference.
  destruct (Nat.eqb_spec (Partial.key_count (updates inference)) 0) as [E|_];
    [contradiction | reflexivity].
Qed.

Lemma updateConfig_merges_witness :
  config (handleApplyAi (fun _ => []) (mkState defaultConfig (str "atrium") [] None))
  = updateConfig
      (Partial.set_narrative
         (narrative defaultConfig ++ [newline; newline] ++ str "Prompt: atrium")
         (Partial.set_hasAtrium true Partial.empty))
      defaultConfig.
Proof.
  destruct (updateConfig_merges (fun _ => []) Partial.empty defaultConfig) as (_ & H).
  do 33 (destruct H as (_ & H)).
  apply (H (mkState defaultConfig (str "atrium") [] None)).
  vm_compute. discriminate.
Defined.

(** ** Balconies in the emitted build loop *)

Module BlenderFacts.
Import Blender.

Lemma flat_map_singleton {A B : Type} (f : A -> B) (l : list A) :
  flat_map (fun x => [f x]) l = map f l.
Proof. induction l as [|x l IH]; simpl; [reflexivity | now rewrite IH]. Qed.

Lemma deep_enough (d : Q) :
  threshold < d -> Qlt_bool threshold d = true /\ Qle_bool d threshold = false.
Proof.
  intros H. unfold Qlt_bool.
  destruct (Qle_bool d threshold) eqn:E; [|auto].
  apply Qle_bool_iff in E. exfalso. exact (Qlt_not_le _ _ H E).
Qed.

Lemma Qlt_bool_true (a b : Q) : Qlt_bool a b = true -> a < b.
Proof.
  unfold Qlt_bool. intros H. apply negb_true_iff in H.
  apply Qnot_le_lt. intros Hle. apply Qle_bool_iff in Hle. congruence.
Qed.

Lemma create_all (c : cfg) (level n : Z) (cols : list Z) :
  threshold < balcony_depth c ->
  flat_map (fun col => create_balcony c level col n) cols
  = map (fun col => mkPlacement level col n) cols.
Proof.
  intros H. unfold create_balcony.
  destruct (deep_enough _ H) as [_ ->]. apply flat_map_singleton.
Qed.

Lemma module_count_nonzero (c : cfg) :
  ~ module c == 0 ->
  module_count c = Some (Z.max 3 (Qfloor (width c / module c))).
Proof.
  intros H. unfold module_count, floor_div.
  destruct (Qeq_bool (module c) 0) eqn:E; [|reflexivity].
  apply Qeq_bool_iff in E. contradiction.
Qed.

Lemma level_parity (level : Z) : (level mod 2 =? 0)%Z = Z.even level.
Proof. rewrite Zmod_even. now destruct (Z.even level). Qed.

End BlenderFacts.

(** C3. In the emitted build loop a balcony is placed only when the
    frequency is not none, the floor index is above 0 and the depth
    exceeds 0.05.  For a module other than zero the column count is
    max(3, floor(width / module)).  On such a floor, every places all the
    columns, alternate places all the columns on even floor indices and
    none on odd ones, and corners places two balconies, at column 0 and
    at the last column of max(2, column count) columns.  With corners,
    module 3.2 and width 38 the column count is 11 and the balconies are
    at columns 0 and 10, on no floor of index 0. *)
Theorem balcony_policy (c : Blender.cfg) (level : Z) :
  (forall placed p,
      Blender.level_balconies c level = Some placed -> In p placed ->
      Blender.balcony_frequency c <> none
      /\ (0 < level)%Z
      /\ Blender.threshold < Blender.balcony_depth c)
  /\ (~ Blender.module c == 0 ->
      Blender.module_count c
      = Some (Z.max 3 (Qfloor (Blender.width c / Blender.module c))))
  /\ ((0 < level)%Z ->
      Blender.threshold < Blender.balcony_depth c ->
      ~ Blender.module c == 0 ->
      let columns := Z.max 3 (Qfloor (Blender.width c / Blender.module c)) in
      let all :=
        map (fun col => Blender.mkPlacement level col columns) (Blender.range columns) in
      Blender.level_balconies c level
      = Some match Blender.balcony_frequency c with
             | none => []
             | every => all
             | alternate => if Z.even level then all else []
             | corners =>
                 [Blender.mkPlacement level 0 (Z.max 2 columns);
                  Blender.mkPlacement level (Z.max 2 columns - 1) (Z.max 2 columns)]
             end)
  /\ Blender.level_balconies c 0 = Some []
  /\ (forall d m,
        Blender.threshold < d -> m = Blender.double_3_2 \/ m = 32 # 10 ->
        let corner := Blender.mkCfg corners d 38 m in
        Blender.module_count corner = Some 11%Z
        /\ Blender.level_balconies corner 0 = Some []
        /\ ((0 < level)%Z ->
            Blender.level_balconies corner level
            = Some [Blender.mkPlacement level 0 11; Blender.mkPlacement level 10 11])).
Proof.
  split; [|split; [|split; [|split]]].
  - intros placed p. unfold Blender.level_balconies.
    destruct (Blender.is_none (Blender.balcony_frequency c)) eqn:En;
      cbn [negb andb]; [intros [= <-] []|].
    destruct (Z.ltb_spec 0 level) as [Hl|_]; cbn [andb]; [|intros [= <-] []].
    destruct (Qlt_bool Blender.threshold (Blender.balcony_depth c)) eqn:Ed;
      [|intros [= <-] []].
    intros _ _. split; [|split; [exact Hl | now apply BlenderFacts.Qlt_bool_true]].
    intros E. rewrite E in En. discriminate.
  - apply BlenderFacts.module_count_nonzero.
  - intros Hl Hd Hm columns all. unfold Blender.level_balconies.
    rewrite (BlenderFacts.module_count_nonzero c Hm). fold columns.
    destruct (BlenderFacts.deep_enough _ Hd) as [-> Hle].
    destruct (Z.ltb_spec 0 level) as [_|]; [|lia].
    rewrite BlenderFacts.level_parity.
    destruct (Blender.balcony_frequency c) eqn:Ef; cbn.
    + reflexivity.
    + destruct (Z.even level); cbn; [|reflexivity].
      now rewrite BlenderFacts.create_all.
    + now rewrite BlenderFacts.create_all.
    + unfold Blender.create_balcony. now rewrite Hle.
  - unfold Blender.level_balconies. now rewrite andb_false_r.
  - intros d m Hd Hm corner.
    assert (Hc : Blender.module_count corner = Some 11%Z)
      by (destruct Hm as [-> | ->]; reflexivity).
    split; [exact Hc|]. split; [reflexivity|].
    intros Hl. unfold Blender.level_balconies. rewrite Hc. subst corner.
    cbn [Blender.balcony_frequency Blender.balcony_depth Blender.is_none
         Blender.is_every Blender.is_alternate Blender.is_corners negb andb orb].
    destruct (BlenderFacts.deep_enough _ Hd) as [-> Hle].
    destruct (Z.ltb_spec 0 level) as [_|]; [|lia].
    cbn [andb flat_map app]. unfold Blender.create_balcony.
    cbn [Blender.balcony_depth]. rewrite Hle. reflexivity.
Qed.

Lemma balcony_policy_witness :
  Blender.level_balconies (Blender.mkCfg corners (21 # 10) 38 Blender.double_3_2) 4
  = Some [Blender.mkPlacement 4 0 11; Blender.mkPlacement 4 10 11].
Proof.
  destruct (balcony_policy (Blender.mkCfg none 0 1 1) 4) as (_ & _ & _ & _ & H).
  destruct (H (21 # 10) Blender.double_3_2) as (_ & _ & E).
  - reflexivity.
  - now left.
  - apply E. reflexivity.
Defined.

(** ** Determinism of the compiler *)

Lemma radix_digit_range (radix : Z) (c : ascii) (v : Z) :
  radix_digit radix c = Some v -> (0 <= v < radix)%Z.
Proof.
  unfold radix_digit, digit_value. cbv zeta.
  generalize (Z.of_N (code c)). intros n.
  destruct (Z.leb_spec 48 n), (Z.leb_spec n 57); cbn [andb];
    try (destruct (Z.ltb_spec (n - 48) radix); intros [= <-]; lia);
    destruct (Z.leb_spec 97 n), (Z.leb_spec n 122); cbn [andb];
    try (destruct (Z.ltb_spec (n - 87) radix); intros [= <-]; lia);
    destruct (Z.leb_spec 65 n), (Z.leb_spec n 90); cbn [andb];
    try (destruct (Z.ltb_spec (n - 55) radix); intros [= <-]; lia);
    discriminate.
Qed.

Lemma read_digits_bound (s : jsstring) :
  forall acc v,
    read_digits 16 s acc = Some v ->
    (0 <= or_else acc 0)%Z ->
    (0 <= v)%Z /\ (v + 1 <= (or_else acc 0 + 1) * 16 ^ Z.of_nat (List.length s))%Z.
Proof.
  induction s as [|c s IH]; intros acc v H Hacc.
  - simpl in H. subst acc. cbn in *. lia.
  - cbn [read_digits] in H.
    assert (Hpow : (0 < 16 ^ Z.of_nat (List.length s))%Z) by (apply Z.pow_pos_nonneg; lia).
    replace (Z.of_nat (List.length (c :: s))) with (Z.succ (Z.of_nat (List.length s)))
      by (simpl List.length; lia).
    rewrite Z.pow_succ_r by lia.
    destruct (radix_digit 16 c) as [d|] eqn:Ed.
    + apply radix_digit_range in Ed.
      apply IH in H.
      * destruct H as [H0 H1]. split; [exact H0|].
        cbn [or_else] in H1. destruct acc as [a|]; cbn [or_else] in *; nia.
      * cbn [or_else]. destruct acc as [a|]; cbn [or_else] in *; nia.
    + subst acc. cbn [or_else] in *. nia.
Qed.

Lemma drop_whitespace_length (s : jsstring) :
  (List.length (drop_whitespace s) <= List.length s)%nat.
Proof.
  induction s as [|c s IH]; simpl; [lia|].
  destruct (is_whitespace c); simpl; lia.
Qed.

(** [parseInt] of at most two characters in radix 16 is [NaN] or at most
    255 in magnitude. *)
Lemma read_sign_facts (s : jsstring) :
  (fst (read_sign s) = 1 \/ fst (read_sign s) = -1)%Z
  /\ (List.length (snd (read_sign s)) <= List.length s)%nat.
Proof.
  unfold read_sign. destruct s as [|c rest]; [simpl; auto|].
  destruct (Ascii.eqb c "-"); [simpl; auto|].
  destruct (Ascii.eqb c "+"); simpl; auto.
Qed.

Lemma strip_prefix_length (radix : Z) (s : jsstring) :
  (List.length (strip_prefix radix s) <= List.length s)%nat.
Proof.
  unfold strip_prefix. destruct s as [|z [|x rest]]; try lia.
  destruct ((radix =? 16)%Z && Ascii.eqb z "0" && (Ascii.eqb x "x" || Ascii.eqb x "X"));
    simpl; lia.
Qed.

(** [parseInt] of at most two characters in radix 16 is [NaN] or at most
    255 in magnitude. *)
Lemma parseInt_short (s : jsstring) (q : Q) :
  (List.length s <= 2)%nat -> parseInt s 16 = Finite q ->
  exists z, q = inject_Z z /\ (-255 <= z <= 255)%Z.
Proof.
  intros Hlen. unfold parseInt.
  pose proof (drop_whitespace_length s) as Hd.
  destruct (read_sign_facts (drop_whitespace s)) as [Hsign Hl].
  destruct (read_sign (drop_whitespace s)) as [sign t]. cbn [fst snd] in *.
  pose proof (strip_prefix_length 16 t) as Hp.
  destruct (read_digits 16 (strip_prefix 16 t) None) as [v|] eqn:Ev; [|discriminate].
  intros [= <-]. exists (sign * v)%Z. split; [reflexivity|].
  apply read_digits_bound in Ev; [|simpl; lia]. cbn [or_else] in Ev.
  assert ((16 ^ Z.of_nat (List.length (strip_prefix 16 t)) <= 16 ^ 2)%Z)
    by (apply Z.pow_le_mono_r; lia).
  change (16 ^ 2)%Z with 256%Z in *. lia.
Qed.

Lemma match_chunks_short (s : jsstring) : Forall short (match_chunks s).
Proof.
  assert (H : forall n s, (List.length s <= n)%nat -> Forall short (match_chunks s)).
  { induction n as [|n IH]; intros t Ht.
    - destruct t; [constructor | simpl in Ht; lia].
    - destruct t as [|a [|b rest]]; cbn [match_chunks].
      + constructor.
      + destruct (is_line_terminator a); repeat constructor.
      + simpl in Ht.
        destruct (is_line_terminator a); [apply (IH (b :: rest)); simpl; lia|].
        destruct (is_line_terminator b);
          (constructor; [unfold short; simpl; lia | apply IH; lia]). }
  apply (H (List.length s)). lia.
Qed.

Lemma chunk_short (s : jsstring) : Forall short (chunk s).
Proof.
  unfold chunk. destruct (List.length s =? 3)%nat.
  - apply Forall_forall. intros ch Hin. apply in_map_iff in Hin.
    destruct Hin as (c & <- & _). unfold short. simpl. lia.
  - pose proof (match_chunks_short s) as H.
    destruct (match_chunks s); [|exact H].
    repeat constructor; unfold short; simpl; lia.
Qed.

Lemma channel_in_fixed_range (hex : jsstring) (i : nat) :
  in_fixed_range
    (divide_by_255 (nth_error (map (fun c => parseInt c 16) (chunk (cleaned hex))) i)).
Proof.
  destruct (nth_error (map (fun c => parseInt c 16) (chunk (cleaned hex))) i)
    as [[q|]|] eqn:E; cbn; try exact I.
  apply nth_error_In, in_map_iff in E. destruct E as (ch & E & Hin).
  pose proof (chunk_short (cleaned hex)) as Hs.
  rewrite Forall_forall in Hs.
  destruct (parseInt_short ch q (Hs ch Hin) E) as (z & -> & Hz).
  unfold Qlt, Qabs, Qdiv, Qmult, Qinv, inject_Z. simpl. lia.
Qed.

Lemma toFixed_builtin_free (nts nts' : Q -> jsstring) (x : number) (f : nat) :
  in_fixed_range x -> number_toFixed nts x f = number_toFixed nts' x f.
Proof.
  destruct x as [q|]; [|reflexivity]. cbn. intros H.
  unfold toFixed. now rewrite (below_cutoff q H).
Qed.

Lemma formatNumber_builtin_free (nts nts' : Q -> jsstring) (x : number) :
  in_fixed_range x -> formatNumber nts x = formatNumber nts' x.
Proof.
  intros H. destruct x as [q|]; [|reflexivity]. unfold formatNumber.
  destruct (isInteger q).
  - apply (toFixed_builtin_free nts nts' (Finite q) 0 H).
  - apply (toFixed_builtin_free nts nts' (Finite q) 2 H).
Qed.

Lemma colorToPythonTuple_builtin_free (nts nts' : Q -> jsstring) (hex : jsstring) :
  colorToPythonTuple nts hex = colorToPythonTuple nts' hex.
Proof.
  unfold colorToPythonTuple, hexToRgb. cbn [rgb_r rgb_g rgb_b].
  now rewrite (toFixed_builtin_free nts nts' _ 4 (channel_in_fixed_range hex 0)),
    (toFixed_builtin_free nts nts' _ 4 (channel_in_fixed_range hex 1)),
    (toFixed_builtin_free nts nts' _ 4 (channel_in_fixed_range hex 2)).
Qed.

(** C1. [generateBlenderScript] is a function of the configuration: two
    runs on the same configuration give the same text.  Nothing else
    enters the result: when the rendered numbers are below 10^21 in
    magnitude the text does not even depend on the builtin
    [Number::toString], and the compiler reads no clock, random source or
    locale. *)
Theorem generateBlenderScript_deterministic (nts nts' : Q -> jsstring)
    (c c' : BuildingConfig) :
  (c = c' -> generateBlenderScript nts c = generateBlenderScript nts c')
  /\ (Forall in_fixed_range (rendered_numbers c) ->
      generateBlenderScript nts c = generateBlenderScript nts' c).
Proof.
  split; [intros ->; reflexivity|].
  intros H. unfold rendered_numbers in H.
  repeat match goal with
         | H : Forall _ (_ :: _) |- _ =>
             let Hx := fresh "Hx" in
             let Hr := fresh "Hr" in
             apply Forall_cons_iff in H; destruct H as [Hx Hr]
         end.
  unfold generateBlenderScript, script_config_rest, dimsPython, facadePython.
  repeat match goal with
         | Hx : in_fixed_range ?x |- _ =>
             rewrite (formatNumber_builtin_free nts nts' x Hx); clear Hx
         end.
  now rewrite !(colorToPythonTuple_builtin_free nts nts').
Qed.

Lemma generateBlenderScript_deterministic_witness :
  defaultConfig = defaultConfig
  /\ generateBlenderScript (fun _ => []) defaultConfig
     = generateBlenderScript (fun _ => str "?") defaultConfig.
Proof.
  split; [reflexivity|].
  apply (generateBlenderScript_deterministic (fun _ => []) (fun _ => str "?")
           defaultConfig defaultConfig).
  unfold rendered_numbers. repeat constructor.
Defined.

(** ** Regular expression matching *)

Lemma rmatch_continues {A : Type} (r : regex) :
  forall s caps (k : jsstring -> captures -> option A) a,
    rmatch r s caps k = Some a -> continues r s caps k a.
Proof.
  induction r as [|c|p|r1 IH1 r2 IH2|r1 IH1 r2 IH2|r IH|n r IH];
    intros s caps k a H; cbn [rmatch] in H.
  - exists s, caps. auto.
  - destruct s as [|x rest]; [discriminate|].
    destruct (Ascii.eqb x c); [|discriminate].
    exists rest, caps. simpl. auto.
  - destruct s as [|x rest]; [discriminate|].
    destruct (p x); [|discriminate].
    exists rest, caps. simpl. auto.
  - apply IH1 in H. destruct H as (s1 & caps1 & H & L1 & C1).
    apply IH2 in H. destruct H as (s2 & caps2 & H & L2 & C2).
    exists s2, caps2. split; [exact H|]. split; [lia|].
    intros n Hn. cbn [groups] in Hn. rewrite C2, C1; auto using in_or_app.
  - destruct (rmatch r1 s caps k) as [a1|] eqn:E1.
    + injection H as <-. apply IH1 in E1. destruct E1 as (s1 & caps1 & H & L1 & C1).
      exists s1, caps1. split; [exact H|]. split; [exact L1|].
      intros n Hn. cbn [groups] in Hn. apply C1. auto using in_or_app.
    + apply IH2 in H. destruct H as (s2 & caps2 & H & L2 & C2).
      exists s2, caps2. split; [exact H|]. split; [exact L2|].
      intros n Hn. cbn [groups] in Hn. apply C2. auto using in_or_app.
  - revert H. generalize (List.length s) at 1. intros fuel.
    revert s caps a. induction fuel as [|fuel IHf]; intros s caps a H.
    + exists s, caps. auto.
    + destruct (rmatch r s caps _) as [a1|] eqn:E1 in H.
      * injection H as <-. apply IH in E1.
        destruct E1 as (s1 & caps1 & H & L1 & C1).
        destruct (List.length s1 <? List.length s)%nat; [|discriminate].
        apply IHf in H. destruct H as (s2 & caps2 & H & L2 & C2).
        exists s2, caps2. split; [exact H|]. split; [lia|].
        intros n Hn. rewrite C2, C1; auto.
      * exists s, caps. auto.
  - apply IH in H. destruct H as (s1 & caps1 & H & L1 & C1).
    eexists s1, _. split; [exact H|]. split; [exact L1|].
    intros m Hm. cbn [groups] in Hm. cbn [capture].
    destruct (Nat.eqb_spec n m) as [->|_]; [exfalso; apply Hm; now left|].
    apply C1. intros Hin. apply Hm. now right.
Qed.

(** A match that opens with group 1, whose body opens with a character
    class: capture 1 of the result begins with a character of the class. *)
Lemma leading_group {A : Type} (p : ascii -> bool) (r1 r2 : regex)
    (s : jsstring) (k : jsstring -> captures -> option A) (a : A) :
  ~ In 1%nat (groups r2) ->
  rmatch (Seq (Group 1 (Seq (Class p) r1)) r2) s [] k = Some a ->
  exists x t s' caps',
    p x = true /\ capture 1 caps' = Some (x :: t) /\ k s' caps' = Some a.
Proof.
  intros Hg H. cbn [rmatch] in H.
  destruct s as [|x rest]; [discriminate|].
  destruct (p x) eqn:Hp; [|discriminate].
  apply rmatch_continues in H. destruct H as (s1 & caps1 & H & L1 & _).
  apply rmatch_continues in H. destruct H as (s2 & caps2 & H & _ & C2).
  exists x, (firstn (List.length rest - List.length s1) rest), s2, caps2.
  split; [exact Hp|]. split; [|exact H].
  rewrite (C2 1%nat Hg). cbn [capture Nat.eqb List.length].
  replace (S (List.length rest) - List.length s1)%nat
    with (S (List.length rest - List.length s1)) by lia.
  reflexivity.
Qed.

Lemma regex_match_found (r : regex) (s : jsstring) (caps : captures) :
  regex_match r s = Some caps ->
  exists t, rmatch r t [] (fun _ c => Some c) = Some caps.
Proof.
  induction s as [|x s IH]; cbn [regex_match].
  - destruct (rmatch r [] [] (fun _ c => Some c)) eqn:E; [|discriminate].
    intros [= <-]. now exists [].
  - destruct (rmatch r (x :: s) [] (fun _ c => Some c)) eqn:E.
    + intros [= <-]. now exists (x :: s).
    + exact IH.
Qed.

Ltac leading_digit r1 r2 :=
  intros s caps H;
  apply regex_match_found in H; destruct H as [t H];
  change (rmatch (Seq (Group 1 (Seq (Class is_digit) r1)) r2) t []
            (fun _ c => Some c) = Some caps) in H;
  apply leading_group in H;
  [ destruct H as (x & w & s' & caps' & Hx & Hc & [= <-]);
    exists x, w; split; [exact Hx | unfold group1; now rewrite Hc]
  | cbn; intuition discriminate ].

Lemma floor_regex_leading_digit : leading_digit_regex floor_regex.
Proof.
  leading_digit
    (Star digit_class)
    (Seq (Star (Class (fun c => Ascii.eqb c "-" || is_whitespace c)))
       (Seq (Group 2 (Alt (Lit (str "story")) (Alt (Lit (str "storey")) (Lit (str "floor")))))
          (Opt (Chr "s")))).
Qed.

Lemma unit_regex_leading_digit : leading_digit_regex unit_regex.
Proof.
  leading_digit
    (Star digit_class)
    (Seq (Star space_class) (Seq (Lit (str "unit")) (Opt (Chr "s")))).
Qed.

Lemma width_regex_leading_digit : leading_digit_regex width_regex.
Proof. leading_digit fraction_tail (metres_tail (Lit (str "wide"))). Qed.

Lemma depth_regex_leading_digit : leading_digit_regex depth_regex.
Proof.
  leading_digit fraction_tail
    (metres_tail (Group 2 (Alt (Lit (str "deep")) (Lit (str "depth"))))).
Qed.

(** ** Parsing a capture *)

Lemma digit_facts (c : ascii) :
  is_digit c = true ->
  is_whitespace c = false
  /\ Ascii.eqb c "-" = false
  /\ Ascii.eqb c "+" = false
  /\ exists d, radix_digit 10 c = Some d.
Proof.
  destruct c as [[] [] [] [] [] [] [] []]; vm_compute; intros H;
    try discriminate H; repeat split; eexists; reflexivity.
Qed.

Lemma read_digits_some (radix : Z) (s : jsstring) :
  forall a, exists v, read_digits radix s (Some a) = Some v.
Proof.
  induction s as [|c s IH]; intros a; cbn [read_digits]; [now exists a|].
  destruct (radix_digit radix c); [apply IH | now exists a].
Qed.

Lemma leading_digit_parsed (x : ascii) (t : jsstring) :
  is_digit x = true ->
  drop_whitespace (x :: t) = x :: t
  /\ read_sign (x :: t) = (1%Z, x :: t)
  /\ exists v, read_digits 10 (x :: t) None = Some v.
Proof.
  intros H. destruct (digit_facts x H) as (W & M & P & d & D).
  cbn [drop_whitespace read_sign read_digits]. rewrite W, M, P, D.
  repeat split. apply read_digits_some.
Qed.

Lemma parseInt_leading_digit (x : ascii) (t : jsstring) :
  is_digit x = true -> exists q, parseInt (x :: t) 10 = Finite q.
Proof.
  intros H. destruct (leading_digit_parsed x t H) as (W & S & v & V).
  unfold parseInt. rewrite W, S.
  assert (E : strip_prefix 10 (x :: t) = x :: t) by (destruct t; reflexivity).
  rewrite E, V. eexists. reflexivity.
Qed.

Lemma parseFloat_leading_digit (x : ascii) (t : jsstring) :
  is_digit x = true -> exists q, parseFloat (x :: t) = Finite q.
Proof.
  intros H. destruct (leading_digit_parsed x t H) as (W & S & v & V).
  unfold parseFloat. rewrite W, S, V.
  destruct (drop_digits (x :: t)) as [|dot [|d frac]]; try (eexists; reflexivity).
  destruct (Ascii.eqb dot "." && is_digit d); [|eexists; reflexivity].
  destruct (read_fraction (d :: frac) (or_else (Some v) 0%Z) 1) as [n scale].
  eexists. reflexivity.
Qed.

(** ** Clamping *)

Lemma clamp_within (x lo hi : Q) :
  lo <= hi -> within lo hi (clamp (Finite x) (Finite lo) (Finite hi)).
Proof.
  intros H. cbn. split.
  - apply Q.min_glb; [apply Q.le_max_r | exact H].
  - apply Q.le_min_r.
Qed.

(** ** The intent mapper, trigger by trigger *)

Lemma run_triggers_unfold (nts : Q -> jsstring) (n : jsstring) (c : BuildingConfig) :
  run_triggers nts n c
  = units_trigger nts n
      (lobby_trigger n c
         (roof_trigger n
            (light_shelves_trigger n
               (facade_trigger n c
                  (balcony_trigger n
                     (solar_trigger n
                        (garden_trigger n
                           (podium_trigger n c
                              (atrium_trigger n
                                 (slender_trigger n c
                                    (depth_trigger nts n
                                       (width_trigger nts n
                                          (floors_trigger nts n c (Partial.empty, [])))))))))))))).
Proof. reflexivity. Qed.

Ltac trigger_cases :=
  repeat match goal with
         | |- context [match regex_match ?r ?n with _ => _ end] =>
             destruct (regex_match r n)
         | |- context [if ?b then _ else _] => destruct b
         end.

(** A trigger that does not write the key read by the goal leaves it as
    it was. *)
Ltac trigger_frame :=
  let a := fresh "a" in
  let u := fresh "u" in
  intros a; destruct a as [u ?]; destruct u;
  unfold floors_trigger, width_trigger, depth_trigger, slender_trigger,
    atrium_trigger, podium_trigger, garden_trigger, solar_trigger,
    balcony_trigger, facade_trigger, light_shelves_trigger, roof_trigger,
    lobby_trigger, units_trigger, push, write;
  trigger_cases; reflexivity.

Ltac strip_trigger :=
  match goal with
  | |- context [?p (fst (?t ?a))] =>
      let H := fresh "H" in
      assert (H : p (fst (t a)) = p (fst a)) by (generalize a; trigger_frame);
      rewrite H; clear H
  end.

Section MapperValues.

Variable nts : Q -> jsstring.
Variable n : jsstring.
Variable c : BuildingConfig.

Lemma floors_value :
  Partial.floors (fst (run_triggers nts n c))
  = match regex_match floor_regex n with
    | Some floorMatch => Some (clamp (parseInt (group1 floorMatch) 10) (num 1) (num 80))
    | None =>
        if has n "supertall"
        then Some (clamp (num_add (floors c) (num 40)) (num 30) (num 120))
        else if has n "tall"
        then Some (clamp (num_add (floors c) (num 8)) (num 6) (num 80))
        else if has n "low-rise" || has n "mid-rise"
        then Some (clamp (floors c) (num 4) (num 12))
        else None
    end.
Proof.
  rewrite run_triggers_unfold. do 13 strip_trigger.
  unfold floors_trigger, push, write. trigger_cases; reflexivity.
Qed.

Ltac read_written :=
  cbn [push write fst snd];
  try match goal with
      | |- context [fst ?a] => destruct (fst a)
      end;
  reflexivity.

Lemma width_value :
  Partial.width (fst (run_triggers nts n c))
  = if has n "slender"
    then Some (clamp (num_mul (width c) (Finite (85 # 100))) (num 12) (width c))
    else match regex_match width_regex n with
         | Some widthMatch =>
             Some (clamp (parseFloat (group1 widthMatch)) (num 10) (num 120))
         | None => None
         end.
Proof.
  rewrite run_triggers_unfold. do 10 strip_trigger.
  unfold slender_trigger at 1. destruct (has n "slender"); [read_written|].
  strip_trigger. unfold width_trigger at 1.
  destruct (regex_match width_regex n); [read_written|].
  strip_trigger. reflexivity.
Qed.

Lemma depth_value :
  Partial.depth (fst (run_triggers nts n c))
  = if has n "slender"
    then Some (clamp (num_mul (depth c) (Finite (85 # 100))) (num 12) (depth c))
    else match regex_match depth_regex n with
         | Some depthMatch =>
             Some (clamp (parseFloat (group1 depthMatch)) (num 10) (num 120))
         | None => None
         end.
Proof.
  rewrite run_triggers_unfold. do 10 strip_trigger.
  unfold slender_trigger at 1. destruct (has n "slender"); [read_written|].
  unfold depth_trigger at 1.
  destruct (regex_match depth_regex n); [read_written|].
  do 2 strip_trigger. reflexivity.
Qed.

Lemma lobbyHeight_value :
  Partial.lobbyHeight (fst (run_triggers nts n c))
  = if has n "generous lobby" || has n "grand lobby"
    then Some (clamp (num_mul (lobbyHeight c) (Finite (12 # 10))) (Finite (45 # 10)) (num 12))
    else None.
Proof.
  rewrite run_triggers_unfold. strip_trigger.
  unfold lobby_trigger at 1.
  destruct (has n "generous lobby" || has n "grand lobby"); [read_written|].
  do 12 strip_trigger. reflexivity.
Qed.

Lemma unitsPerFloor_value :
  Partial.unitsPerFloor (fst (run_triggers nts n c))
  = match regex_match unit_regex n with
    | Some unitMatch => Some (clamp (parseInt (group1 unitMatch) 10) (num 2) (num 40))
    | None => None
    end.
Proof.
  rewrite run_triggers_unfold. unfold units_trigger at 1.
  destruct (regex_match unit_regex n); [read_written|].
  do 13 strip_trigger. reflexivity.
Qed.

Lemma podiumLevels_value :
  Partial.podiumLevels (fst (run_triggers nts n c))
  = if has n "podium" then Some (Math_max (podiumLevels c) (num 2)) else None.
Proof.
  rewrite run_triggers_unfold. do 8 strip_trigger.
  unfold podium_trigger at 1. destruct (has n "podium"); [read_written|].
  do 5 strip_trigger. reflexivity.
Qed.

Lemma facadePattern_value :
  Partial.facadePattern (fst (run_triggers nts n c))
  = if has n "glass curtain" then Some grid
    else if has n "brick" then Some stacked
    else if has n "timber" || has n "wood" then Some offset
    else None.
Proof.
  rewrite run_triggers_unfold. do 4 strip_trigger.
  unfold facade_trigger at 1.
  destruct (has n "glass curtain"); [read_written|].
  destruct (has n "brick"); [read_written|].
  destruct (has n "timber" || has n "wood"); [read_written|].
  do 9 strip_trigger. reflexivity.
Qed.

Lemma colors_value :
  Partial.colors (fst (run_triggers nts n c))
  = if has n "glass curtain" then Some (palette c "#2b3a55" "#546a89" "#a7d9ff")
    else if has n "brick" then Some (palette c "#884a39" "#d46f4d" "#93c6ff")
    else if has n "timber" || has n "wood"
    then Some (palette c "#8c6b3e" "#d9b382" "#9bc1ff")
    else None.
Proof.
  rewrite run_triggers_unfold. do 4 strip_trigger.
  unfold facade_trigger at 1.
  destruct (has n "glass curtain"); [read_written|].
  destruct (has n "brick"); [read_written|].
  destruct (has n "timber" || has n "wood"); [read_written|].
  do 9 strip_trigger. reflexivity.
Qed.

Lemma roofStyle_value :
  Partial.roofStyle (fst (run_triggers nts n c))
  = if has n "pitched roof" then Some pitched
    else if has n "sawtooth" then Some sawtooth
    else if has n "flat roof" then Some flat
    else None.
Proof.
  rewrite run_triggers_unfold. do 2 strip_trigger.
  unfold roof_trigger at 1.
  destruct (has n "pitched roof"); [read_written|].
  destruct (has n "sawtooth"); [read_written|].
  destruct (has n "flat roof"); [read_written|].
  do 11 strip_trigger. reflexivity.
Qed.

Lemma balconyFrequency_value :
  Partial.balconyFrequency (fst (run_triggers nts n c))
  = if has n "balcon"
    then Some (if has n "every" then every
               else if has n "corner" then corners else alternate)
    else None.
Proof.
  rewrite run_triggers_unfold. do 5 strip_trigger.
  unfold balcony_trigger at 1. destruct (has n "balcon"); [read_written|].
  do 8 strip_trigger. reflexivity.
Qed.

Lemma addRooftopGarden_value :
  Partial.addRooftopGarden (fst (run_triggers nts n c))
  = if has n "garden" || has n "green roof" then Some true else None.
Proof.
  rewrite run_triggers_unfold. do 7 strip_trigger.
  unfold garden_trigger at 1.
  destruct (has n "garden" || has n "green roof"); [read_written|].
  do 6 strip_trigger. reflexivity.
Qed.

Lemma hasAtrium_value :
  Partial.hasAtrium (fst (run_triggers nts n c))
  = if has n "atrium" then Some true else None.
Proof.
  rewrite run_triggers_unfold. do 9 strip_trigger.
  unfold atrium_trigger at 1. destruct (has n "atrium"); [read_written|].
  do 4 strip_trigger. reflexivity.
Qed.

Lemma includePodium_value :
  Partial.includePodium (fst (run_triggers nts n c))
  = if has n "podium" then Some true else None.
Proof.
  rewrite run_triggers_unfold. do 8 strip_trigger.
  unfold podium_trigger at 1. destruct (has n "podium"); [read_written|].
  do 5 strip_trigger. reflexivity.
Qed.

Lemma includeSolarPanels_value :
  Partial.includeSolarPanels (fst (run_triggers nts n c))
  = if has n "solar" then Some true else None.
Proof.
  rewrite run_triggers_unfold. do 6 strip_trigger.
  unfold solar_trigger at 1. destruct (has n "solar"); [read_written|].
  do 7 strip_trigger. reflexivity.
Qed.

Lemma includeLightShelves_value :
  Partial.includeLightShelves (fst (run_triggers nts n c))
  = if has n "light shelves" then Some true else None.
Proof.
  rewrite run_triggers_unfold. do 3 strip_trigger.
  unfold light_shelves_trigger at 1. destruct (has n "light shelves"); [read_written|].
  do 10 strip_trigger. reflexivity.
Qed.

Lemma trigger_pushes (t : acc -> acc) :
  In t (triggers nts n c) ->
  (forall a, snd (t a) = snd a ++ summary_part t)
  /\ (List.length (summary_part t) <= 1)%nat.
Proof.
  unfold triggers. cbn [In]. intros H.
  repeat (destruct H as [<- | H]); try contradiction;
    unfold summary_part, floors_trigger, width_trigger, depth_trigger,
      slender_trigger, atrium_trigger, podium_trigger, garden_trigger,
      solar_trigger, balcony_trigger, facade_trigger, light_shelves_trigger,
      roof_trigger, lobby_trigger, units_trigger, push, write;
    trigger_cases; cbn [fst snd app List.length];
    (split; [intros a; now rewrite ?app_nil_r | lia]).
Qed.

Lemma fold_pushes (ts : list (acc -> acc)) :
  (forall t, In t ts -> forall a, snd (t a) = snd a ++ summary_part t) ->
  forall a,
    snd (fold_left (fun a t => t a) ts a) = snd a ++ concat (map summary_part ts).
Proof.
  induction ts as [|t ts IH]; intros H a; cbn [fold_left map concat].
  - now rewrite app_nil_r.
  - rewrite IH by (intros t' Ht'; apply H; now right).
    rewrite (H t (or_introl eq_refl)). now rewrite app_assoc.
Qed.

Lemma summaryParts_value :
  snd (run_triggers nts n c) = concat (map summary_part (triggers nts n c)).
Proof.
  unfold run_triggers. rewrite fold_pushes; [reflexivity|].
  intros t Ht. now apply trigger_pushes.
Qed.

End MapperValues.

(** ** Clamping of inferred values *)

Lemma within_weaken (lo hi lo' hi' : Q) (v : number) :
  lo' <= lo -> hi <= hi' -> within lo hi v -> within lo' hi' v.
Proof.
  destruct v as [q|]; [|contradiction]. cbn. intros Hl Hh [H1 H2]. split.
  - exact (Qle_trans _ _ _ Hl H1).
  - exact (Qle_trans _ _ _ H2 Hh).
Qed.

Section MapperBounds.

Variable nts : Q -> jsstring.
Variable n : jsstring.
Variable c : BuildingConfig.

Lemma parsed_count_within (m : captures) (lo hi : Q) :
  regex_match floor_regex n = Some m \/ regex_match unit_regex n = Some m ->
  lo <= hi ->
  within lo hi (clamp (parseInt (group1 m) 10) (Finite lo) (Finite hi)).
Proof.
  intros H Hle.
  assert (D : exists x t, is_digit x = true /\ group1 m = x :: t).
  { destruct H as [H|H];
      [exact (floor_regex_leading_digit n m H) | exact (unit_regex_leading_digit n m H)]. }
  destruct D as (x & t & Hx & ->).
  destruct (parseInt_leading_digit x t Hx) as [q ->].
  now apply clamp_within.
Qed.

Lemma parsed_measure_within (m : captures) (lo hi : Q) :
  regex_match width_regex n = Some m \/ regex_match depth_regex n = Some m ->
  lo <= hi ->
  within lo hi (clamp (parseFloat (group1 m)) (Finite lo) (Finite hi)).
Proof.
  intros H Hle.
  assert (D : exists x t, is_digit x = true /\ group1 m = x :: t).
  { destruct H as [H|H];
      [exact (width_regex_leading_digit n m H) | exact (depth_regex_leading_digit n m H)]. }
  destruct D as (x & t & Hx & ->).
  destruct (parseFloat_leading_digit x t Hx) as [q ->].
  now apply clamp_within.
Qed.

Lemma floors_bounds (f : Q) (v : number) :
  floors c = Finite f ->
  Partial.floors (fst (run_triggers nts n c)) = Some v ->
  match regex_match floor_regex n with
  | Some _ => within 1 80 v
  | None =>
      if has n "supertall" then within 30 120 v
      else if has n "tall" then within 6 80 v
      else within 4 12 v
  end.
Proof.
  intros Hf. rewrite floors_value, Hf.
  destruct (regex_match floor_regex n) as [m|] eqn:E.
  - intros [= <-]. apply parsed_count_within; [now left | discriminate].
  - destruct (has n "supertall");
      [intros [= <-]; apply clamp_within; discriminate|].
    destruct (has n "tall");
      [intros [= <-]; apply clamp_within; discriminate|].
    destruct (has n "low-rise" || has n "mid-rise"); [|discriminate].
    intros [= <-]. apply clamp_within. discriminate.
Qed.

Lemma measure_bounds (v : number) :
  has n "slender" = false ->
  Partial.width (fst (run_triggers nts n c)) = Some v
  \/ Partial.depth (fst (run_triggers nts n c)) = Some v ->
  within 10 120 v.
Proof.
  intros Hs. rewrite width_value, depth_value, Hs.
  intros [H|H].
  - destruct (regex_match width_regex n) as [m|] eqn:E; [|discriminate].
    injection H as <-. apply parsed_measure_within; [now left | discriminate].
  - destruct (regex_match depth_regex n) as [m|] eqn:E; [|discriminate].
    injection H as <-. apply parsed_measure_within; [now right | discriminate].
Qed.

Lemma lobbyHeight_bounds (l : Q) (v : number) :
  lobbyHeight c = Finite l ->
  Partial.lobbyHeight (fst (run_triggers nts n c)) = Some v ->
  within (45 # 10) 12 v.
Proof.
  intros Hl. rewrite lobbyHeight_value, Hl.
  destruct (has n "generous lobby" || has n "grand lobby"); [|discriminate].
  intros [= <-]. apply clamp_within. discriminate.
Qed.

Lemma unitsPerFloor_bounds (v : number) :
  Partial.unitsPerFloor (fst (run_triggers nts n c)) = Some v ->
  within 2 40 v.
Proof.
  rewrite unitsPerFloor_value.
  destruct (regex_match unit_regex n) as [m|] eqn:E; [|discriminate].
  intros [= <-]. apply parsed_count_within; [now right | discriminate].
Qed.

End MapperBounds.

Lemma updates_value (nts : Q -> jsstring) (prompt : jsstring) (current : BuildingConfig) :
  updates (applyAiInference nts prompt current)
  = match toLowerCase (trim prompt) with
    | [] => Partial.empty
    | _ :: _ => fst (run_triggers nts (toLowerCase (trim prompt)) current)
    end.
Proof. unfold applyAiInference. now destruct (toLowerCase (trim prompt)). Qed.

Lemma floors_merged (partial : Partial.t) (prev : BuildingConfig) :
  floors (updateConfig partial prev) = or_else (Partial.floors partial) (floors prev).
Proof. reflexivity. Qed.

(** C2, as stated, fails: a form write goes through [updateConfig], which
    stores the number as it is, so the width control can store 500 above
    its maximum of 120 and a floors overlay of 500 is stored as 500; and
    the intent mapper clamps to bounds of its own, so the prompt 1 floor
    stores a floor count of 1, below the minimum 3 of the floors control. *)
Lemma field_writes_not_clamped :
  ~ (forall v st, in_control width_control (width (config (onChange_width v st))))
  /\ ~ (forall v prev,
          in_control floors_control
            (floors (updateConfig (Partial.set_floors v Partial.empty) prev)))
  /\ ~ (forall prompt current v,
          Partial.floors (updates (applyAiInference (fun _ => []) prompt current)) = Some v ->
          in_control floors_control v).
Proof.
  split; [|split].
  - intros H. specialize (H (num 500) (mkState defaultConfig [] [] None)).
    destruct H as [_ H]. apply H. reflexivity.
  - intros H. specialize (H (num 500) defaultConfig).
    destruct H as [_ H]. apply H. reflexivity.
  - intros H. specialize (H (str "1 floor") defaultConfig (num 1) eq_refl).
    destruct H as [H _]. apply H. reflexivity.
Qed.

(** C2, amended.  For a current configuration whose floor count and lobby
    height are numbers, every number the intent mapper infers through
    [clamp] lies within the bounds of that call: the floor count in
    [1, 80] from an explicit count, [30, 120] for supertall, [6, 80] for
    tall and [4, 12] for low-rise or mid-rise; width and depth in
    [10, 120] from an explicit measure; the lobby height in [4.5, 12];
    the units per floor in [2, 40].  [updateConfig] stores the number of
    an overlay as it is.  The prompt 500 floors stores the floor count
    80 and the prompt 0 floors stores 1. *)
Theorem applyAiInference_clamps (nts : Q -> jsstring) (prompt : jsstring)
    (current : BuildingConfig) (f l : Q) :
  floors current = Finite f ->
  lobbyHeight current = Finite l ->
  let n := toLowerCase (trim prompt) in
  let u := updates (applyAiInference nts prompt current) in
  (forall v, Partial.floors u = Some v ->
     match regex_match floor_regex n with
     | Some _ => within 1 80 v
     | None =>
         if has n "supertall" then within 30 120 v
         else if has n "tall" then within 6 80 v
         else within 4 12 v
     end)
  /\ (forall v, has n "slender" = false ->
        Partial.width u = Some v \/ Partial.depth u = Some v -> within 10 120 v)
  /\ (forall v, Partial.lobbyHeight u = Some v -> within (45 # 10) 12 v)
  /\ (forall v, Partial.unitsPerFloor u = Some v -> within 2 40 v)
  /\ (forall v prev,
        floors (updateConfig (Partial.set_floors v Partial.empty) prev) = v)
  /\ floors
       (updateConfig (updates (applyAiInference nts (str "500 floors") current)) current)
     = num 80
  /\ floors
       (updateConfig (updates (applyAiInference nts (str "0 floors") current)) current)
     = num 1.
Proof.
  intros Hf Hl n u. unfold u. rewrite updates_value. fold n.
  split; [|split; [|split; [|split; [|split; [|split]]]]].
  - destruct n eqn:E; [discriminate|]. rewrite <- E. intros v.
    now apply (floors_bounds nts n current f).
  - destruct n eqn:E; [intros v _ [H|H]; discriminate|]. rewrite <- E. intros v.
    now apply measure_bounds.
  - destruct n eqn:E; [discriminate|]. rewrite <- E. intros v.
    now apply (lobbyHeight_bounds nts n current l).
  - destruct n eqn:E; [discriminate|]. rewrite <- E. intros v.
    now apply unitsPerFloor_bounds.
  - reflexivity.
  - rewrite floors_merged, updates_value.
    change (toLowerCase (trim (str "500 floors"))) with (str "500 floors").
    cbn [str list_ascii_of_string]. now rewrite floors_value.
  - rewrite floors_merged, updates_value.
    change (toLowerCase (trim (str "0 floors"))) with (str "0 floors").
    cbn [str list_ascii_of_string]. now rewrite floors_value.
Qed.

Lemma applyAiInference_clamps_witness :
  floors defaultConfig = Finite 18
  /\ lobbyHeight defaultConfig = Finite 6
  /\ within 1 80 (num 80)
  /\ floors
       (updateConfig
          (updates (applyAiInference (fun _ => []) (str "500 floors") defaultConfig))
          defaultConfig)
     = num 80.
Proof.
  split; [reflexivity|]. split; [reflexivity|].
  destruct (applyAiInference_clamps (fun _ => []) (str "500 floors") defaultConfig 18 6
              eq_refl eq_refl) as (H1 & _ & _ & _ & _ & H2 & _).
  split; [|exact H2].
  exact (H1 (num 80) eq_refl).
Defined.

(** ** Precedence among the triggers *)

(** C8, as stated, fails: the triggers other than the floor triggers do
    not all fire independently.  The brick trigger is chained after the
    glass curtain trigger, so a prompt with both keywords gets the glass
    curtain pattern and no brick change; likewise sawtooth after pitched
    roof. *)
Lemma chained_triggers_not_independent :
  ~ (forall prompt current,
       has (normalize prompt) "brick" = true ->
       Partial.facadePattern (updates (applyAiInference (fun _ => []) prompt current))
       = Some stacked)
  /\ ~ (forall prompt current,
          has (normalize prompt) "sawtooth" = true ->
          Partial.roofStyle (updates (applyAiInference (fun _ => []) prompt current))
          = Some sawtooth).
Proof.
  split.
  - intros H.
    specialize (H (str "brick base under a glass curtain tower") defaultConfig eq_refl).
    discriminate H.
  - intros H.
    specialize (H (str "sawtooth hall with a pitched roof") defaultConfig eq_refl).
    discriminate H.
Qed.

(** C8, amended.  An explicit count of floors or stories takes precedence
    over the supertall, tall and low-rise or mid-rise triggers, which
    exclude each other; the facade triggers (glass curtain, then brick,
    then timber or wood) and the roof triggers (pitched roof, then
    sawtooth, then flat roof) are chained in the same way; the other
    triggers fire on their own keywords alone; and the summary joins, in
    the order of definition, what each trigger adds, which is at most one
    description.  For the example prompt the overlay has the floor count
    clamped into [4, 12], the offset pattern with the timber palette, the
    alternate balcony frequency and the rooftop garden, and the summary is
    the four descriptions in trigger order. *)
Theorem applyAiInference_precedence (nts : Q -> jsstring) (prompt : jsstring)
    (current : BuildingConfig) :
  let n := normalize prompt in
  let result := applyAiInference nts prompt current in
  let u := updates result in
  n <> [] ->
  (forall m, regex_match floor_regex n = Some m ->
     Partial.floors u = Some (clamp (parseInt (group1 m) 10) (num 1) (num 80)))
  /\ (regex_match floor_regex n = None ->
      Partial.floors u
      = if has n "supertall"
        then Some (clamp (num_add (floors current) (num 40)) (num 30) (num 120))
        else if has n "tall"
        then Some (clamp (num_add (floors current) (num 8)) (num 6) (num 80))
        else if has n "low-rise" || has n "mid-rise"
        then Some (clamp (floors current) (num 4) (num 12))
        else None)
  /\ Partial.facadePattern u
     = (if has n "glass curtain" then Some grid
        else if has n "brick" then Some stacked
        else if has n "timber" || has n "wood" then Some offset
        else None)
  /\ Partial.roofStyle u
     = (if has n "pitched roof" then Some pitched
        else if has n "sawtooth" then Some sawtooth
        else if has n "flat roof" then Some flat
        else None)
  /\ Partial.hasAtrium u = (if has n "atrium" then Some true else None)
  /\ Partial.includePodium u = (if has n "podium" then Some true else None)
  /\ Partial.addRooftopGarden u
     = (if has n "garden" || has n "green roof" then Some true else None)
  /\ Partial.includeSolarPanels u = (if has n "solar" then Some true else None)
  /\ Partial.includeLightShelves u
     = (if has n "light shelves" then Some true else None)
  /\ Partial.balconyFrequency u
     = (if has n "balcon"
        then Some (if has n "every" then every
                   else if has n "corner" then corners else alternate)
        else None)
  /\ summary result
     = join (str " ") (concat (map summary_part (triggers nts n current)))
  /\ Forall (fun t => (List.length (summary_part t) <= 1)%nat) (triggers nts n current)
  /\ (let example := applyAiInference nts example_prompt current in
      Partial.floors (updates example) = Some (clamp (floors current) (num 4) (num 12))
      /\ (forall f, floors current = Finite f ->
            within 4 12 (clamp (floors current) (num 4) (num 12)))
      /\ Partial.facadePattern (updates example) = Some offset
      /\ Partial.colors (updates example)
         = Some (palette current "#8c6b3e" "#d9b382" "#9bc1ff")
      /\ Partial.balconyFrequency (updates example) = Some alternate
      /\ Partial.addRooftopGarden (updates example) = Some true
      /\ summary example = join (str " ") example_summary_parts
      /\ summary example <> []).
Proof.
  intros n result u Hn.
  assert (Hu : u = fst (run_triggers nts n current)).
  { unfold u, result. rewrite updates_value. fold (normalize prompt). fold n.
    destruct n; [contradiction | reflexivity]. }
  assert (Hs : summary result = join (str " ") (snd (run_triggers nts n current))).
  { unfold result, applyAiInference. fold (normalize prompt). fold n.
    destruct n; [contradiction | reflexivity]. }
  rewrite Hu.
  split; [intros m Hm; now rewrite floors_value, Hm|].
  split; [intros Hm; now rewrite floors_value, Hm|].
  split; [apply facadePattern_value|].
  split; [apply roofStyle_value|].
  split; [apply hasAtrium_value|].
  split; [apply includePodium_value|].
  split; [apply addRooftopGarden_value|].
  split; [apply includeSolarPanels_value|].
  split; [apply includeLightShelves_value|].
  split; [apply balconyFrequency_value|].
  split; [now rewrite Hs, summaryParts_value|].
  split; [apply Forall_forall; intros t Ht; exact (proj2 (trigger_pushes nts n current t Ht))|].
  cbv zeta.
  assert (Hex : updates (applyAiInference nts example_prompt current)
                = fst (run_triggers nts example_prompt current)) by reflexivity.
  rewrite Hex.
  split; [now rewrite floors_value|].
  split; [intros f ->; apply clamp_within; discriminate|].
  split; [now rewrite facadePattern_value|].
  split; [now rewrite colors_value|].
  split; [now rewrite balconyFrequency_value|].
  split; [now rewrite addRooftopGarden_value|].
  assert (E : summary (applyAiInference nts example_prompt current)
              = join (str " ") example_summary_parts) by reflexivity.
  split; [exact E | rewrite E; discriminate].
Qed.

Lemma applyAiInference_precedence_witness :
  normalize (str "12 floors, supertall") <> []
  /\ Partial.floors
       (updates (applyAiInference (fun _ => []) (str "12 floors, supertall") defaultConfig))
     = Some (num 12).
Proof.
  split; [discriminate|].
  destruct (applyAiInference_precedence (fun _ => []) (str "12 floors, supertall")
              defaultConfig) as (H & _).
  - discriminate.
  - exact (H [(2%nat, str "floor"); (1%nat, str "12")] eq_refl).
Defined.

(** * Further properties of the code *)

(** ** Reading an escaped text back *)

(** X1. Escaping loses nothing: reading an escaped text by the rules of
    a Python literal gives the text back, so two different texts never
    escape to the same text. *)
Theorem escapePythonString_round_trip (s t : jsstring) :
  python_unescape (escapePythonString s) = Some s
  /\ (escapePythonString s = escapePythonString t -> s = t).
Proof.
  assert (R : forall u, python_unescape (escapePythonString u) = Some u).
  { intros u. rewrite escapePythonString_flat_map.
    induction u as [|c u IH]; [reflexivity|].
    cbn [flat_map]. unfold escape_char at 1.
    destruct (Ascii.eqb c backslash) eqn:Eb.
    - apply Ascii.eqb_eq in Eb. subst c.
      cbn [app python_unescape]. rewrite Ascii.eqb_refl. cbn [orb].
      now rewrite IH.
    - destruct (Ascii.eqb c dq) eqn:Eq.
      + apply Ascii.eqb_eq in Eq. subst c.
        cbn [app python_unescape]. rewrite Ascii.eqb_refl, orb_true_r.
        now rewrite IH.
      + cbn [app python_unescape]. rewrite Eb. now rewrite IH. }
  split; [apply R|].
  intros E. pose proof (R s) as Hs. rewrite E, R in Hs. now injection Hs.
Qed.

(** ** The name of the downloaded file *)

Lemma alphanumeric_lower (c : ascii) :
  is_alphanumeric c = true ->
  is_safe_char (lower_char c) = true
  /\ Ascii.eqb (lower_char c) "-" = false.
Proof.
  destruct c as [[] [] [] [] [] [] [] []]; vm_compute; intros H;
    try discriminate H; split; reflexivity.
Qed.

Lemma safe_char_cases (c : ascii) :
  is_safe_char c = true ->
  (is_alphanumeric c = true /\ lower_char c = c /\ Ascii.eqb c "-" = false)
  \/ c = "-"%char.
Proof.
  destruct c as [[] [] [] [] [] [] [] []]; vm_compute; intros H;
    try discriminate H; auto.
Qed.

Lemma replace_runs_safe (s : jsstring) :
  forall in_run,
    let out := toLowerCase (replace_runs in_run s) in
    forallb is_safe_char out = true
    /\ no_adjacent_hyphens out = true
    /\ (in_run = true -> starts_with_hyphen out = false).
Proof.
  induction s as [|c s IH]; intros in_run; cbn [replace_runs].
  - cbn. auto.
  - destruct (is_alphanumeric c) eqn:Ea.
    + destruct (alphanumeric_lower c Ea) as [Hs Hh].
      destruct (IH false) as (S1 & N1 & _).
      cbn [toLowerCase map forallb no_adjacent_hyphens starts_with_hyphen].
      fold (toLowerCase (replace_runs false s)).
      rewrite Hs, Hh, S1, N1. auto.
    + destruct in_run.
      * apply IH.
      * destruct (IH true) as (S1 & N1 & H1).
        cbn [toLowerCase map forallb no_adjacent_hyphens starts_with_hyphen].
        fold (toLowerCase (replace_runs true s)).
        change (lower_char "-") with "-"%char.
        rewrite S1, N1, (H1 eq_refl). repeat split. discriminate.
Qed.

Lemma replace_runs_fixed (w : jsstring) :
  forall in_run,
    forallb is_safe_char w = true ->
    no_adjacent_hyphens w = true ->
    (in_run = true -> starts_with_hyphen w = false) ->
    toLowerCase (replace_runs in_run w) = w.
Proof.
  induction w as [|c w IH]; intros in_run Hs Hn Hr; [reflexivity|].
  cbn [forallb no_adjacent_hyphens] in Hs, Hn.
  apply andb_true_iff in Hs. destruct Hs as [Hc Hs].
  apply andb_true_iff in Hn. destruct Hn as [Hcn Hn].
  cbn [replace_runs].
  destruct (safe_char_cases c Hc) as [(Ea & El & _) | ->].
  - rewrite Ea. cbn [toLowerCase map]. rewrite El. f_equal.
    apply IH; [exact Hs | exact Hn | discriminate].
  - change (is_alphanumeric "-") with false. cbv iota.
    destruct in_run; [specialize (Hr eq_refl); discriminate Hr|].
    cbn [toLowerCase map]. change (lower_char "-") with "-"%char. f_equal.
    apply IH; [exact Hs | exact Hn|]. intros _.
    cbn in Hcn. now apply negb_true_iff in Hcn.
Qed.

Lemma replace_runs_nonempty (c : ascii) (s : jsstring) :
  replace_runs false (c :: s) <> [].
Proof.
  cbn [replace_runs]. destruct (is_alphanumeric c); discriminate.
Qed.

(** X2. The name under which the script is saved is made of lower-case
    letters, digits and single hyphens only, whatever the project name
    is, and cleaning a clean stem changes nothing.  The stem is empty
    exactly for the empty project name: the file is then named
    [building-blender-generator.py], and for every other project name it
    is the stem followed by [-blender-generator.py]. *)
Theorem safeName_is_safe (projectName : jsstring) :
  forallb is_safe_char (safeName projectName) = true
  /\ no_adjacent_hyphens (safeName projectName) = true
  /\ (safeName projectName = [] <-> projectName = [])
  /\ safeName (safeName projectName) = safeName projectName
  /\ (projectName = [] ->
      download_name projectName = str "building-blender-generator.py")
  /\ (projectName <> [] ->
      download_name projectName = safeName projectName ++ str "-blender-generator.py")
  /\ exists stem,
       stem <> []
       /\ forallb is_safe_char stem = true
       /\ download_name projectName = stem ++ str "-blender-generator.py".
Proof.
  destruct (replace_runs_safe projectName false) as (S1 & N1 & _).
  assert (Empty : safeName projectName = [] <-> projectName = []).
  { split; [|intros ->; reflexivity].
    destruct projectName as [|c s]; [reflexivity|].
    unfold safeName, toLowerCase. intros E. apply map_eq_nil in E.
    now apply replace_runs_nonempty in E. }
  split; [exact S1|]. split; [exact N1|]. split; [exact Empty|].
  split; [|split; [|split]].
  - unfold safeName at 1. apply replace_runs_fixed; [exact S1 | exact N1 | discriminate].
  - intros ->. reflexivity.
  - intros H. unfold download_name.
    destruct (safeName projectName) as [|c name] eqn:E; [|reflexivity].
    exfalso. apply H. now apply Empty.
  - unfold download_name. destruct (safeName projectName) as [|c name] eqn:E.
    + exists (str "building"). repeat split. discriminate.
    + exists (c :: name). repeat split; [discriminate|].
      rewrite <- E. exact S1.
Qed.

Lemma safeName_is_safe_witness :
  str "Tower #9 (east)" <> []
  /\ download_name (str "Tower #9 (east)") = str "tower-9-east--blender-generator.py".
Proof.
  split; [discriminate|].
  destruct (safeName_is_safe (str "Tower #9 (east)")) as (_ & _ & _ & _ & _ & H & _).
  rewrite H by discriminate. reflexivity.
Defined.

(** ** Normalising the prompt *)

Lemma lower_char_whitespace (c : ascii) :
  is_whitespace (lower_char c) = is_whitespace c.
Proof. destruct c as [[] [] [] [] [] [] [] []]; reflexivity. Qed.

Lemma drop_whitespace_lower (s : jsstring) :
  drop_whitespace (toLowerCase s) = toLowerCase (drop_whitespace s).
Proof.
  induction s as [|c s IH]; [reflexivity|].
  cbn [toLowerCase map drop_whitespace]. rewrite lower_char_whitespace.
  destruct (is_whitespace c); [exact IH | reflexivity].
Qed.

Lemma trim_lower (s : jsstring) : trim (toLowerCase s) = toLowerCase (trim s).
Proof.
  unfold trim. rewrite drop_whitespace_lower. unfold toLowerCase at 1.
  rewrite <- map_rev. fold (toLowerCase (rev (drop_whitespace s))).
  rewrite drop_whitespace_lower. unfold toLowerCase. now rewrite map_rev.
Qed.

Lemma drop_whitespace_blank (pre s : jsstring) :
  forallb is_whitespace pre = true ->
  drop_whitespace (pre ++ s) = drop_whitespace s.
Proof.
  induction pre as [|c pre IH]; [reflexivity|]. cbn [forallb app drop_whitespace].
  intros H. apply andb_true_iff in H. destruct H as [-> H]. now apply IH.
Qed.

Lemma drop_whitespace_app (s post : jsstring) :
  drop_whitespace s <> [] -> drop_whitespace (s ++ post) = drop_whitespace s ++ post.
Proof.
  induction s as [|c s IH]; [contradiction|]. cbn [app drop_whitespace].
  destruct (is_whitespace c); [exact IH | reflexivity].
Qed.

Lemma trim_blank (s : jsstring) : forallb is_whitespace s = true -> trim s = [].
Proof.
  intros H. unfold trim.
  rewrite <- (app_nil_r s), (drop_whitespace_blank s [] H). reflexivity.
Qed.

Lemma trim_padding (pre s post : jsstring) :
  forallb is_whitespace pre = true ->
  forallb is_whitespace post = true ->
  trim (pre ++ s ++ post) = trim s.
Proof.
  intros Hpre Hpost. unfold trim. rewrite (drop_whitespace_blank pre _ Hpre).
  f_equal.
  destruct (drop_whitespace s) as [|x r] eqn:E.
  - assert (Hs : drop_whitespace (s ++ post) = []).
    { clear Hpre. induction s as [|c s IH].
      - cbn. rewrite <- (app_nil_r post). now apply drop_whitespace_blank.
      - cbn [app drop_whitespace] in *. destruct (is_whitespace c);
          [now apply IH | discriminate]. }
    now rewrite Hs.
  - rewrite drop_whitespace_app by (rewrite E; discriminate).
    rewrite E, rev_app_distr. apply drop_whitespace_blank.
    rewrite forallb_forall in *. intros c Hc. apply Hpost. now apply in_rev.
Qed.

(** X3. The intent mapper reads its prompt without regard to letter case
    and to white space around it: two prompts with the same lower-case
    form give the same inference, and so do a prompt and the same prompt
    with white space before and after. *)
Theorem applyAiInference_normalized (nts : Q -> jsstring) (current : BuildingConfig)
    (prompt other pre post : jsstring) :
  (toLowerCase prompt = toLowerCase other ->
   applyAiInference nts prompt current = applyAiInference nts other current)
  /\ applyAiInference nts (toLowerCase prompt) current
     = applyAiInference nts prompt current
  /\ (forallb is_whitespace pre = true ->
      forallb is_whitespace post = true ->
      applyAiInference nts (pre ++ prompt ++ post) current
      = applyAiInference nts prompt current).
Proof.
  assert (L : forall p q, toLowerCase p = toLowerCase q ->
                          applyAiInference nts p current = applyAiInference nts q current).
  { intros p q E. unfold applyAiInference.
    now rewrite <- (trim_lower p), <- (trim_lower q), E. }
  split; [apply L|]. split.
  - apply L. unfold toLowerCase. rewrite map_map. apply map_ext.
    intros c. destruct c as [[] [] [] [] [] [] [] []]; reflexivity.
  - intros Hpre Hpost. unfold applyAiInference. now rewrite trim_padding.
Qed.

Lemma applyAiInference_normalized_witness :
  toLowerCase (str "Add SOLAR panels") = toLowerCase (str "add solar panels")
  /\ applyAiInference (fun _ => []) (str "Add SOLAR panels") defaultConfig
     = applyAiInference (fun _ => []) (str "add solar panels") defaultConfig.
Proof.
  split; [vm_compute; reflexivity|].
  refine (proj1 (applyAiInference_normalized (fun _ => []) defaultConfig
                   (str "Add SOLAR panels") (str "add solar panels") [] []) _).
  vm_compute. reflexivity.
Defined.

(** X4. A prompt that is empty or white space only gives the empty
    overlay and the empty summary, and applying it changes neither the
    configuration nor the prompt box nor the log: only the status
    message is set. *)
Theorem blank_prompt_changes_nothing (nts : Q -> jsstring) (st : PageState) :
  forallb is_whitespace (aiPrompt st) = true ->
  applyAiInference nts (aiPrompt st) (config st) = mkInference Partial.empty []
  /\ handleApplyAi nts st
     = mkState (config st) (aiPrompt st) (aiSummary st)
         (Some (str "No actionable design moves detected.")).
Proof.
  intros H.
  assert (E : applyAiInference nts (aiPrompt st) (config st)
              = mkInference Partial.empty []).
  { unfold applyAiInference. now rewrite (trim_blank _ H). }
  split; [exact E|]. unfold handleApplyAi. now rewrite E.
Qed.

Lemma blank_prompt_changes_nothing_witness :
  forallb is_whitespace (str "   ") = true
  /\ handleApplyAi (fun _ => []) (mkState defaultConfig (str "   ") [str "earlier"] None)
     = mkState defaultConfig (str "   ") [str "earlier"]
         (Some (str "No actionable design moves detected.")).
Proof.
  split; [reflexivity|].
  refine (proj2 (blank_prompt_changes_nothing (fun _ => [])
                   (mkState defaultConfig (str "   ") [str "earlier"] None) _)).
  reflexivity.
Defined.

(** ** Merging twice *)

Lemma or_else_twice {A : Type} (o : option A) (x : A) :
  or_else o (or_else o x) = or_else o x.
Proof. now destruct o. Qed.

(** X5. Merging the empty overlay returns the configuration as it is,
    and merging the same overlay a second time changes nothing more. *)
Theorem updateConfig_idempotent (partial : Partial.t) (prev : BuildingConfig) :
  updateConfig Partial.empty prev = prev
  /\ updateConfig partial (updateConfig partial prev) = updateConfig partial prev.
Proof.
  split.
  - destruct prev as [? ? ? ? ? ? ? ? ? ? ? ? ? ? ? ? ? ? ? ? ? ? ? ? ? ? ? []].
    reflexivity.
  - unfold updateConfig, merge_colors.
    cbn [projectName narrative floors floorHeight lobbyHeight width depth coreWidth
         coreDepth baseHeight structuralGrid unitsPerFloor facadePattern windowModule
         windowWidth windowHeight spandrelHeight balconyDepth balconyFrequency roofStyle
         podiumLevels podiumSetback includePodium hasAtrium addRooftopGarden
         includeSolarPanels includeLightShelves colors base accent glazing balcony roof].
    now rewrite !or_else_twice.
Qed.

(** ** What an applied move leaves alone *)

Lemma mapper_untouched (nts : Q -> jsstring) (n : jsstring) (c : BuildingConfig) :
  untouched (fst (run_triggers nts n c)) = untouched Partial.empty.
Proof. rewrite run_triggers_unfold. do 14 strip_trigger. reflexivity. Qed.

Lemma updates_untouched (nts : Q -> jsstring) (prompt : jsstring) (c : BuildingConfig) :
  untouched (updates (applyAiInference nts prompt c)) = untouched Partial.empty.
Proof.
  rewrite updates_value. destruct (toLowerCase (trim prompt)) eqn:E; [reflexivity|].
  rewrite <- E. apply mapper_untouched.
Qed.

Lemma updates_colors (nts : Q -> jsstring) (prompt : jsstring) (c : BuildingConfig) :
  Partial.colors (updates (applyAiInference nts prompt c)) = None
  \/ exists b a g,
       Partial.colors (updates (applyAiInference nts prompt c)) = Some (palette c b a g).
Proof.
  rewrite updates_value. destruct (toLowerCase (trim prompt)) eqn:E; [now left|].
  rewrite <- E, colors_value.
  destruct (has _ "glass curtain"); [right; now eexists _, _, _|].
  destruct (has _ "brick"); [right; now eexists _, _, _|].
  destruct (has _ "timber" || has _ "wood"); [right; now eexists _, _, _ | now left].
Qed.

Lemma kept_after_merge (u : Partial.t) (v : jsstring) (c : BuildingConfig) :
  untouched u = untouched Partial.empty ->
  (Partial.colors u = None
   \/ exists b a g, Partial.colors u = Some (palette c b a g)) ->
  kept_fields (updateConfig (Partial.set_narrative v u) c) = kept_fields c.
Proof.
  destruct u. unfold untouched. cbn. intros [= -> -> -> -> -> -> -> -> -> -> -> -> ->].
  intros [-> | (b & a & g & ->)]; reflexivity.
Qed.

(** X6. The intent mapper never writes the project name, the narrative,
    the floor height, the core, the base height, the structural grid, the
    window sizes, the spandrel height, the balcony depth or the podium
    setback; and applying a move leaves all of these but the narrative,
    and the balcony and roof colours, as they were. *)
Theorem applied_move_keeps (nts : Q -> jsstring) (st : PageState) :
  untouched (updates (applyAiInference nts (aiPrompt st) (config st)))
  = untouched Partial.empty
  /\ kept_fields (config (handleApplyAi nts st)) = kept_fields (config st).
Proof.
  split; [apply updates_untouched|].
  unfold handleApplyAi.
  destruct (Partial.key_count _ =? 0)%nat; [reflexivity|]. cbn [config].
  apply kept_after_merge; [apply updates_untouched | apply updates_colors].
Qed.

(** ** Whole numbers *)

Lemma whole_iff (q : Q) : isInteger q = true <-> exists z, q == inject_Z z.
Proof.
  unfold isInteger. split.
  - intros H. apply Qeq_bool_iff in H. now exists (Qfloor q).
  - intros [z Hz]. apply Qeq_bool_iff.
    rewrite Hz at 2. now rewrite Qfloor_Z.
Qed.

Lemma whole_num (z : Z) : whole (num z).
Proof. cbn. apply whole_iff. now exists z. Qed.

Lemma whole_compat (q q' : Q) : q == q' -> isInteger q = true -> isInteger q' = true.
Proof.
  intros E H. apply whole_iff in H. destruct H as [z Hz].
  apply whole_iff. exists z. now rewrite <- E.
Qed.

Lemma whole_clamp (v lo hi : number) :
  whole v -> whole lo -> whole hi -> whole (clamp v lo hi).
Proof.
  destruct v as [a|], lo as [b|], hi as [c|]; try contradiction. cbn.
  intros Ha Hb Hc.
  assert (Hm : isInteger (Qmax a b) = true).
  { destruct (Q.max_spec a b) as [[_ E] | [_ E]]; symmetry in E;
      eauto using whole_compat. }
  destruct (Q.min_spec (Qmax a b) c) as [[_ E] | [_ E]]; symmetry in E;
    eauto using whole_compat.
Qed.

Lemma whole_add (v : number) (z : Z) : whole v -> whole (num_add v (num z)).
Proof.
  destruct v as [a|]; [|contradiction]. cbn. intros H.
  apply whole_iff in H. destruct H as [y Hy]. apply whole_iff.
  exists (y + z)%Z. rewrite Hy, inject_Z_plus. reflexivity.
Qed.

Lemma parseInt_whole (s : jsstring) (radix : Z) : parseInt s radix <> NaN -> whole (parseInt s radix).
Proof.
  unfold parseInt. destruct (read_sign (drop_whitespace s)) as [sign t].
  destruct (read_digits radix (strip_prefix radix t) None) as [v|];
    [intros _; apply whole_num | contradiction].
Qed.

Lemma parsed_count_whole (n : jsstring) (m : captures) (lo hi : Z) :
  regex_match floor_regex n = Some m \/ regex_match unit_regex n = Some m ->
  whole (clamp (parseInt (group1 m) 10) (num lo) (num hi)).
Proof.
  intros H.
  assert (D : exists x t, is_digit x = true /\ group1 m = x :: t).
  { destruct H as [H|H];
      [exact (floor_regex_leading_digit n m H) | exact (unit_regex_leading_digit n m H)]. }
  destruct D as (x & t & Hx & E).
  apply whole_clamp; try apply whole_num.
  apply parseInt_whole. rewrite E.
  destruct (parseInt_leading_digit x t Hx) as [q ->]. discriminate.
Qed.

Lemma whole_in_range_text (nts : Q -> jsstring) (v : number) (lo hi : Q) :
  whole v -> within lo hi v -> 0 <= lo -> hi <= 120 ->
  is_integer_text (formatNumber nts v) = true.
Proof.
  destruct v as [q|]; [|contradiction]. cbn [whole within formatNumber].
  intros -> [H1 H2] Hlo Hhi. apply toFixed_0_integer_text.
  rewrite Qabs_pos by (eapply Qle_trans; eassumption).
  apply (Qle_lt_trans _ 120); [eapply Qle_trans; eassumption | reflexivity].
Qed.

(** X7. The intent mapper keeps counts whole: when the current floor
    count is a whole number, the floor count it infers is a whole number
    between 1 and 120, which the script renders as an integer; and the
    units per floor it infers are always a whole number between 2 and
    40. *)
Theorem inferred_counts_whole (nts : Q -> jsstring) (prompt : jsstring)
    (current : BuildingConfig) :
  whole (floors current) ->
  let u := updates (applyAiInference nts prompt current) in
  (forall v, Partial.floors u = Some v ->
     whole v /\ within 1 120 v /\ is_integer_text (formatNumber nts v) = true)
  /\ (forall v, Partial.unitsPerFloor u = Some v ->
        whole v /\ within 2 40 v /\ is_integer_text (formatNumber nts v) = true).
Proof.
  intros Hw u. unfold u. rewrite updates_value.
  destruct (toLowerCase (trim prompt)) as [|x0 rest0] eqn:En;
    [split; intros v; discriminate|].
  rewrite <- En. set (n := toLowerCase (trim prompt)). split; intros v Hv.
  - destruct (floors current) as [f|] eqn:Ef; [|contradiction].
    assert (Hb : within 1 120 v).
    { pose proof (floors_bounds nts n current f v Ef Hv) as B.
      destruct (regex_match floor_regex n);
        [eapply within_weaken; [| |exact B]; discriminate|].
      destruct (has n "supertall");
        [eapply within_weaken; [| |exact B]; discriminate|].
      destruct (has n "tall"); eapply within_weaken; try exact B; discriminate. }
    assert (Hwv : whole v).
    { rewrite floors_value, Ef in Hv.
      destruct (regex_match floor_regex n) as [m|] eqn:Em.
      - injection Hv as <-. apply (parsed_count_whole n); now left.
      - destruct (has n "supertall");
          [injection Hv as <-;
           apply whole_clamp; [apply (whole_add (Finite f)); exact Hw | apply whole_num..]|].
        destruct (has n "tall");
          [injection Hv as <-;
           apply whole_clamp; [apply (whole_add (Finite f)); exact Hw | apply whole_num..]|].
        destruct (has n "low-rise" || has n "mid-rise"); [|discriminate].
        injection Hv as <-. apply whole_clamp; [exact Hw | apply whole_num..]. }
    split; [exact Hwv|]. split; [exact Hb|].
    apply (whole_in_range_text nts v 1 120 Hwv Hb); discriminate.
  - pose proof (unitsPerFloor_bounds nts n current v Hv) as Hb.
    assert (Hwv : whole v).
    { rewrite unitsPerFloor_value in Hv.
      destruct (regex_match unit_regex n) as [m|] eqn:Em; [|discriminate].
      injection Hv as <-. apply (parsed_count_whole n); now right. }
    split; [exact Hwv|]. split; [exact Hb|].
    apply (whole_in_range_text nts v 2 40 Hwv Hb); discriminate.
Qed.

Lemma inferred_counts_whole_witness :
  whole (floors defaultConfig)
  /\ whole (num 58).
Proof.
  split; [reflexivity|].
  refine (proj1 (proj1 (inferred_counts_whole (fun _ => []) (str "supertall")
                          defaultConfig _) (num 58) _)).
  - reflexivity.
  - vm_compute. reflexivity.
Defined.

(** ** The slender trigger *)

Lemma slender_clamp (p w : Q) :
  exists q,
    clamp (Finite p) (num 12) (Finite w) = Finite q
    /\ q <= w
    /\ (12 <= w -> 12 <= q)
    /\ (w <= 12 -> q == w)
    /\ (12 < w -> p < w -> q < w).
Proof.
  eexists. split; [reflexivity|]. cbn.
  set (x := Qmax p 12).
  assert (Hx : 12 <= x) by apply Q.le_max_r.
  split; [apply Q.le_min_r|]. split; [|split].
  - intros H. now apply Q.min_glb.
  - intros H. apply Q.min_r. eapply Qle_trans; eassumption.
  - intros H Hp.
    assert (Lx : x < w) by (unfold x; apply Q.max_lub_lt; assumption).
    apply (Qle_lt_trans _ x); [apply Q.le_min_l | exact Lx].
Qed.

(** X8. When the prompt says slender, the width and the depth of the
    overlay come from the current ones alone, an explicit measure in the
    same prompt being overwritten: each is at most the current value, is
    at least 12 when the current value is, equals the current value when
    that is 12 or less, and is below it when that is above 12.  The first
    three bounds come from the clamp alone, whatever value the product by
    0.85 has. *)
Theorem slender_never_widens (nts : Q -> jsstring) (prompt : jsstring)
    (current : BuildingConfig) (w d : Q) :
  has (normalize prompt) "slender" = true ->
  width current = Finite w ->
  depth current = Finite d ->
  let u := updates (applyAiInference nts prompt current) in
  (exists q,
      Partial.width u = Some (Finite q)
      /\ q <= w /\ (12 <= w -> 12 <= q) /\ (w <= 12 -> q == w) /\ (12 < w -> q < w))
  /\ (exists q,
        Partial.depth u = Some (Finite q)
        /\ q <= d /\ (12 <= d -> 12 <= q) /\ (d <= 12 -> q == d) /\ (12 < d -> q < d))
  /\ (forall product limit,
        exists q,
          clamp (Finite product) (num 12) (Finite limit) = Finite q
          /\ q <= limit /\ (12 <= limit -> 12 <= q) /\ (limit <= 12 -> q == limit)).
Proof.
  intros Hs Hw Hd u. unfold normalize in Hs. unfold u. rewrite updates_value.
  destruct (toLowerCase (trim prompt)) as [|x0 rest0] eqn:En;
    [discriminate Hs|].
  rewrite <- En in *. rewrite width_value, depth_value, Hs, Hw, Hd.
  assert (Shrinks : forall v, 12 < v -> v * (85 # 100) < v) by (intros v Hv; lra).
  split; [|split].
  - destruct (slender_clamp (w * (85 # 100)) w) as (q & E & H1 & H2 & H3 & H4).
    exists q. split; [exact (f_equal Some E)|]. repeat split; try assumption.
    intros H. apply H4; [exact H | now apply Shrinks].
  - destruct (slender_clamp (d * (85 # 100)) d) as (q & E & H1 & H2 & H3 & H4).
    exists q. split; [exact (f_equal Some E)|]. repeat split; try assumption.
    intros H. apply H4; [exact H | now apply Shrinks].
  - intros product limit.
    destruct (slender_clamp product limit) as (q & E & H1 & H2 & H3 & _).
    exists q. repeat split; assumption.
Qed.

Lemma slender_never_widens_witness :
  has (normalize (str "20m wide, slender")) "slender" = true
  /\ exists q,
       Partial.width
         (updates (applyAiInference (fun _ => []) (str "20m wide, slender") defaultConfig))
       = Some (Finite q)
       /\ q <= 38.
Proof.
  split; [vm_compute; reflexivity|].
  destruct (slender_never_widens (fun _ => []) (str "20m wide, slender") defaultConfig
              38 26) as ((q & E & Hle & _) & _);
    [vm_compute; reflexivity | reflexivity | reflexivity |].
  exists q. split; assumption.
Defined.

(** ** The log of applied moves *)

Lemma firstn_5_length {A : Type} (l : list A) : (List.length (firstn 5 l) <= 5)%nat.
Proof. rewrite length_firstn. lia. Qed.

(** X9. In every state the page can reach, by any sequence of form
    edits, typing, applied moves, resets, copies and downloads, the log
    of applied moves holds at most five entries. *)
Theorem log_at_most_five (nts : Q -> jsstring) (st : PageState) :
  reachable nts st -> (List.length (aiSummary st) <= 5)%nat.
Proof.
  induction 1 as [|partial st _ IH|value st _ IH|st _ IH|st _ IH|message st _ IH];
    cbn; try lia; try exact IH.
  unfold handleApplyAi.
  destruct (Partial.key_count _ =? 0)%nat; cbn [aiSummary]; [exact IH|].
  destruct (summary _); [exact IH | apply firstn_5_length].
Qed.

Lemma log_at_most_five_witness :
  (List.length
     (aiSummary
        (handleApplyAi (fun _ => [])
           (onChange_prompt (str "add solar") initial_state))) <= 5)%nat.
Proof.
  apply (log_at_most_five (fun _ => [])).
  apply reach_apply, reach_prompt, reach_initial.
Defined.

(** ** The whole build loop *)

Lemma range_In (n level : Z) : In level (Blender.range n) <-> (0 <= level < n)%Z.
Proof.
  unfold Blender.range. rewrite in_map_iff. split.
  - intros (k & <- & Hk). apply in_seq in Hk. lia.
  - intros H. exists (Z.to_nat level). split; [lia|]. apply in_seq. lia.
Qed.

Lemma build_levels_None (c : Blender.cfg) (levels : list Z) :
  Blender.build_levels c levels = None
  <-> exists level, In level levels /\ Blender.level_balconies c level = None.
Proof.
  induction levels as [|l levels IH]; cbn [Blender.build_levels].
  - split; [discriminate | intros (? & [] & _)].
  - destruct (Blender.level_balconies c l) as [here|] eqn:E.
    + destruct (Blender.build_levels c levels) as [later|].
      * split; [discriminate|]. intros (level & [<- | Hin] & H); [congruence|].
        destruct IH as [_ IH]. discriminate IH. now exists level.
      * split; [|reflexivity]. intros _. destruct IH as [IH _].
        destruct (IH eq_refl) as (level & Hin & H). exists level. split; [now right | exact H].
    + split; [|reflexivity]. intros _. exists l. split; [now left | exact E].
Qed.

Lemma level_balconies_None (c : Blender.cfg) (level : Z) :
  Blender.level_balconies c level = None
  <-> Blender.balcony_frequency c <> none
      /\ (0 < level)%Z
      /\ Blender.threshold < Blender.balcony_depth c
      /\ Blender.module c == 0.
Proof.
  unfold Blender.level_balconies, Blender.module_count, Blender.floor_div.
  destruct (Blender.balcony_frequency c) eqn:Ef; cbn [Blender.is_none negb andb];
    try (split; [discriminate | intros (H & _); now contradiction H]);
    (destruct (Z.ltb_spec 0 level) as [Hl|Hl]; cbn [andb];
     [|split; [discriminate | intros (_ & H & _); lia]];
     destruct (Qlt_bool Blender.threshold (Blender.balcony_depth c)) eqn:Ed;
     [apply BlenderFacts.Qlt_bool_true in Ed
     |split; [discriminate|]; intros (_ & _ & H & _);
      destruct (BlenderFacts.deep_enough _ H) as [H' _]; congruence];
     destruct (Qeq_bool (Blender.module c) 0) eqn:Em;
     [apply Qeq_bool_iff in Em; split; [intros _; repeat split; auto; discriminate | reflexivity]
     |split;
      [cbn [Blender.is_every Blender.is_alternate Blender.is_corners orb andb];
       destruct (level mod 2 =? 0)%Z; discriminate
      |intros (_ & _ & _ & H); apply Qeq_bool_iff in H; congruence]]).
Qed.

(** X10. The emitted build loop fails in its balcony part in one case
    only: the module is zero while balconies are asked for (a frequency
    other than none and a depth above 0.05) and the building has at least
    two floors; the division by the module then raises on floor index 1,
    whatever the frequency is. *)
Theorem build_raises_iff (c : Blender.cfg) (floors : Z) :
  Blender.build c floors = None
  <-> Blender.module c == 0
      /\ Blender.balcony_frequency c <> none
      /\ Blender.threshold < Blender.balcony_depth c
      /\ (2 <= floors)%Z.
Proof.
  unfold Blender.build. rewrite build_levels_None. split.
  - intros (level & Hin & H). apply range_In in Hin.
    apply level_balconies_None in H. destruct H as (Hf & Hl & Hd & Hm).
    repeat split; auto. lia.
  - intros (Hm & Hf & Hd & Hn). exists 1%Z. split; [apply range_In; lia|].
    apply level_balconies_None. repeat split; auto.
Qed.

Lemma range_length (n : Z) : List.length (Blender.range n) = Z.to_nat n.
Proof. unfold Blender.range. now rewrite length_map, length_seq. Qed.

Lemma range_succ (n : nat) :
  Blender.range (Z.of_nat (S n)) = Blender.range (Z.of_nat n) ++ [Z.of_nat n].
Proof.
  unfold Blender.range. rewrite !Nat2Z.id, seq_S, map_app. reflexivity.
Qed.

Lemma level_balconies_count (c : Blender.cfg) (level : Z) :
  ~ Blender.module c == 0 ->
  Blender.threshold < Blender.balcony_depth c ->
  exists placed,
    Blender.level_balconies c level = Some placed
    /\ Z.of_nat (List.length placed) = balconies_on c level.
Proof.
  intros Hm Hd. unfold Blender.level_balconies, balconies_on.
  rewrite (BlenderFacts.module_count_nonzero c Hm).
  set (columns := Z.max 3 (Qfloor (Blender.width c / Blender.module c))).
  destruct (BlenderFacts.deep_enough _ Hd) as [-> Hle].
  rewrite BlenderFacts.level_parity, Z.ltb_antisym.
  destruct (level <=? 0)%Z; cbn [negb andb];
    [rewrite andb_false_r; now exists []|].
  assert (All : List.length
                  (flat_map (fun col => Blender.create_balcony c level col columns)
                     (Blender.range columns)) = Z.to_nat columns).
  { rewrite (BlenderFacts.create_all c level columns _ Hd), length_map.
    apply range_length. }
  destruct (Blender.balcony_frequency c); cbn.
  - now exists [].
  - destruct (Z.even level); cbn; eexists; (split; [reflexivity|]);
      [rewrite All; unfold columns; lia | reflexivity].
  - eexists. split; [reflexivity|]. rewrite All. unfold columns. lia.
  - unfold Blender.create_balcony. rewrite Hle. eexists. split; reflexivity.
Qed.

Lemma build_levels_count (c : Blender.cfg) (levels : list Z) :
  ~ Blender.module c == 0 ->
  Blender.threshold < Blender.balcony_depth c ->
  exists placed,
    Blender.build_levels c levels = Some placed
    /\ Z.of_nat (List.length placed) = balconies_in c levels.
Proof.
  intros Hm Hd. induction levels as [|l levels IH]; cbn [Blender.build_levels balconies_in fold_right].
  - now exists [].
  - destruct (level_balconies_count c l Hm Hd) as (here & -> & Hh).
    destruct IH as (later & -> & Hl). exists (here ++ later).
    split; [reflexivity|]. fold (balconies_in c levels).
    rewrite length_app. lia.
Qed.

Lemma balconies_in_app (c : Blender.cfg) (a b : list Z) :
  balconies_in c (a ++ b) = (balconies_in c a + balconies_in c b)%Z.
Proof.
  induction a as [|l a IH]; cbn [app balconies_in fold_right]; [reflexivity|].
  fold (balconies_in c (a ++ b)). fold (balconies_in c a). rewrite IH. lia.
Qed.

Lemma balconies_in_range (c : Blender.cfg) (n : nat) :
  let columns := Z.max 3 (Qfloor (Blender.width c / Blender.module c)) in
  balconies_in c (Blender.range (Z.of_nat (S n)))
  = match Blender.balcony_frequency c with
    | none => 0
    | every => Z.of_nat n * columns
    | alternate => (Z.of_nat n / 2) * columns
    | corners => 2 * Z.of_nat n
    end%Z.
Proof.
  intros columns. induction n as [|n IH].
  - cbn. unfold balconies_on. cbn. destruct (Blender.balcony_frequency c); reflexivity.
  - rewrite range_succ, balconies_in_app, IH.
    cbn [balconies_in fold_right]. unfold balconies_on. fold columns.
    destruct (Z.leb_spec (Z.of_nat (S n)) 0) as [H|_]; [lia|].
    destruct (Blender.balcony_frequency c); try lia.
    destruct (Z.even (Z.of_nat (S n))) eqn:Ev.
    + apply Z.even_spec in Ev. destruct Ev as [k Hk].
      replace (Z.of_nat (S n) / 2)%Z with (Z.of_nat n / 2 + 1)%Z
        by (Z.div_mod_to_equations; lia).
      lia.
    + assert (Hodd : Z.odd (Z.of_nat (S n)) = true)
        by (rewrite <- Z.negb_even, Ev; reflexivity).
      apply Z.odd_spec in Hodd. destruct Hodd as [k Hk].
      replace (Z.of_nat (S n) / 2)%Z with (Z.of_nat n / 2)%Z
        by (Z.div_mod_to_equations; lia).
      lia.
Qed.

(** X11. For a module other than zero, a balcony depth above 0.05 and at
    least one floor, the emitted build loop ends and places, with
    [columns] = max(3, floor(width / module)): no balcony for none,
    [columns] balconies on each floor but the ground floor for every,
    [columns] on each even floor index above 0 for alternate, and two on
    each floor but the ground floor for corners. *)
Theorem balcony_totals (c : Blender.cfg) (floors : Z) :
  ~ Blender.module c == 0 ->
  Blender.threshold < Blender.balcony_depth c ->
  (1 <= floors)%Z ->
  let columns := Z.max 3 (Qfloor (Blender.width c / Blender.module c)) in
  exists placed,
    Blender.build c floors = Some placed
    /\ Z.of_nat (List.length placed)
       = match Blender.balcony_frequency c with
         | none => 0
         | every => (floors - 1) * columns
         | alternate => ((floors - 1) / 2) * columns
         | corners => 2 * (floors - 1)
         end%Z.
Proof.
  intros Hm Hd Hf columns. unfold Blender.build.
  destruct (build_levels_count c (Blender.range floors) Hm Hd) as (placed & E & Hl).
  exists placed. split; [exact E|]. rewrite Hl.
  replace floors with (Z.of_nat (S (Z.to_nat (floors - 1)))) at 1 by lia.
  rewrite balconies_in_range. fold columns.
  replace (Z.of_nat (Z.to_nat (floors - 1))) with (floors - 1)%Z by lia.
  reflexivity.
Qed.

Lemma balcony_totals_witness :
  exists placed,
    Blender.build (Blender.mkCfg alternate (21 # 10) 38 Blender.double_3_2) 18 = Some placed
    /\ Z.of_nat (List.length placed) = 88%Z.
Proof.
  destruct (balcony_totals (Blender.mkCfg alternate (21 # 10) 38 Blender.double_3_2) 18)
    as (placed & E & H); [discriminate | reflexivity | lia |].
  exists placed. split; [exact E | exact H].
Defined.

(** ** Window bands *)

Lemma repetitions_positive (w m : Q) : (1 <= Facade.repetitions w m)%Z.
Proof. apply Z.le_max_l. Qed.

Lemma module_floor_positive (m : Q) : 0 < Qmax 1 m.
Proof. apply (Qlt_le_trans _ 1); [reflexivity | apply Q.le_max_l]. Qed.

Lemma window_inside (w m : Q) (idx : Z) :
  0 < w -> (0 <= idx < Facade.repetitions w m)%Z ->
  - w / 2 < Facade.window_position w m idx
  /\ Facade.window_position w m idx < w / 2.
Proof.
  intros Hw Hi. unfold Facade.window_position.
  set (R := inject_Z (Facade.repetitions w m)).
  set (i := inject_Z idx).
  assert (HR : 0 < R).
  { unfold R. pose proof (repetitions_positive w m).
    unfold Qlt, inject_Z. simpl. lia. }
  assert (Hi0 : 0 <= i) by (unfold i, Qle, inject_Z; simpl; lia).
  assert (Hi1 : i + 1 <= R) by (unfold i, R, Qle, Qplus, inject_Z; simpl; lia).
  set (t := (i + (1 # 2)) / R).
  assert (E : w / R * (i + (1 # 2)) == w * t).
  { unfold t. field. intros H. rewrite H in HR. discriminate. }
  assert (Ht0 : 0 < t).
  { unfold t. apply Qlt_shift_div_l; [exact HR|]. lra. }
  assert (Ht1 : t < 1).
  { unfold t. apply Qlt_shift_div_r; [exact HR|]. lra. }
  assert (P0 : 0 < w * t) by (apply Qmult_lt_0_compat; assumption).
  assert (P1 : w * t < w * 1) by (apply Qmult_lt_l; assumption).
  rewrite E. generalize dependent (w * t). intros y _ P0 P1.
  assert (H2 : - w / 2 + w == w / 2) by field.
  split.
  - rewrite <- (Qplus_0_r (- w / 2)) at 1. now apply Qplus_lt_r.
  - rewrite <- H2. apply Qplus_lt_r. now rewrite Qmult_1_r in P1.
Qed.

Lemma windows_fit (w m : Q) :
  Qmax 1 m <= w -> inject_Z (Facade.repetitions w m) * Qmax 1 m <= w.
Proof.
  intros H. pose proof (module_floor_positive m) as HM.
  set (M := Qmax 1 m) in *.
  assert (H1 : 1 <= w / M) by (apply Qle_shift_div_l; [exact HM | lra]).
  assert (Hf : (1 <= Qfloor (w / M))%Z).
  { change 1%Z with (Qfloor 1). now apply Qfloor_resp_le. }
  unfold Facade.repetitions. fold M. rewrite Z.max_r by exact Hf.
  apply (Qle_trans _ (w / M * M)).
  - apply Qmult_le_compat_r; [apply Qfloor_le | now apply Qlt_le_weak].
  - rewrite Qmult_comm, Qmult_div_r; [apply Qle_refl|].
    intros E. rewrite E in HM. discriminate.
Qed.

(** X12. A window band always has at least one window; on a facade of
    positive width its windows are placed strictly inside the facade;
    when the facade is at least one module wide (the module counted as at
    least 1), the windows at module spacing fit in it.  When the module
    is at least 1 and the front holds at least three modules, the
    balconies use the same number of columns as the front windows and
    their positions are given by the same expression. *)
Theorem window_band (c : Blender.cfg) (w m : Q) (idx : Z) :
  (1 <= Facade.repetitions w m)%Z
  /\ (Qmax 1 m <= w -> inject_Z (Facade.repetitions w m) * Qmax 1 m <= w)
  /\ (0 < w -> (0 <= idx < Facade.repetitions w m)%Z ->
      - w / 2 < Facade.window_position w m idx
      /\ Facade.window_position w m idx < w / 2)
  /\ (1 <= Blender.module c ->
      (3 <= Qfloor (Blender.width c / Blender.module c))%Z ->
      let columns := Facade.repetitions (Blender.width c) (Blender.module c) in
      Blender.module_count c = Some columns
      /\ Facade.balcony_position (Blender.width c) idx columns
         = Facade.window_position (Blender.width c) (Blender.module c) idx).
Proof.
  split; [apply repetitions_positive|]. split; [apply windows_fit|].
  split; [apply window_inside|].
  intros Hm H3 columns.
  assert (Hc : columns = Z.max 3 (Qfloor (Blender.width c / Blender.module c))).
  { unfold columns, Facade.repetitions.
    assert (E : Blender.width c / Qmax 1 (Blender.module c)
                == Blender.width c / Blender.module c)
      by (now rewrite (Q.max_r 1 (Blender.module c) Hm)).
    rewrite (Qfloor_comp _ _ E). lia. }
  split.
  - rewrite BlenderFacts.module_count_nonzero; [now rewrite Hc|].
    intros E. rewrite E in Hm. exact (Hm eq_refl).
  - unfold Facade.balcony_position, Facade.window_position. fold columns.
    rewrite Z.max_r; [reflexivity | rewrite Hc; lia].
Qed.

Lemma window_band_witness :
  Blender.module_count (Blender.mkCfg every (21 # 10) 38 Blender.double_3_2)
  = Some (Facade.repetitions 38 Blender.double_3_2).
Proof.
  destruct (window_band (Blender.mkCfg every (21 # 10) 38 Blender.double_3_2) 38 1 0)
    as (_ & _ & _ & H).
  destruct H as [H _]; [discriminate | vm_compute; discriminate | exact H].
Defined.

(** ** Tints of the preview *)

Lemma Qfloor_half (z : Z) : Qfloor (inject_Z z + (1 # 2)) = z.
Proof.
  unfold Qfloor, Qplus, inject_Z. simpl.
  Z.div_mod_to_equations. lia.
Qed.

Lemma unit_clamp (a : Q) :
  exists t,
    clamp (Finite a) (num 0) (num 1) = Finite t
    /\ 0 <= t /\ t <= 1
    /\ (a <= 0 -> t == 0)
    /\ (1 <= a -> t == 1).
Proof.
  eexists. split; [reflexivity|]. cbn.
  assert (H0 : 0 <= Qmax a 0) by apply Q.le_max_r.
  split; [apply Q.min_glb; [exact H0 | discriminate]|].
  split; [apply Q.le_min_r|]. split.
  - intros H. rewrite (Q.max_r a 0 H). now apply Q.min_l.
  - intros H. apply Q.min_r. apply (Qle_trans _ a); [exact H | apply Q.le_max_l].
Qed.

Lemma round_between (x : Q) (lo hi : Z) :
  inject_Z lo <= x -> x <= inject_Z hi ->
  (lo <= Qfloor (x + (1 # 2)) <= hi)%Z.
Proof.
  intros H1 H2. split.
  - rewrite <- (Qfloor_half lo). apply Qfloor_resp_le. lra.
  - rewrite <- (Qfloor_half hi). apply Qfloor_resp_le. lra.
Qed.

Lemma round_exact (x : Q) (z : Z) : x == inject_Z z -> Qfloor (x + (1 # 2)) = z.
Proof.
  intros E. rewrite <- (Qfloor_half z). apply Qfloor_comp. now rewrite E.
Qed.

(** X13. For a colour of six hex digits, [lightenColor] and
    [mixWithBlack] act on each byte on its own.  A lightened byte is a
    whole number between the byte and 255, a darkened one between 0 and
    the byte; an amount of 0 or less keeps the byte, and an amount of 1 or
    more gives 255 when lightening and 0 when darkening. *)
Theorem tints_stay_in_range (nts : Q -> jsstring) (marker : bool)
    (a b c d e f : ascii) (amount : Q) (z : Z) :
  forallb is_hex_digit [a; b; c; d; e; f] = true ->
  (0 <= z <= 255)%Z ->
  lightenColor nts (with_marker marker [a; b; c; d; e; f]) (Finite amount)
  = rgb_text nts (lighten (Finite amount) (channel (hex_byte a b)))
      (lighten (Finite amount) (channel (hex_byte c d)))
      (lighten (Finite amount) (channel (hex_byte e f)))
  /\ mixWithBlack nts (with_marker marker [a; b; c; d; e; f]) (Finite amount)
     = rgb_text nts (mix (Finite amount) (channel (hex_byte a b)))
         (mix (Finite amount) (channel (hex_byte c d)))
         (mix (Finite amount) (channel (hex_byte e f)))
  /\ (0 <= hex_byte a b <= 255 /\ 0 <= hex_byte c d <= 255 /\ 0 <= hex_byte e f <= 255)%Z
  /\ exists l k : Z,
       lighten (Finite amount) (channel z) = num l
       /\ mix (Finite amount) (channel z) = num k
       /\ (z <= l <= 255)%Z
       /\ (0 <= k <= z)%Z
       /\ (amount <= 0 -> l = z /\ k = z)
       /\ (1 <= amount -> l = 255%Z /\ k = 0%Z).
Proof.
  intros H Hz.
  assert (H' := H). simpl in H'.
  repeat (apply andb_true_iff in H'; let Hx := fresh "Hx" in destruct H' as [Hx H']).
  split; [|split; [|split]].
  - unfold lightenColor.
    now rewrite (hexToRgb_six _ a b c d e f (cleaned_with_marker marker _ H) H).
  - unfold mixWithBlack.
    now rewrite (hexToRgb_six _ a b c d e f (cleaned_with_marker marker _ H) H).
  - repeat split; now apply hex_byte_range.
  - destruct (unit_clamp amount) as (t & Et & T0 & T1 & Tlo & Thi).
    unfold lighten, mix, channel, to_number. rewrite Et.
    unfold num_add, num_mul, num_sub, lift2, Math_round, num.
    assert (Z0 : 0 <= inject_Z z) by (unfold Qle, inject_Z; simpl; lia).
    assert (Z1 : inject_Z z <= 255) by (unfold Qle, inject_Z; simpl; lia).
    eexists _, _. split; [reflexivity|]. split; [reflexivity|].
    change (inject_Z 255) with 255. change (inject_Z 1) with 1.
    split; [apply round_between; [|change (inject_Z 255) with 255]; nra|].
    split; [apply round_between; [change (inject_Z 0) with 0|]; nra|].
    split.
    + intros Ha. specialize (Tlo Ha). split; apply round_exact; rewrite Tlo; ring.
    + intros Ha. specialize (Thi Ha). split; apply round_exact; rewrite Thi.
      * change (inject_Z 255) with 255. ring.
      * change (inject_Z 0) with 0. ring.
Qed.

Lemma tints_stay_in_range_witness :
  exists l k : Z,
    lighten (Finite (15 # 100)) (channel 133) = num l
    /\ mix (Finite (15 # 100)) (channel 133) = num k
    /\ (133 <= l <= 255)%Z /\ (0 <= k <= 133)%Z.
Proof.
  destruct (tints_stay_in_range (fun _ => []) true "8" "5" "c" "3" "f" "f" (15 # 100) 133
              eq_refl) as (_ & _ & _ & l & k & El & Ek & Hl & Hk & _); [lia|].
  exists l, k. repeat split; try assumption; lia.
Defined.

(** ** The preview *)

Lemma Qfloor_succ (x : Q) : Qfloor (x + 1) = (Qfloor x + 1)%Z.
Proof.
  destruct x as [n d]. unfold Qfloor, Qplus. simpl.
  rewrite Z.mul_1_r, Pos.mul_1_r.
  replace (n + Z.pos d)%Z with (n + 1 * Z.pos d)%Z by lia.
  now rewrite Z.div_add.
Qed.

Lemma max_inject_Z (a b : Z) : Qmax (inject_Z a) (inject_Z b) == inject_Z (Z.max a b).
Proof.
  destruct (Z.le_ge_cases a b) as [H|H].
  - rewrite Z.max_r by exact H. apply Q.max_r. now rewrite <- Zle_Qle.
  - rewrite Z.max_l by exact H. apply Q.max_l. now rewrite <- Zle_Qle.
Qed.

Lemma preview_level_nth (c : BuildingConfig) (q : Q) (i : nat) :
  floors c = Finite q ->
  (i < Z.to_nat (Qfloor q))%nat ->
  nth_error (preview_levels c) i = Some (Finite (q - inject_Z (Z.of_nat i))).
Proof.
  intros E Hi. unfold preview_levels. rewrite E. cbn [ToLength].
  rewrite nth_error_map, nth_error_seq.
  destruct (Nat.ltb_spec i (Z.to_nat (Qfloor q))); [reflexivity | lia].
Qed.

(** X14. The preview shows one row per floor: for a floor count [q] it
    lists floor(q) levels, [q], [q - 1] and so on, each at least 1 and no
    two of them equal, so that the rows have distinct keys; for a whole
    floor count these are the levels down to 1.  The number of window
    columns it shows is a whole number, at least 1, and equals the number
    of windows of a band of the same width and module in the script or
    exceeds it by one. *)
Theorem preview_rows (c : BuildingConfig) (q w m : Q) :
  floors c = Finite q ->
  width c = Finite w ->
  windowModule c = Finite m ->
  List.length (preview_levels c) = Z.to_nat (Qfloor q)
  /\ (forall i, (i < Z.to_nat (Qfloor q))%nat ->
        nth_error (preview_levels c) i = Some (Finite (q - inject_Z (Z.of_nat i)))
        /\ 1 <= q - inject_Z (Z.of_nat i))
  /\ (forall i j x y,
        nth_error (preview_levels c) i = Some (Finite x) ->
        nth_error (preview_levels c) j = Some (Finite y) ->
        x == y -> i = j)
  /\ (isInteger q = true ->
      forall i, (i < Z.to_nat (Qfloor q))%nat ->
        q - inject_Z (Z.of_nat i) == inject_Z (Qfloor q - Z.of_nat i))
  /\ exists p k,
       preview_modules c = Finite p
       /\ p == inject_Z k
       /\ (1 <= k)%Z
       /\ (Facade.repetitions w m <= k <= Facade.repetitions w m + 1)%Z.
Proof.
  intros Ef Ew Em.
  assert (Len : List.length (preview_levels c) = Z.to_nat (Qfloor q)).
  { unfold preview_levels. rewrite Ef. cbn [ToLength]. now rewrite length_map, length_seq. }
  split; [exact Len|]. split; [|split; [|split]].
  - intros i Hi. split; [now apply preview_level_nth|].
    pose proof (Qfloor_le q) as Hq.
    assert (Hz : inject_Z (Z.of_nat i) + 1 <= inject_Z (Qfloor q)).
    { rewrite <- (inject_Z_plus _ 1), <- Zle_Qle. lia. }
    lra.
  - intros i j x y Hi Hj Exy.
    assert (Li : (i < Z.to_nat (Qfloor q))%nat)
      by (rewrite <- Len; apply nth_error_Some; congruence).
    assert (Lj : (j < Z.to_nat (Qfloor q))%nat)
      by (rewrite <- Len; apply nth_error_Some; congruence).
    rewrite (preview_level_nth c q i Ef Li) in Hi.
    rewrite (preview_level_nth c q j Ef Lj) in Hj.
    injection Hi as <-. injection Hj as <-.
    assert (E : inject_Z (Z.of_nat i) == inject_Z (Z.of_nat j)) by lra.
    unfold Qeq, inject_Z in E. simpl in E. lia.
  - intros Hw i Hi. unfold isInteger in Hw. apply Qeq_bool_iff in Hw.
    unfold Z.sub. rewrite inject_Z_plus, inject_Z_opp, <- Hw. reflexivity.
  - unfold preview_modules. rewrite Ew, Em.
    set (M := Qmax m (inject_Z 1)).
    assert (HM : 1 <= M) by apply Q.le_max_r.
    assert (HM0 : Qeq_bool M 0 = false).
    { destruct (Qeq_bool M 0) eqn:E; [|reflexivity].
      apply Qeq_bool_iff in E. rewrite E in HM. exfalso. exact (HM eq_refl). }
    cbn [Math_max lift2 num_div num]. fold M. rewrite HM0. cbn [Math_round lift2].
    set (r := Qfloor (w / M + (1 # 2))).
    exists (Qmax (inject_Z 1) (inject_Z r)), (Z.max 1 r).
    split; [reflexivity|]. split; [apply max_inject_Z|]. split; [apply Z.le_max_l|].
    unfold Facade.repetitions.
    assert (EM : w / Qmax 1 m == w / M)
      by (unfold M; change (inject_Z 1) with 1; now rewrite Q.max_comm).
    rewrite (Qfloor_comp _ _ EM).
    assert (R1 : (Qfloor (w / M) <= r)%Z) by (apply Qfloor_resp_le; lra).
    assert (R2 : (r <= Qfloor (w / M) + 1)%Z)
      by (rewrite <- Qfloor_succ; apply Qfloor_resp_le; lra).
    lia.
Qed.

Lemma preview_rows_witness :
  List.length (preview_levels defaultConfig) = 18%nat.
Proof.
  destruct (preview_rows defaultConfig 18 38 (32 # 10) eq_refl eq_refl eq_refl) as [H _].
  exact H.
Defined.

(** ** Letter case of a colour *)

Lemma lower_char_facts (c : ascii) :
  Ascii.eqb (lower_char c) "#" = Ascii.eqb c "#"
  /\ is_line_terminator (lower_char c) = is_line_terminator c
  /\ Ascii.eqb (lower_char c) "-" = Ascii.eqb c "-"
  /\ Ascii.eqb (lower_char c) "+" = Ascii.eqb c "+"
  /\ Ascii.eqb (lower_char c) "0" = Ascii.eqb c "0"
  /\ (Ascii.eqb (lower_char c) "x" || Ascii.eqb (lower_char c) "X")
     = (Ascii.eqb c "x" || Ascii.eqb c "X")
  /\ radix_digit 16 (lower_char c) = radix_digit 16 c.
Proof. destruct c as [[] [] [] [] [] [] [] []]; repeat split; reflexivity. Qed.

Lemma cleaned_lower (s : jsstring) : cleaned (toLowerCase s) = toLowerCase (cleaned s).
Proof.
  unfold cleaned. induction s as [|c s IH]; [reflexivity|].
  cbn [toLowerCase map replace_first_char].
  destruct (lower_char_facts c) as (-> & _).
  destruct (Ascii.eqb c "#"); [reflexivity|].
  cbn [toLowerCase map]. f_equal. exact IH.
Qed.

Lemma match_chunks_lower (s : jsstring) :
  match_chunks (toLowerCase s) = map toLowerCase (match_chunks s).
Proof.
  assert (H : forall n t, (List.length t <= n)%nat ->
                          match_chunks (toLowerCase t) = map toLowerCase (match_chunks t)).
  { induction n as [|n IH]; intros t Ht.
    - destruct t; [reflexivity | simpl in Ht; lia].
    - destruct t as [|a [|b rest]]; [reflexivity| |].
      + cbn [toLowerCase map match_chunks].
        destruct (lower_char_facts a) as (_ & -> & _).
        now destruct (is_line_terminator a).
      + simpl in Ht. cbn [toLowerCase map].
        change (match_chunks (lower_char a :: lower_char b :: map lower_char rest))
          with (if is_line_terminator (lower_char a)
                then match_chunks (toLowerCase (b :: rest))
                else if is_line_terminator (lower_char b)
                     then [lower_char a] :: match_chunks (toLowerCase rest)
                     else [lower_char a; lower_char b] :: match_chunks (toLowerCase rest)).
        change (match_chunks (a :: b :: rest))
          with (if is_line_terminator a
                then match_chunks (b :: rest)
                else if is_line_terminator b
                     then [a] :: match_chunks rest
                     else [a; b] :: match_chunks rest).
        destruct (lower_char_facts a) as (_ & -> & _).
        destruct (lower_char_facts b) as (_ & -> & _).
        destruct (is_line_terminator a); [apply IH; simpl; lia|].
        destruct (is_line_terminator b); cbn [map]; f_equal; apply IH; lia. }
  apply (H (List.length s)). lia.
Qed.

Lemma chunk_lower (s : jsstring) : chunk (toLowerCase s) = map toLowerCase (chunk s).
Proof.
  unfold chunk. unfold toLowerCase at 1. rewrite length_map.
  destruct (List.length s =? 3)%nat.
  - unfold toLowerCase. rewrite !map_map. reflexivity.
  - rewrite match_chunks_lower. now destruct (match_chunks s).
Qed.

Lemma read_digits_lower (s : jsstring) :
  forall acc, read_digits 16 (toLowerCase s) acc = read_digits 16 s acc.
Proof.
  induction s as [|c s IH]; intros acc; [reflexivity|].
  cbn [toLowerCase map read_digits].
  destruct (lower_char_facts c) as (_ & _ & _ & _ & _ & _ & ->).
  destruct (radix_digit 16 c); [apply IH | reflexivity].
Qed.

Lemma parseInt_lower (s : jsstring) : parseInt (toLowerCase s) 16 = parseInt s 16.
Proof.
  unfold parseInt. rewrite drop_whitespace_lower.
  set (t := drop_whitespace s).
  assert (S : read_sign (toLowerCase t)
              = (fst (read_sign t), toLowerCase (snd (read_sign t)))).
  { unfold read_sign. destruct t as [|c t']; [reflexivity|].
    cbn [toLowerCase map].
    destruct (lower_char_facts c) as (_ & _ & -> & -> & _).
    destruct (Ascii.eqb c "-"); [reflexivity|].
    destruct (Ascii.eqb c "+"); reflexivity. }
  rewrite S. destruct (read_sign t) as [sign u]. cbn [fst snd].
  assert (P : strip_prefix 16 (toLowerCase u) = toLowerCase (strip_prefix 16 u)).
  { unfold strip_prefix. destruct u as [|z [|x rest]]; try reflexivity.
    cbn [toLowerCase map].
    destruct (lower_char_facts z) as (_ & _ & _ & _ & -> & _).
    destruct (lower_char_facts x) as (_ & _ & _ & _ & _ & -> & _).
    now destruct ((16 =? 16)%Z && Ascii.eqb z "0" && (Ascii.eqb x "x" || Ascii.eqb x "X")). }
  now rewrite P, read_digits_lower.
Qed.

Lemma hexToRgb_lower (hex : jsstring) : hexToRgb (toLowerCase hex) = hexToRgb hex.
Proof.
  unfold hexToRgb. rewrite cleaned_lower, chunk_lower, map_map.
  rewrite (map_ext (fun c => parseInt (toLowerCase c) 16) (fun c => parseInt c 16)
             parseInt_lower).
  reflexivity.
Qed.

(** X15. The conversion of a colour does not depend on the case of its
    letters: a colour and its lower-case form give the same channels and
    the same tuple text, whatever the text of the colour is. *)
Theorem colour_case_insensitive (nts : Q -> jsstring) (hex : jsstring) :
  hexToRgb (toLowerCase hex) = hexToRgb hex
  /\ colorToPythonTuple nts (toLowerCase hex) = colorToPythonTuple nts hex.
Proof.
  split; [apply hexToRgb_lower|].
  unfold colorToPythonTuple. now rewrite hexToRgb_lower.
Qed.

(** ** The value of a rendered number *)

Lemma uint_value_text (u : Decimal.uint) :
  forall acc, digits_value (str (NilEmpty.string_of_uint u)) acc = uint_value u acc.
Proof. induction u; intros acc; cbn; try apply IHu; reflexivity. Qed.

Lemma uint_value_acc (u : Decimal.uint) :
  forall acc, Z.pos (Pos.of_uint_acc u acc) = uint_value u (Z.pos acc).
Proof.
  induction u; intros acc; cbn [Pos.of_uint_acc uint_value];
    try reflexivity; rewrite IHu; f_equal; lia.
Qed.

Lemma uint_value_of_uint (u : Decimal.uint) : Z.of_N (Pos.of_uint u) = uint_value u 0.
Proof.
  induction u; cbn [Pos.of_uint uint_value]; try reflexivity; try exact IHu;
    cbn [Z.of_N]; now rewrite uint_value_acc.
Qed.

Lemma decimal_value (n : Z) : (0 <= n)%Z -> digits_value (decimal n) 0 = n.
Proof.
  intros H. unfold decimal, NilZero.string_of_uint.
  assert (E : uint_value (N.to_uint (Z.to_N n)) 0 = n).
  { rewrite <- uint_value_of_uint.
    change (Pos.of_uint (N.to_uint (Z.to_N n))) with (N.of_uint (N.to_uint (Z.to_N n))).
    rewrite DecimalN.Unsigned.of_to. lia. }
  destruct (N.to_uint (Z.to_N n)) eqn:Eu; try (rewrite uint_value_text; exact E).
  cbn in E. cbn. exact E.
Qed.

Lemma digits_value_app (a b : jsstring) (acc : Z) :
  digits_value (a ++ b) acc = digits_value b (digits_value a acc).
Proof. unfold digits_value. apply fold_left_app. Qed.

Lemma digits_value_zeros (k : nat) : digits_value (repeat "0"%char k) 0 = 0%Z.
Proof. induction k as [|k IH]; [reflexivity | exact IH]. Qed.

Lemma Qfloor_nonneg (q : Q) : 0 <= q -> (0 <= Qfloor q)%Z.
Proof. intros H. apply (Qfloor_resp_le 0 q) in H. exact H. Qed.

Lemma scaled_half_nonneg (x : Q) (f : nat) :
  0 <= Qabs x * inject_Z (10 ^ Z.of_nat f) + (1 # 2).
Proof.
  assert (P : (0 < 10 ^ Z.of_nat f)%Z) by (apply Z.pow_pos_nonneg; lia).
  assert (A : 0 <= Qabs x) by apply Qabs_nonneg.
  assert (B : 0 <= inject_Z (10 ^ Z.of_nat f)).
  { unfold Qle, inject_Z. simpl. lia. }
  pose proof (Qmult_le_0_compat _ _ A B). lra.
Qed.

Lemma signed_text_parts (sign a rest : jsstring) :
  sign = str "-" \/ sign = [] ->
  all_digits a = true -> nonempty a = true ->
  strip_sign (sign ++ a ++ rest) = a ++ rest
  /\ (if starts_with_hyphen (sign ++ a ++ rest) then (-1)%Z else 1%Z)
     = match sign with [] => 1%Z | _ => (-1)%Z end.
Proof.
  intros [-> | ->] Ha Hn; [split; reflexivity|].
  destruct a as [|c a]; [discriminate|].
  cbn [all_digits forallb] in Ha. apply andb_true_iff in Ha. destruct Ha as [Hc _].
  cbn [app strip_sign starts_with_hyphen]. now rewrite (digit_not_minus c Hc).
Qed.

Lemma split_point_all_digits (s : jsstring) :
  all_digits s = true -> split_point s = None.
Proof.
  induction s as [|c s IH]; [reflexivity|].
  intros H. cbn [all_digits forallb] in H. apply andb_true_iff in H.
  destruct H as [Hc Hs].
  cbn [split_point]. now rewrite (digit_not_point c Hc), (IH Hs).
Qed.

(** The value of a sign, digits, a point and digits. *)
Lemma numeral_value_fixed (sign a b : jsstring) :
  sign = str "-" \/ sign = [] ->
  all_digits a = true -> nonempty a = true ->
  all_digits b = true -> nonempty b = true ->
  numeral_value (sign ++ a ++ str "." ++ b)
  = Some (((match sign with [] => 1 | _ => -1 end) * digits_value (a ++ b) 0)%Z
          # Z.to_pos (10 ^ Z.of_nat (List.length b))).
Proof.
  intros Hs Ha Hna Hb Hnb. unfold numeral_value.
  destruct (signed_text_parts sign a (str "." ++ b) Hs Ha Hna) as [-> ->].
  change (str "." ++ b) with ("."%char :: b).
  now rewrite (split_point_digits a b Ha), Hna, Ha, Hnb, Hb.
Qed.

(** The value of a sign and digits. *)
Lemma numeral_value_integer (sign a : jsstring) :
  sign = str "-" \/ sign = [] ->
  all_digits a = true -> nonempty a = true ->
  numeral_value (sign ++ a)
  = Some (inject_Z ((match sign with [] => 1 | _ => -1 end) * digits_value a 0)).
Proof.
  intros Hs Ha Hna. unfold numeral_value.
  destruct (signed_text_parts sign a [] Hs Ha Hna) as [E1 E2].
  rewrite app_nil_r in E1, E2. rewrite E1, E2.
  now rewrite (split_point_all_digits a Ha), Hna, Ha.
Qed.

(** Below 10^21 in magnitude, the numeral of [toFixed(f)] denotes the
    rounded value. *)
Lemma numeral_value_toFixed (nts : Q -> jsstring) (x : Q) (f : nat) :
  Qabs x < inject_Z ten_pow_21 ->
  numeral_value (toFixed nts x f) = Some (rounded x f).
Proof.
  intros Hx. unfold toFixed. rewrite (below_cutoff x Hx).
  set (n := Qfloor (Qabs x * inject_Z (10 ^ Z.of_nat f) + (1 # 2))).
  assert (Hn : (0 <= n)%Z) by apply Qfloor_nonneg, scaled_half_nonneg.
  set (m := decimal n).
  assert (Hm : all_digits m = true) by apply decimal_all_digits.
  assert (Hne : nonempty m = true) by apply decimal_nonempty.
  assert (Hv : digits_value m 0 = n) by now apply decimal_value.
  destruct f as [|f'].
  - rewrite (numeral_value_integer _ m (sign_cases x) Hm Hne), Hv.
    unfold rounded. fold n. destruct (Qlt_bool x 0); reflexivity.
  - set (f := S f') in *.
    assert (Hlen : (0 < List.length m)%nat) by (destruct m; [discriminate | simpl; lia]).
    set (m' := if (List.length m <=? f)%nat
               then repeat "0"%char (f + 1 - List.length m) ++ m else m).
    assert (Hm' : all_digits m' = true).
    { unfold m'. destruct (List.length m <=? f)%nat; [|exact Hm].
      now rewrite all_digits_app, all_digits_zeros, Hm. }
    assert (Hlen' : (f < List.length m')%nat).
    { unfold m'. destruct (Nat.leb_spec (List.length m) f) as [Hle|Hgt]; [|exact Hgt].
      rewrite length_app, repeat_length. lia. }
    assert (Hv' : digits_value m' 0 = n).
    { unfold m'. destruct (List.length m <=? f)%nat; [|exact Hv].
      now rewrite digits_value_app, digits_value_zeros. }
    set (a := firstn (List.length m' - f) m').
    set (b := skipn (List.length m' - f) m').
    assert (Hb : List.length b = f) by (unfold b; rewrite length_skipn; lia).
    assert (Ha : nonempty a = true).
    { destruct a eqn:E; [|reflexivity].
      apply (f_equal (@List.length ascii)) in E. unfold a in E.
      rewrite length_firstn in E. simpl in E. lia. }
    assert (Hnb : nonempty b = true).
    { destruct b; [simpl in Hb; unfold f in Hb; discriminate | reflexivity]. }
    rewrite (numeral_value_fixed _ a b (sign_cases x)
               (all_digits_firstn _ _ Hm') Ha (all_digits_skipn _ _ Hm') Hnb).
    unfold a, b at 1. rewrite firstn_skipn, Hv', Hb.
    unfold rounded. fold n. destruct (Qlt_bool x 0); reflexivity.
Qed.

Lemma Qlt_bool_cases (x : Q) :
  (Qlt_bool x 0 = true /\ x < 0 /\ Qabs x == - x)
  \/ (Qlt_bool x 0 = false /\ 0 <= x /\ Qabs x == x).
Proof.
  unfold Qlt_bool. destruct (Qle_bool 0 x) eqn:E.
  - right. apply Qle_bool_iff in E. repeat split; [exact E|]. now apply Qabs_pos.
  - left. assert (L : x < 0).
    { apply Qnot_le_lt. intros H. apply Qle_bool_iff in H. congruence. }
    repeat split; [exact L|]. apply Qabs_neg. lra.
Qed.

(** The rounded value is within half a unit of the last digit. *)
Lemma rounded_close (x : Q) (f : nat) :
  Qabs (rounded x f - x) * inject_Z (10 ^ Z.of_nat f) <= 1 # 2.
Proof.
  assert (P : (0 < 10 ^ Z.of_nat f)%Z) by (apply Z.pow_pos_nonneg; lia).
  set (p := inject_Z (10 ^ Z.of_nat f)).
  assert (Hp : 0 < p) by (unfold p, Qlt, inject_Z; simpl; lia).
  set (n := Qfloor (Qabs x * p + (1 # 2))).
  pose proof (Qfloor_le (Qabs x * p + (1 # 2))) as L.
  pose proof (Qlt_floor (Qabs x * p + (1 # 2))) as U.
  fold n in L, U.
  assert (U' : Qabs x * p + (1 # 2) < inject_Z n + 1).
  { rewrite inject_Z_plus in U. exact U. }
  clear U.
  assert (E : rounded x f * p == inject_Z ((if Qlt_bool x 0 then -1 else 1) * n)).
  { unfold rounded. fold p. fold n. rewrite (Qmake_Qdiv _ (Z.to_pos _)).
    rewrite Z2Pos.id by exact P. fold p. field. lra. }
  assert (M : Qabs (rounded x f - x) * p == Qabs (rounded x f * p - x * p)).
  { rewrite <- (Qabs_pos p) at 1 by lra. rewrite <- Qabs_Qmult.
    apply Qabs_wd. ring. }
  rewrite M, E. clear M E.
  apply Qabs_Qle_condition.
  destruct (Qlt_bool_cases x) as [(-> & Hx & A) | (-> & Hx & A)];
    rewrite A in L, U'.
  - change (-1 * n)%Z with (- n)%Z. rewrite inject_Z_opp. split; lra.
  - rewrite Z.mul_1_l. split; lra.
Qed.

(** A number without fractional part is rendered exactly. *)
Lemma rounded_integer (x : Q) : isInteger x = true -> rounded x 0 == x.
Proof.
  intros H. unfold isInteger in H. apply Qeq_bool_iff in H.
  unfold rounded. change (Z.to_pos (10 ^ Z.of_nat 0)) with 1%positive.
  change (inject_Z (10 ^ Z.of_nat 0)) with 1.
  set (k := Qfloor x) in *.
  destruct (Qlt_bool_cases x) as [(-> & Hx & A) | (-> & Hx & A)].
  - assert (F : Qfloor (Qabs x * 1 + (1 # 2)) = (- k)%Z).
    { assert (Q1 : Qabs x * 1 + (1 # 2) == inject_Z (- k) + (1 # 2)).
      { rewrite A, H, inject_Z_opp. ring. }
      rewrite (Qfloor_comp _ _ Q1). apply Qfloor_half. }
    rewrite F. apply (Qeq_trans _ (inject_Z k)); [|symmetry; exact H].
    change (-1 * - k)%Z with (- - k)%Z. rewrite Z.opp_involutive. reflexivity.
  - assert (F : Qfloor (Qabs x * 1 + (1 # 2)) = k).
    { assert (Q1 : Qabs x * 1 + (1 # 2) == inject_Z k + (1 # 2)).
      { rewrite A, H. ring. }
      rewrite (Qfloor_comp _ _ Q1). apply Qfloor_half. }
    rewrite F, Z.mul_1_l. apply (Qeq_trans _ (inject_Z k)); [|symmetry; exact H].
    reflexivity.
Qed.

(** X16. Below 10^21 in magnitude, the decimal numeral that [toFixed(f)]
    writes denotes, read exactly, a number within half a unit of its last
    digit of the number rendered; so the numeral [formatNumber] puts in
    the script is within 0.005 of the configured value, and denotes
    exactly that value when it has no fractional part. *)
Theorem formatNumber_within_half_unit (nts : Q -> jsstring) (x : Q) (f : nat) :
  Qabs x < inject_Z ten_pow_21 ->
  (exists q,
     numeral_value (toFixed nts x f) = Some q
     /\ Qabs (q - x) * inject_Z (10 ^ Z.of_nat f) <= 1 # 2)
  /\ (exists q,
        numeral_value (formatNumber nts (Finite x)) = Some q
        /\ Qabs (q - x) <= 1 # 200
        /\ (isInteger x = true -> q == x)).
Proof.
  intros Hx. split.
  - exists (rounded x f). split; [now apply numeral_value_toFixed | apply rounded_close].
  - unfold formatNumber. destruct (isInteger x) eqn:I.
    + exists (rounded x 0). split; [now apply numeral_value_toFixed|].
      pose proof (rounded_integer x I) as E. split; [|intros _; exact E].
      assert (Z0 : Qabs (rounded x 0 - x) == 0).
      { rewrite (Qabs_wd _ 0); [reflexivity | lra]. }
      rewrite Z0. discriminate.
    + exists (rounded x 2). split; [now apply numeral_value_toFixed|].
      split; [|discriminate].
      pose proof (rounded_close x 2) as C.
      change (inject_Z (10 ^ Z.of_nat 2)) with 100 in C. lra.
Qed.

Lemma formatNumber_within_half_unit_witness :
  Qabs (-7 # 3) < inject_Z ten_pow_21
  /\ numeral_value (formatNumber (fun _ => []) (Finite (-7 # 3))) = Some (-233 # 100)
  /\ exists q,
       numeral_value (formatNumber (fun _ => []) (Finite (-7 # 3))) = Some q
       /\ Qabs (q - (-7 # 3)) <= 1 # 200.
Proof.
  split; [reflexivity|]. split; [vm_compute; reflexivity|].
  destruct (formatNumber_within_half_unit (fun _ => []) (-7 # 3) 2 eq_refl)
    as (_ & q & E & C & _).
  exists q. split; assumption.
Defined.
